(** * Verification of the Kubernetes failure-dataset generator

    A shallow embedding of the two collection scripts of the repository,
    [dataset-generator.py] (static configuration) and [azure/datasetgen.py]
    (configuration from the environment, bearer-token authentication), and
    the properties of one collection cycle.

    Conventions of the embedding.
    - Python values that end up in a row are [pyval]s; a Python [float] is a
      binary64 primitive float, an [int] a [Z], a [str] a [string].
    - A [dict] whose order of keys matters (a row, an event summary) is an
      association list with Python's update discipline; a metric mapping is a
      [gmap string float], the set of candidate pods a [gset string].
    - A datetime is the number of microseconds since the epoch, a timedelta a
      number of microseconds.
    - The cluster API, the metrics backend, the credential provider and the
      clock are an oracle: what a call returns may depend on every call made
      before it.  A computation threads the list of calls made so far, the
      output file and the last-known-state map, and either returns a value
      or raises.
    - Attributes that the source dereferences without a guard ([pod.status],
      [pod.spec], [container.state], [event.source]) are present, as the
      cluster API returns them; attributes the source guards are options.
    - Console output and the error log are not modelled. *)

From Stdlib Require Import ZArith String Ascii List Lia DecimalString.
From Stdlib Require Import Floats.
From stdpp Require Import gmap strings list.

Local Open Scope string_scope.
Local Open Scope Z_scope.

(** ** Python values *)

Inductive pyval : Type :=
| PNone
| PStr (s : string)
| PInt (z : Z)
| PFloat (f : float).

(** [None] for an absent optional string attribute. *)
Definition of_opt_str (o : option string) : pyval :=
  match o with
  | Some s => PStr s
  | None => PNone
  end.

(** [str(n)] for an [int]. *)
Definition str_of_int (n : Z) : string := NilZero.string_of_int (Z.to_int n).

(** [str(v)], as an f-string formats a string, an integer or [None]. *)
Definition py_str (v : pyval) : string :=
  match v with
  | PNone => "None"
  | PStr s => s
  | PInt z => str_of_int z
  | PFloat _ => "<float>"
  end.

(** Exceptions a callee can raise.  [ApiException] carries the HTTP status
    and [str(e)]; every member of the [requests.exceptions] hierarchy is a
    [RequestException]; anything else is an [OtherError]. *)
Inductive exn : Type :=
| ApiException (status : Z) (msg : string)
| RequestException (msg : string)
| ZeroDivisionError
| OtherError (msg : string).

Definition exn_str (e : exn) : string :=
  match e with
  | ApiException _ m => m
  | RequestException m => m
  | ZeroDivisionError => "float division by zero"
  | OtherError m => m
  end.

(** ** Dictionaries with insertion order *)

Definition dict : Type := list (string * pyval).

Fixpoint dict_set (k : string) (v : pyval) (d : dict) : dict :=
  match d with
  | [] => [(k, v)]
  | (k', v') :: d' =>
      if String.eqb k' k then (k', v) :: d' else (k', v') :: dict_set k v d'
  end.

Fixpoint dict_get (k : string) (d : dict) : option pyval :=
  match d with
  | [] => None
  | (k', v') :: d' => if String.eqb k' k then Some v' else dict_get k d'
  end.

(** [{**d, **items}]: the items are set one after the other. *)
Definition dict_update (d : dict) (items : list (string * pyval)) : dict :=
  fold_left (fun acc kv => dict_set (fst kv) (snd kv) acc) items d.

(** A dict display [{k1: v1, ..., **d1, ...}] starts from the empty dict. *)
Definition dict_lit (items : list (string * pyval)) : dict := dict_update [] items.

Definition keys (d : dict) : list string := map fst d.

(** ** Strings *)

(** [sub in s] on Python strings: [sub] occurs in [s] as a substring. *)
Fixpoint str_contains (sub s : string) : bool :=
  if String.prefix sub s then true
  else match s with
       | EmptyString => false
       | String _ s' => str_contains sub s'
       end.

(** [s.split('.')[0]]: the part of [s] before its first full stop. *)
Fixpoint split_dot_head (s : string) : string :=
  match s with
  | EmptyString => EmptyString
  | String c s' => if Ascii.eqb c "."%char then EmptyString else String c (split_dot_head s')
  end.

(** ** Floats *)

(** [a / b] on Python floats raises when the divisor is zero. *)
Definition py_truediv (a b : float) : exn + float :=
  if PrimFloat.eqb b 0%float then inl ZeroDivisionError else inr (PrimFloat.div a b).

(** [x > 0]. *)
Definition gt_zero (x : float) : bool := PrimFloat.ltb 0%float x.

(** ** The exclusion list *)

Definition EXCLUDE_POD_NAMES : list string :=
  ["opensearch"; "prometheus"; "otelcol"; "loadgenerator";
   "jaeger"; "grafana"; "featureflagservice"].

(** [any(excluded in pod_name for excluded in EXCLUDE_POD_NAMES)] *)
Definition should_exclude_pod (pod_name : string) : bool :=
  existsb (fun excluded => str_contains excluded pod_name) EXCLUDE_POD_NAMES.

(** ** Records of the cluster API *)

Record V1ContainerStateTerminated : Type := {
  term_exit_code : Z;
  term_reason : option string }.

Record V1ContainerStateWaiting : Type := {
  wait_reason : option string }.

Record V1ContainerState : Type := {
  waiting : option V1ContainerStateWaiting;
  terminated : option V1ContainerStateTerminated }.

Record V1ContainerStatus : Type := {
  restart_count : Z;
  ready : bool;
  state : V1ContainerState }.

(** A pod: [metadata.name], [status.phase], [status.reason],
    [status.container_statuses], [status.init_container_statuses],
    [spec.containers] (their names) and [spec.node_name]. *)
Record V1Pod : Type := {
  metadata_name : string;
  phase : option string;
  status_reason : option string;
  container_statuses : option (list V1ContainerStatus);
  init_container_statuses : option (list V1ContainerStatus);
  spec_containers : list string;
  node_name : option string }.

(** An event: [type], [reason], [message], [source.component] and the three
    timestamps. *)
Record V1Event : Type := {
  ev_type : option string;
  ev_reason : option string;
  ev_message : option string;
  source_component : option string;
  last_timestamp : option Z;
  event_time : option Z;
  first_timestamp : option Z }.

(** ** The world outside the scripts *)

Inductive call : Type :=
| GetAccessToken
| PrometheusQuery (token : option string) (query : string)
| ReadNamespacedPod (name namespace : string)
| ListNamespacedEvent (namespace field_selector : string)
| ListEventForAllNamespaces (field_selector : string)
| ReadNamespacedPodLog (name namespace : string)
| ListNamespacedPod (namespace : string)
| UtcNow
| LocalNow
| Sleep (seconds : Z).

(** What each callee answers, given the calls made before.  A metric query,
    sent with a bearer token or without one, answers with the
    [(pod label, value)] pairs of the decoded response, the log call with the
    text it read. *)
Record backend : Type := {
  token_response : list call -> exn + string;
  query_response : list call -> option string -> string -> exn + list (string * float);
  pod_response : list call -> string -> string -> exn + V1Pod;
  events_response : list call -> string -> string -> exn + list V1Event;
  all_events_response : list call -> string -> exn + list V1Event;
  log_response : list call -> string -> string -> exn + string;
  pods_response : list call -> string -> exn + list V1Pod;
  utc_clock : list call -> Z;
  local_clock : list call -> string }.

(** A line of the output file: the header of a frame or one of its records,
    a cell being empty where the row has no such column. *)
Inductive csv_line : Type :=
| HeaderLine (columns : list string)
| RecordLine (cells : list (option pyval)).

Record world : Type := {
  calls : list call;
  output_file : option (list csv_line);
  last_known_pod_states : gmap string (option string) }.

Definition initial_world : world :=
  {| calls := []; output_file := None; last_known_pod_states := ∅ |}.

(** ** Computations: state and exceptions *)

Definition M (A : Type) : Type := world -> (exn + A) * world.

Definition ret {A} (a : A) : M A := fun w => (inr a, w).

Definition raise {A} (e : exn) : M A := fun w => (inl e, w).

Definition bind {A B} (m : M A) (k : A -> M B) : M B :=
  fun w =>
    match m w with
    | (inl e, w') => (inl e, w')
    | (inr a, w') => k a w'
    end.

#[global] Instance M_ret : MRet M := @ret.
#[global] Instance M_bind : MBind M := fun A B k m => bind m k.

(** [try: body except Exception as e: handler(e)] *)
Definition try_except {A} (body : M A) (handler : exn -> M A) : M A :=
  fun w =>
    match body w with
    | (inl e, w') => handler e w'
    | (inr a, w') => (inr a, w')
    end.

(** The world once one more call is made. *)
Definition called (c : call) (w : world) : world :=
  {| calls := (calls w ++ [c])%list;
     output_file := output_file w;
     last_known_pod_states := last_known_pod_states w |}.

(** A call to a callee: it is recorded, and answers or raises. *)
Definition invoke {A} (c : call) (answer : list call -> exn + A) : M A :=
  fun w => (answer (calls w), called c w).

(** A pure step that may raise. *)
Definition lift {A} (r : exn + A) : M A := fun w => (r, w).

Definition result {A} (m : M A) (w : world) : exn + A := fst (m w).
Definition after {A} (m : M A) (w : world) : world := snd (m w).

(** ** Timestamps of events *)

Definition get_event_timestamp (event : V1Event) : option Z :=
  match last_timestamp event with
  | Some t => Some t
  | None =>
      match event_time event with
      | Some t => Some t
      | None => first_timestamp event
      end
  end.

(** The sort key of an event kept by the filter, whose timestamp is present. *)
Definition key_of (ts : V1Event -> option Z) (event : V1Event) : Z :=
  default 0 (ts event).

(** [sorted(l, key=key, reverse=True)]: descending, and stable, so events
    with equal keys keep their order. *)
Fixpoint insert_desc {A} (key : A -> Z) (x : A) (l : list A) : list A :=
  match l with
  | [] => [x]
  | y :: l' => if key x <? key y then y :: insert_desc key x l' else x :: l
  end.

Definition sorted_desc {A} (key : A -> Z) (l : list A) : list A :=
  fold_right (insert_desc key) [] l.

(** [[event for event in items if ts(event)]] *)
Definition valid_events (ts : V1Event -> option Z) (items : list V1Event) : list V1Event :=
  List.filter (fun event => bool_decide (is_Some (ts event))) items.

(** [sorted(valid_events, key=ts, reverse=True)[0]], when there is one. *)
Definition latest_event (ts : V1Event -> option Z) (items : list V1Event) : option V1Event :=
  head (sorted_desc (key_of ts) (valid_events ts items)).

(** ** Ages *)

(** ["%0<width>d" % n] for [n] that is not negative. *)
Definition pad (width : nat) (n : Z) : string :=
  let s := str_of_int n in
  String.concat "" (repeat "0" (width - String.length s)) ++ s.

(** [str(td)] for a timedelta of [us] microseconds. *)
Definition timedelta_str (us : Z) : string :=
  let days := us / 86400000000 in
  let rest := us mod 86400000000 in
  let seconds := rest / 1000000 in
  let microseconds := rest mod 1000000 in
  let mm := seconds / 60 in
  let ss := seconds mod 60 in
  let hh := mm / 60 in
  let mm := mm mod 60 in
  let s := str_of_int hh ++ ":" ++ pad 2 mm ++ ":" ++ pad 2 ss in
  let s := if days =? 0 then s
           else str_of_int days ++ " day" ++ (if Z.abs days =? 1 then "" else "s") ++ ", " ++ s in
  if microseconds =? 0 then s else s ++ "." ++ pad 6 microseconds.

(** [str(now - ts).split('.')[0]] *)
Definition event_age_str (now ts : Z) : string :=
  split_dot_head (timedelta_str (now - ts)).

(** ** What both scripts share *)

(** The double quote, for the label matchers of a query. *)
Definition dq : string := String (ascii_of_nat 34) EmptyString.

(** [{item['metric']['pod']: float(item['value'][1]) for item in results}]:
    a later sample of a pod replaces an earlier one. *)
Definition to_mapping (results : list (string * float)) : gmap string float :=
  fold_left (fun m item => <[fst item := snd item]> m) results ∅.

(** [mapping.get(pod, 'N/A')] *)
Definition get_or_na (mapping : gmap string float) (pod : string) : pyval :=
  match mapping !! pod with
  | Some v => PFloat v
  | None => PStr "N/A"
  end.

(** [mapping.get(pod, 0)]: the integer default behaves as the float zero in
    the comparison and in the division that follow. *)
Definition get_or_zero (mapping : gmap string float) (pod : string) : float :=
  default 0%float (mapping !! pod).

(** [set(usage.keys()).union(limit.keys())], in the order the model iterates
    it; Python leaves the order of a set unspecified. *)
Definition candidate_pods (usage limit : gmap string float) : list string :=
  elements (dom usage ∪ dom limit).

(** [{pod.metadata.name: pod.status.phase for pod in items
      if not should_exclude_pod(pod.metadata.name)}] *)
Definition pod_states (items : list V1Pod) : gmap string (option string) :=
  fold_left
    (fun m pod =>
       if should_exclude_pod (metadata_name pod) then m
       else <[metadata_name pod := phase pod]> m)
    items ∅.

(** The two loops that bring the last-known map up to date: every current
    pod is recorded, then every pod that is no longer current is deleted. *)
Definition update_last_known (current last : gmap string (option string))
  : gmap string (option string) :=
  filter (fun kv => fst kv ∈ dom current) (current ∪ last).

(** [pd.DataFrame(data)]: the columns are the keys of the rows in order of
    first appearance. *)
Definition frame_columns (data : list dict) : list string :=
  fold_left
    (fun cols row =>
       fold_left (fun (cols : list string) k =>
          if bool_decide (k ∈ cols) then cols else (cols ++ [k])%list)
                 (keys row) cols)
    data [].

(** [df.to_csv(..., index=False, header=header)]: the lines written. *)
Definition to_csv_lines (header : bool) (data : list dict) : list csv_line :=
  let columns := frame_columns data in
  ((if header then [HeaderLine columns] else [])
   ++ map (fun row => RecordLine (map (fun c => dict_get c row) columns)) data)%list.

(** Writing with [mode='w'] replaces the file, with [mode='a'] extends it,
    creating it when it is missing. *)
Definition write_file (append : bool) (lines : list csv_line) : M unit :=
  fun w =>
    (inr tt,
     {| calls := calls w;
        output_file :=
          Some (if append then (default [] (output_file w) ++ lines)%list else lines);
        last_known_pod_states := last_known_pod_states w |}).

(** [os.path.isfile(OUTPUT_FILE)] *)
Definition isfile : M bool :=
  fun w => (inr (bool_decide (is_Some (output_file w))), w).

Definition set_last_known (m : gmap string (option string)) : M unit :=
  fun w =>
    (inr tt,
     {| calls := calls w;
        output_file := output_file w;
        last_known_pod_states := m |}).

Definition get_last_known : M (gmap string (option string)) :=
  fun w => (inr (last_known_pod_states w), w).

Definition terminated_ok (c : V1ContainerStatus) : bool :=
  match terminated (state c) with
  | Some t => term_exit_code t =? 0
  | None => false
  end.

(** [t.reason or t.exit_code] *)
Definition reason_or_exit_code (t : V1ContainerStateTerminated) : pyval :=
  match term_reason t with
  | Some EmptyString => PInt (term_exit_code t)
  | Some s => PStr s
  | None => PInt (term_exit_code t)
  end.

(** The result tuple of [get_pod_status]. *)
Record pod_status : Type := {
  ps_status : pyval;
  ps_reason : pyval;
  ps_restarts : Z;
  ps_ready_containers : Z;
  ps_total_containers : Z;
  ps_error_message : pyval }.

(** [sum(1 for c in statuses if c.ready)] *)
Definition count_ready (statuses : list V1ContainerStatus) : Z :=
  Z.of_nat (length (List.filter ready statuses)).

(** [sum(c.restart_count for c in statuses)] *)
Definition sum_restarts (statuses : list V1ContainerStatus) : Z :=
  fold_right (fun c acc => restart_count c + acc) 0 statuses.

(** ** The script with static configuration: [dataset-generator.py] *)

Module Static.
Section Script.

Variable B : backend.

Definition NAMESPACE : string := "otel-demo".
Definition SLEEP_INTERVAL : Z := 5.

(** The loop over the init containers, left at the first one that terminated
    with a nonzero exit code. *)
Fixpoint init_loop (statuses : list V1ContainerStatus) (restarts : Z) (reason : pyval)
  : Z * pyval :=
  match statuses with
  | [] => (restarts, reason)
  | container :: rest =>
      let restarts := restarts + restart_count container in
      match terminated (state container) with
      | Some t =>
          if negb (term_exit_code t =? 0)
          then (restarts, PStr ("Init: " ++ py_str (reason_or_exit_code t)))
          else init_loop rest restarts reason
      | None => init_loop rest restarts reason
      end
  end.

(** The loop over the regular containers. *)
Fixpoint containers_loop (statuses : list V1ContainerStatus) (restarts : Z) (reason : pyval)
  : Z * pyval :=
  match statuses with
  | [] => (restarts, reason)
  | container :: rest =>
      let restarts := restarts + restart_count container in
      let reason :=
        match waiting (state container) with
        | Some w => of_opt_str (wait_reason w)
        | None =>
            match terminated (state container) with
            | Some t => reason_or_exit_code t
            | None => reason
            end
        end in
      containers_loop rest restarts reason
  end.

(** [init_container_statuses is None or all(c.state.terminated and
    c.state.terminated.exit_code == 0 for c in init_container_statuses)] *)
Definition init_containers_fine (pod : V1Pod) : bool :=
  match init_container_statuses pod with
  | None => true
  | Some statuses => forallb terminated_ok statuses
  end.

(** The body of [get_pod_status] once the pod is read. *)
Definition pod_status_of (pod : V1Pod) : pod_status :=
  let status := of_opt_str (phase pod) in
  let restarts := 0 in
  let reason :=
    match status_reason pod with
    | None => status
    | Some r => PStr r
    end in
  let ready_containers :=
    match container_statuses pod with
    | Some (c :: cs) => count_ready (c :: cs)
    | _ => 0
    end in
  let total_containers := Z.of_nat (length (spec_containers pod)) in
  let '(restarts, reason) :=
    init_loop (default [] (init_container_statuses pod)) restarts reason in
  let '(restarts, reason) :=
    if init_containers_fine pod
    then containers_loop (default [] (container_statuses pod)) restarts reason
    else (restarts, reason) in
  {| ps_status := status; ps_reason := reason; ps_restarts := restarts;
     ps_ready_containers := ready_containers;
     ps_total_containers := total_containers;
     ps_error_message := PNone |}.

Definition failed_status (status : string) (message : string) : pod_status :=
  {| ps_status := PStr status; ps_reason := PNone; ps_restarts := 0;
     ps_ready_containers := 0; ps_total_containers := 0;
     ps_error_message := PStr message |}.

Definition get_pod_status (pod_name namespace : string) : M pod_status :=
  try_except
    (pod ← invoke (ReadNamespacedPod pod_name namespace)
                  (fun tr => pod_response B tr pod_name namespace);
     mret (pod_status_of pod))
    (fun e =>
       match e with
       | ApiException status _ =>
           if status =? 404
           then mret (failed_status "NotFound" ("Pod " ++ pod_name ++ " not found"))
           else mret (failed_status "Error" (exn_str e))
       | _ => mret (failed_status "Unknown" (exn_str e))
       end).

Definition get_pod_node_name (pod_name namespace : string) : M pyval :=
  try_except
    (pod ← invoke (ReadNamespacedPod pod_name namespace)
                  (fun tr => pod_response B tr pod_name namespace);
     mret (of_opt_str (node_name pod)))
    (fun _ => mret (PStr "Unknown")).

(** [sorted(valid_events, key=..., reverse=True)[0]] *)
Definition first_sorted (ts : V1Event -> option Z) (valid : list V1Event) : M V1Event :=
  match sorted_desc (key_of ts) valid with
  | latest :: _ => mret latest
  | [] => raise (OtherError "list index out of range")
  end.

Definition get_latest_pod_event (pod_name namespace : string) : M dict :=
  try_except
    (events ← invoke (ListNamespacedEvent namespace ("involvedObject.name=" ++ pod_name))
                     (fun tr => events_response B tr namespace
                                  ("involvedObject.name=" ++ pod_name));
     let valid := valid_events last_timestamp events in
     match valid with
     | _ :: _ =>
         latest ← first_sorted last_timestamp valid;
         now ← invoke UtcNow (fun tr => inr (utc_clock B tr));
         let event_age_str := event_age_str now (key_of last_timestamp latest) in
         mret (dict_lit [("Pod Event Type", of_opt_str (ev_type latest));
                         ("Pod Event Reason", of_opt_str (ev_reason latest));
                         ("Pod Event Age", PStr event_age_str);
                         ("Pod Event Source", of_opt_str (source_component latest));
                         ("Pod Event Message", of_opt_str (ev_message latest))])
     | [] =>
         mret (dict_lit [("Pod Event Type", PStr "No recent events");
                         ("Pod Event Reason", PStr "N/A");
                         ("Pod Event Age", PStr "N/A");
                         ("Pod Event Source", PStr "N/A");
                         ("Pod Event Message", PStr "N/A")])
     end)
    (fun _ =>
       mret (dict_lit [("Pod Event Type", PStr "Error");
                       ("Pod Event Reason", PStr "Unknown");
                       ("Pod Event Age", PStr "Unknown");
                       ("Pod Event Source", PStr "Unknown");
                       ("Pod Event Message", PStr "Unknown")])).

Definition node_selector (node_name : pyval) : string :=
  "involvedObject.kind=Node,involvedObject.name=" ++ py_str node_name.

(** The timestamps the client returns are datetimes, never strings, so the
    branch that parses a string timestamp is not taken. *)
Definition get_latest_event_details_node (node_name : pyval) : M dict :=
  try_except
    (events ← invoke (ListEventForAllNamespaces (node_selector node_name))
                     (fun tr => all_events_response B tr (node_selector node_name));
     let valid := valid_events get_event_timestamp events in
     match valid with
     | _ :: _ =>
         latest ← first_sorted get_event_timestamp valid;
         let event_timestamp := key_of get_event_timestamp latest in
         now ← invoke UtcNow (fun tr => inr (utc_clock B tr));
         let event_age_str := event_age_str now event_timestamp in
         mret (dict_lit [("Node Name", node_name);
                         ("Event Reason", of_opt_str (ev_reason latest));
                         ("Event Age", PStr event_age_str);
                         ("Event Source", of_opt_str (source_component latest));
                         ("Event Message", of_opt_str (ev_message latest))])
     | [] =>
         mret (dict_lit [("Node Name", node_name);
                         ("Event Reason", PStr "No recent events");
                         ("Event Age", PStr "N/A");
                         ("Event Source", PStr "N/A");
                         ("Event Message", PStr "N/A")])
     end)
    (fun _ =>
       mret (dict_lit [("Node Name", node_name);
                       ("Event Reason", PStr "Unknown");
                       ("Event Age", PStr "Unknown");
                       ("Event Source", PStr "Unknown");
                       ("Event Message", PStr "Unknown")])).

Definition get_latest_event_reason (pod_name namespace : string) : M pyval :=
  try_except
    (events ← invoke (ListNamespacedEvent namespace ("involvedObject.name=" ++ pod_name))
                     (fun tr => events_response B tr namespace
                                  ("involvedObject.name=" ++ pod_name));
     let valid := valid_events last_timestamp events in
     match valid with
     | _ :: _ =>
         latest ← first_sorted last_timestamp valid;
         mret (of_opt_str (ev_reason latest))
     | [] => mret (PStr "No recent events")
     end)
    (fun _ => mret (PStr "Unknown")).

Definition get_last_log_entry (pod_name namespace : string) : M pyval :=
  try_except
    (logs ← invoke (ReadNamespacedPodLog pod_name namespace)
                   (fun tr => log_response B tr pod_name namespace);
     mret (PStr (match logs with EmptyString => "No logs" | _ => logs end)))
    (fun _ => mret (PStr "Log retrieval error")).

(** Only the exceptions of [requests] are caught; the mapping is then empty. *)
Definition query_prometheus (query : string) : M (gmap string float) :=
  try_except
    (results ← invoke (PrometheusQuery None query)
                      (fun tr => query_response B tr None query);
     mret (to_mapping results))
    (fun e =>
       match e with
       | RequestException _ => mret ∅
       | _ => raise e
       end).

Definition calculate_percentage (usage limit : float) : exn + pyval :=
  if gt_zero limit
  then match py_truediv usage limit with
       | inr q => inr (PFloat (PrimFloat.mul q 100%float))
       | inl e => inl e
       end
  else inr (PStr "N/A").

(** The metric queries of a cycle. *)
Definition in_namespace : string := "{namespace=" ++ dq ++ NAMESPACE ++ dq ++ "}".

Definition cpu_usage_query : string :=
  "100 * max(rate(container_cpu_usage_seconds_total" ++ in_namespace ++ "[5m])) by (pod)".
Definition memory_usage_query : string :=
  "container_memory_working_set_bytes" ++ in_namespace ++ " / 1024 / 1024".
Definition memory_limit_query : string :=
  "kube_pod_container_resource_limits{resource=" ++ dq ++ "memory" ++ dq
  ++ ", namespace=" ++ dq ++ NAMESPACE ++ dq ++ "} / 1024 / 1024".
Definition network_traffic_query : string :=
  "sum(rate(container_network_receive_bytes_total" ++ in_namespace
  ++ "[5m]) + rate(container_network_transmit_bytes_total" ++ in_namespace
  ++ "[5m])) by (pod)".
Definition network_receive_query : string :=
  "sum(rate(container_network_receive_bytes_total" ++ in_namespace ++ "[5m])) by (pod)".
Definition network_transmit_query : string :=
  "sum(rate(container_network_transmit_bytes_total" ++ in_namespace ++ "[5m])) by (pod)".
Definition network_receive_errors_query : string :=
  "sum(rate(container_network_receive_errors_total" ++ in_namespace ++ "[5m])) by (pod)".
Definition network_transmit_errors_query : string :=
  "sum(rate(container_network_transmit_errors_total" ++ in_namespace ++ "[5m])) by (pod)".

(** The metric mappings of a cycle. *)
Record metrics : Type := {
  cpu_usage_data : gmap string float;
  memory_usage_data : gmap string float;
  memory_limit_data : gmap string float;
  network_traffic_data : gmap string float;
  network_receive_data : gmap string float;
  network_transmit_data : gmap string float;
  network_receive_errors_data : gmap string float;
  network_transmit_errors_data : gmap string float }.

(** One pass of the row-emission loop for a pod that is not excluded. *)
Definition make_row (ms : metrics) (timestamp : string) (pod : string) : M dict :=
  memory_usage_percentage ←
    lift (calculate_percentage (get_or_zero (memory_usage_data ms) pod)
                               (get_or_zero (memory_limit_data ms) pod));
  event_reason ← get_latest_event_reason pod NAMESPACE;
  node_name ← get_pod_node_name pod NAMESPACE;
  last_log_entry ← get_last_log_entry pod NAMESPACE;
  st ← get_pod_status pod NAMESPACE;
  latest_pod_event_details ← get_latest_pod_event pod NAMESPACE;
  latest_event_node_details ← get_latest_event_details_node node_name;
  mret (dict_update
          (dict_update
             (dict_lit [("Timestamp", PStr timestamp);
                        ("Pod Name", PStr pod);
                        ("CPU Usage (%)", get_or_na (cpu_usage_data ms) pod);
                        ("Memory Usage (%)", memory_usage_percentage);
                        ("Network Traffic (B/s)", get_or_na (network_traffic_data ms) pod);
                        ("Network Receive (B/s)", get_or_na (network_receive_data ms) pod);
                        ("Network Transmit (B/s)", get_or_na (network_transmit_data ms) pod);
                        ("Network Receive Errors",
                          get_or_na (network_receive_errors_data ms) pod);
                        ("Network Transmit Errors",
                          get_or_na (network_transmit_errors_data ms) pod);
                        ("Last Log Entry", last_log_entry);
                        ("Pod Status", ps_status st);
                        ("Pod Reason", ps_reason st);
                        ("Pod Restarts", PInt (ps_restarts st));
                        ("Ready Containers", PInt (ps_ready_containers st));
                        ("Total Containers", PInt (ps_total_containers st));
                        ("Error Message", ps_error_message st);
                        ("Latest Event Reason", event_reason)])
             latest_pod_event_details)
          latest_event_node_details).

(** [for pod in ...: if should_exclude_pod(pod): continue ... data.append(row)] *)
Fixpoint emit_rows (ms : metrics) (timestamp : string) (pods : list string)
    (data : list dict) : M (list dict) :=
  match pods with
  | [] => mret data
  | pod :: rest =>
      if should_exclude_pod pod then emit_rows ms timestamp rest data
      else
        row ← make_row ms timestamp pod;
        emit_rows ms timestamp rest (data ++ [row])%list
  end.

(** The rows of one cycle: everything in the body of the loop before the
    frame is built. *)
Definition collect : M (list dict) :=
  current_pods ← invoke (ListNamespacedPod NAMESPACE)
                        (fun tr => pods_response B tr NAMESPACE);
  let current_pod_states := pod_states current_pods in
  cpu ← query_prometheus cpu_usage_query;
  usage ← query_prometheus memory_usage_query;
  limit ← query_prometheus memory_limit_query;
  traffic ← query_prometheus network_traffic_query;
  receive ← query_prometheus network_receive_query;
  transmit ← query_prometheus network_transmit_query;
  receive_errors ← query_prometheus network_receive_errors_query;
  transmit_errors ← query_prometheus network_transmit_errors_query;
  last ← get_last_known;
  set_last_known (update_last_known current_pod_states last);;
  timestamp ← invoke LocalNow (fun tr => inr (local_clock B tr));
  emit_rows
    {| cpu_usage_data := cpu; memory_usage_data := usage; memory_limit_data := limit;
       network_traffic_data := traffic; network_receive_data := receive;
       network_transmit_data := transmit;
       network_receive_errors_data := receive_errors;
       network_transmit_errors_data := transmit_errors |}
    timestamp (candidate_pods usage limit) [].

(** The append block: with its header into a new file, without it at the end
    of an existing one. *)
Definition append_rows (data : list dict) : M unit :=
  exists_ ← isfile;
  if negb exists_
  then write_file false (to_csv_lines true data)
  else write_file true (to_csv_lines false data).

(** The body of [try] in the main loop. *)
Definition cycle : M unit :=
  data ← collect;
  append_rows data;;
  invoke (Sleep SLEEP_INTERVAL) (fun _ => inr tt).

(** One turn of the main loop: an exception of the cycle is reported and the
    loop goes on. *)
Definition loop_turn : M unit :=
  try_except cycle (fun _ => mret tt).

End Script.
End Static.

(** ** The script configured from the environment: [azure/datasetgen.py] *)

Module Azure.
Section Script.

Variable B : backend.

(** [os.getenv('NAMESPACE', 'otel-demo')] and
    [int(os.getenv('SLEEP_INTERVAL', 5))] *)
Variable NAMESPACE : string.
Variable SLEEP_INTERVAL : Z.

(** The token request; an HTTP error status or a failed connection raises. *)
Definition get_access_token : M string :=
  invoke GetAccessToken (token_response B).

(** The token is acquired before the [try]: its failure is not caught here. *)
Definition query_prometheus (query : string) : M (gmap string float) :=
  token ← get_access_token;
  try_except
    (results ← invoke (PrometheusQuery (Some token) query)
                      (fun tr => query_response B tr (Some token) query);
     mret (to_mapping results))
    (fun e =>
       match e with
       | RequestException _ => mret ∅
       | _ => raise e
       end).

Definition pod_status_of (pod : V1Pod) : pod_status :=
  let status := of_opt_str (phase pod) in
  let reason :=
    match status_reason pod with
    | None => status
    | Some r => PStr r
    end in
  {| ps_status := status; ps_reason := reason;
     ps_restarts := sum_restarts (default [] (container_statuses pod));
     ps_ready_containers := count_ready (default [] (container_statuses pod));
     ps_total_containers := Z.of_nat (length (spec_containers pod));
     ps_error_message := PNone |}.

Definition failed_status (status : string) (message : string) : pod_status :=
  {| ps_status := PStr status; ps_reason := PNone; ps_restarts := 0;
     ps_ready_containers := 0; ps_total_containers := 0;
     ps_error_message := PStr message |}.

Definition get_pod_status (pod_name namespace : string) : M pod_status :=
  try_except
    (pod ← invoke (ReadNamespacedPod pod_name namespace)
                  (fun tr => pod_response B tr pod_name namespace);
     mret (pod_status_of pod))
    (fun e =>
       match e with
       | ApiException status _ =>
           mret (failed_status (if status =? 404 then "NotFound" else "Error") (exn_str e))
       | _ => mret (failed_status "Unknown" (exn_str e))
       end).

Definition get_pod_node_name (pod_name namespace : string) : M pyval :=
  try_except
    (pod ← invoke (ReadNamespacedPod pod_name namespace)
                  (fun tr => pod_response B tr pod_name namespace);
     mret (of_opt_str (node_name pod)))
    (fun _ => mret (PStr "Unknown")).

Definition first_sorted (ts : V1Event -> option Z) (valid : list V1Event) : M V1Event :=
  match sorted_desc (key_of ts) valid with
  | latest :: _ => mret latest
  | [] => raise (OtherError "list index out of range")
  end.

(** [{key: placeholder for key in names}] *)
Definition all_keys (names : list string) (placeholder : string) : dict :=
  dict_lit (map (fun key => (key, PStr placeholder)) names).

Definition pod_event_keys : list string :=
  ["Pod Event Type"; "Pod Event Reason"; "Pod Event Age"; "Pod Event Source";
   "Pod Event Message"].

Definition node_event_keys : list string :=
  ["Node Name"; "Event Reason"; "Event Age"; "Event Source"; "Event Message"].

Definition get_latest_pod_event (pod_name namespace : string) : M dict :=
  try_except
    (events ← invoke (ListNamespacedEvent namespace ("involvedObject.name=" ++ pod_name))
                     (fun tr => events_response B tr namespace
                                  ("involvedObject.name=" ++ pod_name));
     let valid := valid_events last_timestamp events in
     match valid with
     | _ :: _ =>
         latest ← first_sorted last_timestamp valid;
         now ← invoke UtcNow (fun tr => inr (utc_clock B tr));
         mret (dict_lit [("Pod Event Type", of_opt_str (ev_type latest));
                         ("Pod Event Reason", of_opt_str (ev_reason latest));
                         ("Pod Event Age",
                           PStr (event_age_str now (key_of last_timestamp latest)));
                         ("Pod Event Source", of_opt_str (source_component latest));
                         ("Pod Event Message", of_opt_str (ev_message latest))])
     | [] => mret (all_keys pod_event_keys "N/A")
     end)
    (fun _ => mret (all_keys pod_event_keys "Unknown")).

Definition node_selector (node_name : pyval) : string :=
  "involvedObject.kind=Node,involvedObject.name=" ++ py_str node_name.

Definition get_latest_event_details_node (node_name : pyval) : M dict :=
  try_except
    (events ← invoke (ListEventForAllNamespaces (node_selector node_name))
                     (fun tr => all_events_response B tr (node_selector node_name));
     let valid := valid_events get_event_timestamp events in
     match valid with
     | _ :: _ =>
         latest ← first_sorted get_event_timestamp valid;
         let event_timestamp := key_of get_event_timestamp latest in
         now ← invoke UtcNow (fun tr => inr (utc_clock B tr));
         mret (dict_lit [("Node Name", node_name);
                         ("Event Reason", of_opt_str (ev_reason latest));
                         ("Event Age", PStr (event_age_str now event_timestamp));
                         ("Event Source", of_opt_str (source_component latest));
                         ("Event Message", of_opt_str (ev_message latest))])
     | [] => mret (all_keys node_event_keys "N/A")
     end)
    (fun _ => mret (all_keys node_event_keys "Unknown")).

Definition in_namespace : string := "{namespace=" ++ dq ++ NAMESPACE ++ dq ++ "}".

Definition cpu_usage_query : string :=
  "100 * max(rate(container_cpu_usage_seconds_total" ++ in_namespace ++ "[5m])) by (pod)".
Definition memory_usage_query : string :=
  "container_memory_working_set_bytes" ++ in_namespace ++ " / 1024 / 1024".
Definition memory_limit_query : string :=
  "kube_pod_container_resource_limits{resource=" ++ dq ++ "memory" ++ dq
  ++ ", namespace=" ++ dq ++ NAMESPACE ++ dq ++ "} / 1024 / 1024".

(** The inline conditional expression of the loop. *)
Definition memory_usage_percentage (usage limit : gmap string float) (pod : string)
  : exn + pyval :=
  if gt_zero (get_or_zero limit pod)
  then match py_truediv (get_or_zero usage pod) (get_or_zero limit pod) with
       | inr q => inr (PFloat (PrimFloat.mul q 100%float))
       | inl e => inl e
       end
  else inr (PStr "N/A").

Definition make_row (cpu usage limit : gmap string float) (timestamp : string)
    (pod : string) : M dict :=
  percentage ← lift (memory_usage_percentage usage limit pod);
  st ← get_pod_status pod NAMESPACE;
  latest_pod_event_details ← get_latest_pod_event pod NAMESPACE;
  node_name ← get_pod_node_name pod NAMESPACE;
  latest_event_node_details ← get_latest_event_details_node node_name;
  mret (dict_update
          (dict_update
             (dict_lit [("Timestamp", PStr timestamp);
                        ("Pod Name", PStr pod);
                        ("CPU Usage (%)", get_or_na cpu pod);
                        ("Memory Usage (%)", percentage);
                        ("Pod Status", ps_status st);
                        ("Pod Reason", ps_reason st);
                        ("Pod Restarts", PInt (ps_restarts st));
                        ("Ready Containers", PInt (ps_ready_containers st));
                        ("Total Containers", PInt (ps_total_containers st));
                        ("Error Message", ps_error_message st)])
             latest_pod_event_details)
          latest_event_node_details).

Fixpoint emit_rows (cpu usage limit : gmap string float) (timestamp : string)
    (pods : list string) (data : list dict) : M (list dict) :=
  match pods with
  | [] => mret data
  | pod :: rest =>
      if should_exclude_pod pod then emit_rows cpu usage limit timestamp rest data
      else
        row ← make_row cpu usage limit timestamp pod;
        emit_rows cpu usage limit timestamp rest (data ++ [row])%list
  end.

Definition collect_pod_metrics : M (list dict) :=
  current_pods ← invoke (ListNamespacedPod NAMESPACE)
                        (fun tr => pods_response B tr NAMESPACE);
  let current_pod_states := pod_states current_pods in
  cpu_usage_data ← query_prometheus cpu_usage_query;
  memory_usage_data ← query_prometheus memory_usage_query;
  memory_limit_data ← query_prometheus memory_limit_query;
  timestamp ← invoke LocalNow (fun tr => inr (local_clock B tr));
  emit_rows cpu_usage_data memory_usage_data memory_limit_data timestamp
            (candidate_pods memory_usage_data memory_limit_data) [].

Definition write_to_csv (data : list dict) : M unit :=
  exists_ ← isfile;
  let write_header := negb exists_ in
  write_file true (to_csv_lines write_header data).

(** The body of [try] in [main]. *)
Definition cycle : M unit :=
  data ← collect_pod_metrics;
  write_to_csv data;;
  invoke (Sleep SLEEP_INTERVAL) (fun _ => inr tt).

Definition loop_turn : M unit :=
  try_except cycle (fun _ => mret tt).

End Script.
End Azure.

(** ** Vocabulary of the properties *)

(** The first value that is present, in the order of the list. *)
Fixpoint first_present (candidates : list (option Z)) : option Z :=
  match candidates with
  | [] => None
  | Some t :: _ => Some t
  | None :: rest => first_present rest
  end.

(** [chosen] is a latest event of [events] for the timestamp [ts]: there is
    none when no event has a timestamp, otherwise it is one of the events, it
    has a timestamp and no event has a later one. *)
Definition selects_latest (ts : V1Event -> option Z) (events : list V1Event)
    (chosen : option V1Event) : Prop :=
  match chosen with
  | None => forall e, In e events -> ts e = None
  | Some latest =>
      In latest events
      /\ exists t, ts latest = Some t
           /\ forall e' t', In e' events -> ts e' = Some t' -> t' <= t
  end.

(** The three outcomes of a correlator: the listing raised, it answered and
    no event has a timestamp, it answered and there is a latest event. *)
Definition three_classes (lookup : exn + list V1Event) (ts : V1Event -> option Z)
    (summary : exn + dict) (failed empty : dict) (found : V1Event -> dict) : Prop :=
  match lookup with
  | inl _ => summary = inr failed
  | inr events =>
      match valid_events ts events with
      | [] => summary = inr empty
      | _ :: _ =>
          exists latest, latest_event ts events = Some latest /\ summary = inr (found latest)
      end
  end.

(** Every field of a summary holds the placeholder. *)
Definition all_fields (placeholder : string) (summary : dict) : Prop :=
  Forall (fun field => snd field = PStr placeholder) summary.

(** [sub] occurs in [s]. *)
Definition occurs_in (sub s : string) : Prop :=
  exists before after_, s = before ++ sub ++ after_.

(** An entity is excluded when a member of the exclusion list occurs in its
    name. *)
Definition excluded_entity (name : string) : Prop :=
  exists sub, In sub EXCLUDE_POD_NAMES /\ occurs_in sub name.

(** The init containers the status reader looks at: those up to the first
    one that terminated with a nonzero exit code, that one included. *)
Fixpoint scanned_init (statuses : list V1ContainerStatus) : list V1ContainerStatus :=
  match statuses with
  | [] => []
  | c :: rest =>
      match terminated (state c) with
      | Some t => if term_exit_code t =? 0 then c :: scanned_init rest else [c]
      | None => c :: scanned_init rest
      end
  end.

(** The container terminated with a nonzero exit code. *)
Definition terminated_nonzero (c : V1ContainerStatus) : Prop :=
  exists t, terminated (state c) = Some t /\ term_exit_code t <> 0.

(** The pod with other statuses for its regular containers. *)
Definition with_container_statuses (pod : V1Pod)
    (regular : option (list V1ContainerStatus)) : V1Pod :=
  {| metadata_name := metadata_name pod; phase := phase pod;
     status_reason := status_reason pod; container_statuses := regular;
     init_container_statuses := init_container_statuses pod;
     spec_containers := spec_containers pod; node_name := node_name pod |}.

(** What a row says about its pod: its name and the usage percentage. *)
Definition row_of (usage limit : gmap string float) (pod : string) (row : dict) : Prop :=
  dict_get "Pod Name" row = Some (PStr pod)
  /\ exists percentage,
       Static.calculate_percentage (get_or_zero usage pod) (get_or_zero limit pod)
       = inr percentage
       /\ dict_get "Memory Usage (%)" row = Some percentage.

(** Unfolding the plumbing of a computation. *)
Ltac run :=
  unfold try_except, mbind, M_bind, bind, mret, M_ret, ret, raise, invoke, lift; simpl.

(** ** Sample clusters *)

Module Samples.

Definition checkout_pod (init regular : option (list V1ContainerStatus)) : V1Pod :=
  {| metadata_name := "checkout-7f"; phase := Some "Running"; status_reason := None;
     container_statuses := regular; init_container_statuses := init;
     spec_containers := ["checkout"]; node_name := Some "node-1" |}.

(** A cluster in which every callee gives the same answer at every call. *)
Definition steady (token : exn + string) (samples : string -> exn + list (string * float))
    (pod : exn + V1Pod) (events node_events : exn + list V1Event) : backend :=
  {| token_response := fun _ => token;
     query_response := fun _ _ query => samples query;
     pod_response := fun _ _ _ => pod;
     events_response := fun _ _ _ => events;
     all_events_response := fun _ _ => node_events;
     log_response := fun _ _ _ => inr "ready";
     pods_response := fun _ _ => inr [];
     utc_clock := fun _ => 1700000090500000;
     local_clock := fun _ => "2023-11-14 22:14:50" |}.

Definition running : V1ContainerState := {| waiting := None; terminated := None |}.

Definition exited (code : Z) (why : option string) : V1ContainerState :=
  {| waiting := None;
     terminated := Some {| term_exit_code := code; term_reason := why |} |}.

Definition backing_off : V1ContainerState :=
  {| waiting := Some {| wait_reason := Some "CrashLoopBackOff" |}; terminated := None |}.

Definition status (restarts : Z) (st : V1ContainerState) : V1ContainerStatus :=
  {| restart_count := restarts; ready := false; state := st |}.

(** An event of the scheduler: only its event time is set. *)
Definition scheduled : V1Event :=
  {| ev_type := Some "Normal"; ev_reason := Some "Scheduled";
     ev_message := Some "Successfully assigned"; source_component := None;
     last_timestamp := None; event_time := Some 1700000000000000;
     first_timestamp := None |}.

(** An event of the kubelet with its last-observed timestamp. *)
Definition pulled : V1Event :=
  {| ev_type := Some "Normal"; ev_reason := Some "Pulled";
     ev_message := Some "Container image already present";
     source_component := Some "kubelet";
     last_timestamp := Some 1700000000000000; event_time := None;
     first_timestamp := Some 1690000000000000 |}.

(** Usage 50 MiB for two pods, limit 100 MiB for one of them and for a third. *)
Definition memory_samples (query : string) : exn + list (string * float) :=
  if String.eqb query Static.memory_usage_query
  then inr [("checkout-7f", 50%float); ("prometheus-0", 50%float)]
  else if String.eqb query Static.memory_limit_query
       then inr [("checkout-7f", 100%float); ("cart-5d", 100%float)]
       else inr [].

Definition no_events : backend :=
  steady (inr "token") memory_samples (inr (checkout_pod None None)) (inr []) (inr []).

Definition no_token : backend :=
  steady (inl (RequestException "401 Client Error")) memory_samples
         (inr (checkout_pod None None)) (inr []) (inr []).

Definition only_scheduled : backend :=
  steady (inr "token") memory_samples (inr (checkout_pod None None))
         (inr [scheduled]) (inr [scheduled]).

Definition with_events : backend :=
  steady (inr "token") memory_samples (inr (checkout_pod None None))
         (inr [scheduled; pulled]) (inr [scheduled; pulled]).

Definition unreachable : backend :=
  steady (inr "token") memory_samples (inl (ApiException 404 "Not Found"))
         (inl (OtherError "connection refused")) (inl (OtherError "connection refused")).

(** A pod with a sidecar that is an init container still running, and an
    application container that restarted four times. *)
Definition sidecar_pod : V1Pod :=
  checkout_pod (Some [status 0 running]) (Some [status 4 running]).

(** A pod whose first init container failed. *)
Definition failed_init_pod : V1Pod :=
  checkout_pod (Some [status 0 (exited 0 (Some "Completed"));
                      status 2 (exited 1 (Some "Error"));
                      status 0 (exited 3 None)])
               (Some [status 7 backing_off]).

Definition serving (pod : V1Pod) : backend :=
  steady (inr "token") memory_samples (inr pod) (inr []) (inr []).

(** The mappings of the memory samples, and no other metric. *)
Definition sample_metrics : Static.metrics :=
  {| Static.cpu_usage_data := ∅;
     Static.memory_usage_data :=
       to_mapping [("checkout-7f", 50%float); ("prometheus-0", 50%float)];
     Static.memory_limit_data :=
       to_mapping [("checkout-7f", 100%float); ("cart-5d", 100%float)];
     Static.network_traffic_data := ∅;
     Static.network_receive_data := ∅;
     Static.network_transmit_data := ∅;
     Static.network_receive_errors_data := ∅;
     Static.network_transmit_errors_data := ∅ |}.

End Samples.

(** ** Vocabulary of the further properties *)

(** The status a failed read of a pod is reported with. *)
Definition failure_status (e : exn) : string :=
  match e with
  | ApiException status _ => if status =? 404 then "NotFound" else "Error"
  | _ => "Unknown"
  end.

(** A container that is neither waiting nor terminated. *)
Definition untroubled (c : V1ContainerStatus) : Prop :=
  waiting (state c) = None /\ terminated (state c) = None.

(** [status.reason], or the phase when the pod has no reason. *)
Definition top_level_reason (pod : V1Pod) : pyval :=
  match status_reason pod with
  | Some r => PStr r
  | None => of_opt_str (phase pod)
  end.

(** The file after a sink is called with one batch of rows after the other. *)
Fixpoint append_all (sink : list dict -> M unit) (batches : list (list dict))
    (w : world) : world :=
  match batches with
  | [] => w
  | data :: rest => append_all sink rest (after (sink data) w)
  end.

(** The records of a frame, without its header. *)
Definition record_lines (data : list dict) : list csv_line := to_csv_lines false data.

(** A computation that leaves a part of the world as it is, whether it
    returns or raises. *)
Definition keeps {S A} (part : world -> S) (m : M A) : Prop :=
  forall w, part (after m w) = part w.

(** Every failure of a metric query is an exception of the HTTP library. *)
Definition fails_with_requests_only (B : backend) : Prop :=
  forall tr token query e,
    query_response B tr token query = inl e -> exists msg, e = RequestException msg.

(** The columns of a row of the static script, and of the other script. *)
Definition static_columns : list string :=
  ["Timestamp"; "Pod Name"; "CPU Usage (%)"; "Memory Usage (%)";
   "Network Traffic (B/s)"; "Network Receive (B/s)"; "Network Transmit (B/s)";
   "Network Receive Errors"; "Network Transmit Errors"; "Last Log Entry";
   "Pod Status"; "Pod Reason"; "Pod Restarts"; "Ready Containers";
   "Total Containers"; "Error Message"; "Latest Event Reason";
   "Pod Event Type"; "Pod Event Reason"; "Pod Event Age"; "Pod Event Source";
   "Pod Event Message"; "Node Name"; "Event Reason"; "Event Age"; "Event Source";
   "Event Message"].

Definition azure_columns : list string :=
  ["Timestamp"; "Pod Name"; "CPU Usage (%)"; "Memory Usage (%)";
   "Pod Status"; "Pod Reason"; "Pod Restarts"; "Ready Containers";
   "Total Containers"; "Error Message";
   "Pod Event Type"; "Pod Event Reason"; "Pod Event Age"; "Pod Event Source";
   "Pod Event Message"; "Node Name"; "Event Reason"; "Event Age"; "Event Source";
   "Event Message"].

(** The step that adds a key to the columns seen so far. *)
Definition add_column (cols : list string) (k : string) : list string :=
  if bool_decide (k ∈ cols) then cols else (cols ++ [k])%list.



(** The calls to the cluster and the backends among the calls made, the
    readings of the clock left out. *)
Definition cluster_calls (tr : list call) : list call :=
  List.filter (fun c => match c with UtcNow | LocalNow => false | _ => true end) tr.

(** A computation that only adds calls, each of a given kind, to the calls
    made. *)
Definition adds_calls {A} (kind : call -> Prop) (m : M A) : Prop :=
  forall w, exists more, calls (after m w) = (calls w ++ more)%list /\ Forall kind more.

(** A call to the cluster or the clock: neither a token request nor a metric
    query. *)
Definition no_metric_call (c : call) : Prop :=
  match c with
  | GetAccessToken | PrometheusQuery _ _ => False
  | _ => True
  end.

(** ** More sample clusters *)

Module MoreSamples.

(** A cluster whose listing holds two pods, one of them excluded by name. *)
Definition listed : backend :=
  {| token_response := fun _ => inr "token";
     query_response := fun _ _ query => Samples.memory_samples query;
     pod_response := fun _ _ _ => inr (Samples.checkout_pod None None);
     events_response := fun _ _ _ => inr [];
     all_events_response := fun _ _ => inr [];
     log_response := fun _ _ _ => inr "ready";
     pods_response := fun _ _ =>
       inr [Samples.checkout_pod None None;
            {| metadata_name := "prometheus-0"; phase := Some "Running";
               status_reason := None; container_statuses := None;
               init_container_statuses := None; spec_containers := ["prometheus"];
               node_name := Some "node-1" |}];
     utc_clock := fun _ => 1700000090500000;
     local_clock := fun _ => "2023-11-14 22:14:50" |}.

(** A cluster whose metrics backend times out on every query. *)
Definition timing_out : backend :=
  Samples.steady (inr "token") (fun _ => inl (RequestException "Read timed out"))
    (inr (Samples.checkout_pod None None)) (inr []) (inr []).

End MoreSamples.

(** * Properties *)

(** ** Floats and ages *)

Lemma gt_zero_not_zero (x : float) : gt_zero x = true -> PrimFloat.eqb x 0%float = false.
Proof.
  unfold gt_zero. rewrite FloatAxioms.ltb_spec, FloatAxioms.eqb_spec.
  change (Prim2SF 0%float) with (S754_zero false).
  unfold SFltb, SFeqb.
  destruct (Prim2SF x) as [s | s | | s m e]; simpl;
    try destruct s; simpl; try discriminate; auto.
Qed.

Lemma zero_div_pos (x : float) : gt_zero x = true -> PrimFloat.div 0%float x = 0%float.
Proof.
  unfold gt_zero. rewrite FloatAxioms.ltb_spec. intros H.
  apply Prim2SF_inj. rewrite FloatAxioms.div_spec.
  change (Prim2SF 0%float) with (S754_zero false) in *.
  unfold SFltb in H.
  destruct (Prim2SF x) as [s | s | | s m e]; simpl in *; try discriminate;
    destruct s; try discriminate; reflexivity.
Qed.

Lemma mul_comm (x y : float) : PrimFloat.mul x y = PrimFloat.mul y x.
Proof.
  apply Prim2SF_inj. rewrite !FloatAxioms.mul_spec.
  unfold SF64mul, SFmul.
  destruct (Prim2SF x) as [sx | sx | | sx mx ex], (Prim2SF y) as [sy | sy | | sy my ey];
    try reflexivity; try (f_equal; apply Bool.xorb_comm).
  rewrite Bool.xorb_comm, Pos.mul_comm, Z.add_comm. reflexivity.
Qed.

Lemma zero_is_not_positive (x : float) : PrimFloat.eqb x 0%float = true -> gt_zero x = false.
Proof.
  intros H. destruct (gt_zero x) eqn:G; [| reflexivity].
  apply gt_zero_not_zero in G. congruence.
Qed.

Example event_age_str_90s : event_age_str 90500000 0 = "0:01:30".
Proof. reflexivity. Qed.

Example event_age_str_days :
  event_age_str (2 * 86400000000 + 3723000001) 0 = "2 days, 1:02:03".
Proof. reflexivity. Qed.

Example event_age_str_future : event_age_str 0 1000000 = "-1 day, 23:59:59".
Proof. reflexivity. Qed.

(** ** Dictionaries *)

Lemma dict_get_set_ne (k k' : string) (v : pyval) (d : dict) :
  k <> k' -> dict_get k (dict_set k' v d) = dict_get k d.
Proof.
  intros Hne. induction d as [| [k0 v0] d IH]; simpl.
  - destruct (String.eqb_spec k' k); congruence.
  - destruct (String.eqb_spec k0 k'); simpl.
    + destruct (String.eqb_spec k0 k); congruence.
    + destruct (String.eqb_spec k0 k); auto.
Qed.

Lemma dict_get_update_other (k : string) (items : list (string * pyval)) (d : dict) :
  ~ In k (map fst items) -> dict_get k (dict_update d items) = dict_get k d.
Proof.
  unfold dict_update. revert d.
  induction items as [| [k' v'] items IH]; intros d Hnot; simpl in *.
  - reflexivity.
  - rewrite IH by tauto. apply dict_get_set_ne. intros ->. tauto.
Qed.

(** ** The stable descending sort *)

Section Sorting.

Context {A : Type} (key : A -> Z).

Lemma head_insert_desc (x : A) (l : list A) :
  head (insert_desc key x l) =
  match head l with
  | Some y => if key x <? key y then Some y else Some x
  | None => Some x
  end.
Proof. destruct l as [| y l]; simpl; [reflexivity |]. destruct (key x <? key y); reflexivity. Qed.

Lemma head_sorted_desc_nil (l : list A) : head (sorted_desc key l) = None -> l = [].
Proof.
  destruct l as [| x l]; [reflexivity |]. simpl. rewrite head_insert_desc.
  destruct (head (sorted_desc key l)); [destruct (key x <? key a) |]; discriminate.
Qed.

(** The first element of the sorted list is the first element of the given
    list among those with the greatest key. *)
Lemma head_sorted_desc_first_max (l : list A) (e : A) :
  head (sorted_desc key l) = Some e ->
  exists pre post,
    l = (pre ++ e :: post)%list
    /\ Forall (fun e' => key e' < key e) pre
    /\ Forall (fun e' => key e' <= key e) post.
Proof.
  revert e. induction l as [| x l IH]; intros e; simpl; [discriminate |].
  rewrite head_insert_desc.
  destruct (head (sorted_desc key l)) as [y |] eqn:Hy.
  - destruct (IH y eq_refl) as (pre & post & -> & Hpre & Hpost).
    destruct (Z.ltb_spec (key x) (key y)); intros [= <-].
    + exists (x :: pre), post. repeat split; auto.
    + exists [], (pre ++ y :: post)%list. repeat split; auto.
      apply Forall_app. split.
      * eapply Forall_impl; [exact Hpre |]. simpl. intros; lia.
      * constructor; [lia |]. eapply Forall_impl; [exact Hpost |]. simpl. intros; lia.
  - apply head_sorted_desc_nil in Hy. subst l. intros [= <-].
    exists [], []. repeat split; auto.
Qed.

Lemma head_sorted_desc_max (l : list A) (e : A) :
  head (sorted_desc key l) = Some e ->
  In e l /\ forall e', In e' l -> key e' <= key e.
Proof.
  intros H. destruct (head_sorted_desc_first_max l e H) as (pre & post & -> & Hpre & Hpost).
  split; [apply in_or_app; right; left; reflexivity |].
  intros e' Hin. apply in_app_or in Hin. destruct Hin as [Hin | [<- | Hin]].
  - rewrite Forall_forall in Hpre. apply list_elem_of_In in Hin.
    specialize (Hpre e' Hin). lia.
  - lia.
  - rewrite Forall_forall in Hpost. apply list_elem_of_In in Hin. auto.
Qed.

End Sorting.

(** ** The latest event *)

Lemma valid_events_In (ts : V1Event -> option Z) (items : list V1Event) (e : V1Event) :
  In e (valid_events ts items) <-> In e items /\ is_Some (ts e).
Proof.
  unfold valid_events. rewrite filter_In. rewrite bool_decide_eq_true. reflexivity.
Qed.

Lemma valid_events_nil (ts : V1Event -> option Z) (items : list V1Event) :
  valid_events ts items = [] <-> forall e, In e items -> ts e = None.
Proof.
  split.
  - intros H e Hin. destruct (ts e) eqn:E; [| reflexivity].
    assert (Hv : In e (valid_events ts items)) by (apply valid_events_In; rewrite E; eauto).
    rewrite H in Hv. destruct Hv.
  - intros H. destruct (valid_events ts items) as [| e l] eqn:E; [reflexivity |].
    assert (Hv : In e (valid_events ts items)) by (rewrite E; left; reflexivity).
    apply valid_events_In in Hv. destruct Hv as [Hin [t Ht]].
    rewrite (H e Hin) in Ht. discriminate.
Qed.

Lemma latest_event_None (ts : V1Event -> option Z) (items : list V1Event) :
  latest_event ts items = None <-> valid_events ts items = [].
Proof.
  unfold latest_event. split.
  - apply head_sorted_desc_nil.
  - intros ->. reflexivity.
Qed.

(** The latest event is one of the events, its timestamp is present and no
    event has a later one. *)
Lemma latest_event_Some (ts : V1Event -> option Z) (items : list V1Event) (e : V1Event) :
  latest_event ts items = Some e ->
  In e items
  /\ exists t, ts e = Some t
       /\ forall e' t', In e' items -> ts e' = Some t' -> t' <= t.
Proof.
  unfold latest_event. intros H. apply head_sorted_desc_max in H.
  destruct H as [Hin Hmax]. apply valid_events_In in Hin. destruct Hin as [Hin [t Ht]].
  split; [exact Hin |]. exists t. split; [exact Ht |].
  intros e' t' Hin' Ht'.
  assert (Hv : In e' (valid_events ts items)) by (apply valid_events_In; rewrite Ht'; eauto).
  specialize (Hmax e' Hv). unfold key_of in Hmax. rewrite Ht, Ht' in Hmax. exact Hmax.
Qed.

(** Among events with the latest timestamp the first one listed is taken. *)
Lemma latest_event_first_seen (ts : V1Event -> option Z) (items : list V1Event) (e : V1Event) :
  latest_event ts items = Some e ->
  exists pre post,
    valid_events ts items = (pre ++ e :: post)%list
    /\ Forall (fun e' => key_of ts e' < key_of ts e) pre.
Proof.
  unfold latest_event. intros H.
  destruct (head_sorted_desc_first_max _ _ _ H) as (pre & post & Heq & Hpre & _).
  eauto.
Qed.

(** ** The event correlators *)

Lemma sorted_desc_cons {A} (key : A -> Z) (x : A) (l : list A) :
  exists e rest, sorted_desc key (x :: l) = e :: rest.
Proof.
  destruct (sorted_desc key (x :: l)) as [| e rest] eqn:E; [| eauto].
  assert (H : head (sorted_desc key (x :: l)) = None) by (rewrite E; reflexivity).
  apply head_sorted_desc_nil in H. discriminate.
Qed.

(** What the pod-level correlator of the static script returns, by the
    answer of the event listing. *)
Lemma static_pod_event_run (B : backend) (pod_name namespace : string) (w : world) :
  let c := ListNamespacedEvent namespace ("involvedObject.name=" ++ pod_name) in
  Static.get_latest_pod_event B pod_name namespace w =
  match events_response B (calls w) namespace ("involvedObject.name=" ++ pod_name) with
  | inl _ =>
      (inr [("Pod Event Type", PStr "Error"); ("Pod Event Reason", PStr "Unknown");
            ("Pod Event Age", PStr "Unknown"); ("Pod Event Source", PStr "Unknown");
            ("Pod Event Message", PStr "Unknown")], called c w)
  | inr events =>
      match latest_event last_timestamp events with
      | None =>
          (inr [("Pod Event Type", PStr "No recent events");
                ("Pod Event Reason", PStr "N/A"); ("Pod Event Age", PStr "N/A");
                ("Pod Event Source", PStr "N/A"); ("Pod Event Message", PStr "N/A")],
           called c w)
      | Some latest =>
          (inr [("Pod Event Type", of_opt_str (ev_type latest));
                ("Pod Event Reason", of_opt_str (ev_reason latest));
                ("Pod Event Age",
                  PStr (event_age_str (utc_clock B (calls (called c w)))
                                      (key_of last_timestamp latest)));
                ("Pod Event Source", of_opt_str (source_component latest));
                ("Pod Event Message", of_opt_str (ev_message latest))],
           called UtcNow (called c w))
      end
  end.
Proof.
  intros c. unfold Static.get_latest_pod_event, latest_event. run.
  destruct (events_response B (calls w) namespace _) as [e | events]; [reflexivity |].
  destruct (valid_events last_timestamp events) as [| x l] eqn:Hv; [reflexivity |].
  unfold Static.first_sorted.
  destruct (sorted_desc_cons (key_of last_timestamp) x l) as (e & rest & ->).
  reflexivity.
Qed.

(** The same for the node-level correlator of the static script. *)
Lemma static_node_event_run (B : backend) (node : pyval) (w : world) :
  let c := ListEventForAllNamespaces (Static.node_selector node) in
  Static.get_latest_event_details_node B node w =
  match all_events_response B (calls w) (Static.node_selector node) with
  | inl _ =>
      (inr [("Node Name", node); ("Event Reason", PStr "Unknown");
            ("Event Age", PStr "Unknown"); ("Event Source", PStr "Unknown");
            ("Event Message", PStr "Unknown")], called c w)
  | inr events =>
      match latest_event get_event_timestamp events with
      | None =>
          (inr [("Node Name", node); ("Event Reason", PStr "No recent events");
                ("Event Age", PStr "N/A"); ("Event Source", PStr "N/A");
                ("Event Message", PStr "N/A")], called c w)
      | Some latest =>
          (inr [("Node Name", node);
                ("Event Reason", of_opt_str (ev_reason latest));
                ("Event Age",
                  PStr (event_age_str (utc_clock B (calls (called c w)))
                                      (key_of get_event_timestamp latest)));
                ("Event Source", of_opt_str (source_component latest));
                ("Event Message", of_opt_str (ev_message latest))],
           called UtcNow (called c w))
      end
  end.
Proof.
  intros c. unfold Static.get_latest_event_details_node, latest_event. run.
  destruct (all_events_response B (calls w) _) as [e | events]; [reflexivity |].
  destruct (valid_events get_event_timestamp events) as [| x l] eqn:Hv; [reflexivity |].
  unfold Static.first_sorted.
  destruct (sorted_desc_cons (key_of get_event_timestamp) x l) as (e & rest & ->).
  reflexivity.
Qed.

(** The correlators of the other script: here a placeholder fills all five
    fields. *)
Lemma azure_pod_event_run (B : backend) (pod_name namespace : string) (w : world) :
  let c := ListNamespacedEvent namespace ("involvedObject.name=" ++ pod_name) in
  Azure.get_latest_pod_event B pod_name namespace w =
  match events_response B (calls w) namespace ("involvedObject.name=" ++ pod_name) with
  | inl _ =>
      (inr [("Pod Event Type", PStr "Unknown"); ("Pod Event Reason", PStr "Unknown");
            ("Pod Event Age", PStr "Unknown"); ("Pod Event Source", PStr "Unknown");
            ("Pod Event Message", PStr "Unknown")], called c w)
  | inr events =>
      match latest_event last_timestamp events with
      | None =>
          (inr [("Pod Event Type", PStr "N/A");
                ("Pod Event Reason", PStr "N/A"); ("Pod Event Age", PStr "N/A");
                ("Pod Event Source", PStr "N/A"); ("Pod Event Message", PStr "N/A")],
           called c w)
      | Some latest =>
          (inr [("Pod Event Type", of_opt_str (ev_type latest));
                ("Pod Event Reason", of_opt_str (ev_reason latest));
                ("Pod Event Age",
                  PStr (event_age_str (utc_clock B (calls (called c w)))
                                      (key_of last_timestamp latest)));
                ("Pod Event Source", of_opt_str (source_component latest));
                ("Pod Event Message", of_opt_str (ev_message latest))],
           called UtcNow (called c w))
      end
  end.
Proof.
  intros c. unfold Azure.get_latest_pod_event, latest_event. run.
  destruct (events_response B (calls w) namespace _) as [e | events]; [reflexivity |].
  destruct (valid_events last_timestamp events) as [| x l] eqn:Hv; [reflexivity |].
  unfold Azure.first_sorted.
  destruct (sorted_desc_cons (key_of last_timestamp) x l) as (e & rest & ->).
  reflexivity.
Qed.

Lemma azure_node_event_run (B : backend) (node : pyval) (w : world) :
  let c := ListEventForAllNamespaces (Azure.node_selector node) in
  Azure.get_latest_event_details_node B node w =
  match all_events_response B (calls w) (Azure.node_selector node) with
  | inl _ =>
      (inr [("Node Name", PStr "Unknown"); ("Event Reason", PStr "Unknown");
            ("Event Age", PStr "Unknown"); ("Event Source", PStr "Unknown");
            ("Event Message", PStr "Unknown")], called c w)
  | inr events =>
      match latest_event get_event_timestamp events with
      | None =>
          (inr [("Node Name", PStr "N/A"); ("Event Reason", PStr "N/A");
                ("Event Age", PStr "N/A"); ("Event Source", PStr "N/A");
                ("Event Message", PStr "N/A")], called c w)
      | Some latest =>
          (inr [("Node Name", node);
                ("Event Reason", of_opt_str (ev_reason latest));
                ("Event Age",
                  PStr (event_age_str (utc_clock B (calls (called c w)))
                                      (key_of get_event_timestamp latest)));
                ("Event Source", of_opt_str (source_component latest));
                ("Event Message", of_opt_str (ev_message latest))],
           called UtcNow (called c w))
      end
  end.
Proof.
  intros c. unfold Azure.get_latest_event_details_node, latest_event. run.
  destruct (all_events_response B (calls w) _) as [e | events]; [reflexivity |].
  destruct (valid_events get_event_timestamp events) as [| x l] eqn:Hv; [reflexivity |].
  unfold Azure.first_sorted.
  destruct (sorted_desc_cons (key_of get_event_timestamp) x l) as (e & rest & ->).
  reflexivity.
Qed.

Lemma selects_latest_event (ts : V1Event -> option Z) (events : list V1Event) :
  selects_latest ts events (latest_event ts events).
Proof.
  unfold selects_latest. destruct (latest_event ts events) as [latest |] eqn:E.
  - apply latest_event_Some. exact E.
  - apply valid_events_nil. apply latest_event_None. exact E.
Qed.

Lemma three_classes_of_run (lookup : exn + list V1Event) (ts : V1Event -> option Z)
    (failed empty : dict) (found : V1Event -> dict) (summary : exn + dict) :
  summary =
    match lookup with
    | inl _ => inr failed
    | inr events =>
        match latest_event ts events with
        | None => inr empty
        | Some latest => inr (found latest)
        end
    end ->
  three_classes lookup ts summary failed empty found.
Proof.
  intros ->. unfold three_classes. destruct lookup as [e | events]; [reflexivity |].
  destruct (valid_events ts events) as [| x l] eqn:Hv.
  - apply latest_event_None in Hv. rewrite Hv. reflexivity.
  - destruct (latest_event ts events) as [latest |] eqn:E; [eauto |].
    apply latest_event_None in E. congruence.
Qed.

(** C1, as the code has it.  Each correlator answers in exactly one of three
    classes, decided by the listing alone.  In the static script the first
    field is not a placeholder: the pod summary carries ['Error'] when the
    listing raised and ['No recent events'] when no event has a
    last-observed timestamp, the node summary always carries the node name
    and has ['No recent events'] as its reason in the second case; the
    remaining fields hold ["Unknown"], respectively ["N/A"].  In the other
    script the placeholder fills all five fields.  When an event is found the
    fields are those of the latest event, the age being the whole seconds
    between the clock and its timestamp. *)
Theorem event_summary_classes (B : backend) (pod_name namespace : string) (node : pyval)
    (w : world) :
  let pod_call := ListNamespacedEvent namespace ("involvedObject.name=" ++ pod_name) in
  let pod_lookup :=
    events_response B (calls w) namespace ("involvedObject.name=" ++ pod_name) in
  let node_call := ListEventForAllNamespaces (Static.node_selector node) in
  let node_lookup := all_events_response B (calls w) (Static.node_selector node) in
  let pod_found latest :=
    [("Pod Event Type", of_opt_str (ev_type latest));
     ("Pod Event Reason", of_opt_str (ev_reason latest));
     ("Pod Event Age",
       PStr (event_age_str (utc_clock B (calls (called pod_call w)))
                           (key_of last_timestamp latest)));
     ("Pod Event Source", of_opt_str (source_component latest));
     ("Pod Event Message", of_opt_str (ev_message latest))] in
  let node_found latest :=
    [("Node Name", node);
     ("Event Reason", of_opt_str (ev_reason latest));
     ("Event Age",
       PStr (event_age_str (utc_clock B (calls (called node_call w)))
                           (key_of get_event_timestamp latest)));
     ("Event Source", of_opt_str (source_component latest));
     ("Event Message", of_opt_str (ev_message latest))] in
  three_classes pod_lookup last_timestamp
    (result (Static.get_latest_pod_event B pod_name namespace) w)
    [("Pod Event Type", PStr "Error"); ("Pod Event Reason", PStr "Unknown");
     ("Pod Event Age", PStr "Unknown"); ("Pod Event Source", PStr "Unknown");
     ("Pod Event Message", PStr "Unknown")]
    [("Pod Event Type", PStr "No recent events"); ("Pod Event Reason", PStr "N/A");
     ("Pod Event Age", PStr "N/A"); ("Pod Event Source", PStr "N/A");
     ("Pod Event Message", PStr "N/A")]
    pod_found
  /\ three_classes node_lookup get_event_timestamp
       (result (Static.get_latest_event_details_node B node) w)
       [("Node Name", node); ("Event Reason", PStr "Unknown");
        ("Event Age", PStr "Unknown"); ("Event Source", PStr "Unknown");
        ("Event Message", PStr "Unknown")]
       [("Node Name", node); ("Event Reason", PStr "No recent events");
        ("Event Age", PStr "N/A"); ("Event Source", PStr "N/A");
        ("Event Message", PStr "N/A")]
       node_found
  /\ three_classes pod_lookup last_timestamp
       (result (Azure.get_latest_pod_event B pod_name namespace) w)
       (Azure.all_keys Azure.pod_event_keys "Unknown")
       (Azure.all_keys Azure.pod_event_keys "N/A")
       pod_found
  /\ three_classes node_lookup get_event_timestamp
       (result (Azure.get_latest_event_details_node B node) w)
       (Azure.all_keys Azure.node_event_keys "Unknown")
       (Azure.all_keys Azure.node_event_keys "N/A")
       node_found
  /\ all_fields "Unknown" (Azure.all_keys Azure.pod_event_keys "Unknown")
  /\ all_fields "N/A" (Azure.all_keys Azure.pod_event_keys "N/A")
  /\ all_fields "Unknown" (Azure.all_keys Azure.node_event_keys "Unknown")
  /\ all_fields "N/A" (Azure.all_keys Azure.node_event_keys "N/A").
Proof.
  intros pod_call pod_lookup node_call node_lookup pod_found node_found.
  repeat split.
  - apply three_classes_of_run. unfold result.
    rewrite static_pod_event_run. fold pod_lookup.
    destruct pod_lookup as [e | events]; [reflexivity |].
    destruct (latest_event last_timestamp events); reflexivity.
  - apply three_classes_of_run. unfold result.
    rewrite static_node_event_run. fold node_lookup.
    destruct node_lookup as [e | events]; [reflexivity |].
    destruct (latest_event get_event_timestamp events); reflexivity.
  - apply three_classes_of_run. unfold result.
    rewrite azure_pod_event_run. fold pod_lookup.
    destruct pod_lookup as [e | events]; [reflexivity |].
    destruct (latest_event last_timestamp events); reflexivity.
  - apply three_classes_of_run. unfold result.
    rewrite azure_node_event_run.
    change (Azure.node_selector node) with (Static.node_selector node). fold node_lookup.
    destruct node_lookup as [e | events]; [reflexivity |].
    destruct (latest_event get_event_timestamp events); reflexivity.
  - repeat constructor.
  - repeat constructor.
  - repeat constructor.
  - repeat constructor.
Qed.

(** C1 as stated fails in the static script: the listing answers with no
    event, and the first field of the pod summary is not ["N/A"]. *)
Lemma pod_summary_without_events_not_uniform :
  events_response Samples.no_events (calls initial_world) "otel-demo"
    ("involvedObject.name=" ++ "checkout-7f") = inr []
  /\ ~ (forall summary,
          result (Static.get_latest_pod_event Samples.no_events "checkout-7f" "otel-demo")
                 initial_world = inr summary ->
          all_fields "N/A" summary).
Proof.
  split; [reflexivity |]. intros H.
  specialize (H _ eq_refl). unfold all_fields in H.
  apply Forall_cons in H. destruct H as [H _]. simpl in H. discriminate.
Qed.

Example pod_summary_of_latest_event :
  result (Static.get_latest_pod_event Samples.with_events "checkout-7f" "otel-demo")
         initial_world
  = inr [("Pod Event Type", PStr "Normal"); ("Pod Event Reason", PStr "Pulled");
         ("Pod Event Age", PStr "0:01:30"); ("Pod Event Source", PStr "kubelet");
         ("Pod Event Message", PStr "Container image already present")].
Proof. reflexivity. Qed.

Example node_summary_when_unreachable :
  result (Static.get_latest_event_details_node Samples.unreachable PNone) initial_world
  = inr [("Node Name", PNone); ("Event Reason", PStr "Unknown");
         ("Event Age", PStr "Unknown"); ("Event Source", PStr "Unknown");
         ("Event Message", PStr "Unknown")].
Proof. reflexivity. Qed.

(** C10: whatever the listing answers, the node summary of the static script
    carries the node name it was asked about. *)
Theorem node_summary_carries_node_name (B : backend) (node : pyval) (w : world) :
  exists summary,
    result (Static.get_latest_event_details_node B node) w = inr summary
    /\ dict_get "Node Name" summary = Some node
    /\ keys summary =
       ["Node Name"; "Event Reason"; "Event Age"; "Event Source"; "Event Message"].
Proof.
  unfold result. rewrite static_node_event_run.
  destruct (all_events_response B (calls w) _) as [e | events].
  - eexists; repeat split.
  - destruct (latest_event get_event_timestamp events); eexists; repeat split.
Qed.

(** ** Timestamps *)

Lemma get_event_timestamp_None (event : V1Event) :
  get_event_timestamp event = None <->
  last_timestamp event = None /\ event_time event = None /\ first_timestamp event = None.
Proof.
  unfold get_event_timestamp.
  destruct (last_timestamp event), (event_time event), (first_timestamp event);
    split; intros H; try discriminate; try (destruct H as (? & ? & ?); discriminate); auto.
Qed.

(** C2, as the code has it.  The resolved timestamp of an event is the first
    that is present among last-observed, event time and first-observed.  The
    node-level correlator works on it: it discards an event exactly when all
    three are absent and answers from an event whose resolved timestamp is
    the greatest.  The pod-level correlator works on the last-observed
    timestamp alone: it discards an event exactly when that one is absent,
    whatever the two others are, and answers from an event whose
    last-observed timestamp is the greatest. *)
Theorem timestamp_resolution (B : backend) (pod_name namespace : string) (node : pyval)
    (w : world) (events : list V1Event) :
  (forall event,
      get_event_timestamp event =
      first_present [last_timestamp event; event_time event; first_timestamp event])
  /\ (forall event, In event events ->
        (~ In event (valid_events get_event_timestamp events) <->
         last_timestamp event = None /\ event_time event = None
         /\ first_timestamp event = None))
  /\ (forall event, In event events ->
        (~ In event (valid_events last_timestamp events) <-> last_timestamp event = None))
  /\ selects_latest get_event_timestamp events (latest_event get_event_timestamp events)
  /\ selects_latest last_timestamp events (latest_event last_timestamp events)
  /\ (all_events_response B (calls w) (Static.node_selector node) = inr events ->
      forall summary,
        result (Static.get_latest_event_details_node B node) w = inr summary ->
        match latest_event get_event_timestamp events with
        | Some latest =>
            dict_get "Event Reason" summary = Some (of_opt_str (ev_reason latest))
            /\ dict_get "Event Message" summary = Some (of_opt_str (ev_message latest))
        | None => dict_get "Event Reason" summary = Some (PStr "No recent events")
        end)
  /\ (events_response B (calls w) namespace ("involvedObject.name=" ++ pod_name)
        = inr events ->
      forall summary,
        result (Static.get_latest_pod_event B pod_name namespace) w = inr summary ->
        match latest_event last_timestamp events with
        | Some latest =>
            dict_get "Pod Event Reason" summary = Some (of_opt_str (ev_reason latest))
            /\ dict_get "Pod Event Message" summary = Some (of_opt_str (ev_message latest))
        | None => dict_get "Pod Event Type" summary = Some (PStr "No recent events")
        end).
Proof.
  split; [| split; [| split; [| split; [| split; [| split]]]]].
  - intros event. unfold get_event_timestamp. simpl.
    destruct (last_timestamp event), (event_time event), (first_timestamp event); reflexivity.
  - intros event Hin. rewrite valid_events_In, <- get_event_timestamp_None.
    split.
    + intros H. destruct (get_event_timestamp event) eqn:E; [| reflexivity].
      exfalso. apply H. split; [exact Hin | eauto].
    + intros H [_ [t Ht]]. congruence.
  - intros event Hin. rewrite valid_events_In. split.
    + intros H. destruct (last_timestamp event) eqn:E; [| reflexivity].
      exfalso. apply H. split; [exact Hin | eauto].
    + intros H [_ [t Ht]]. congruence.
  - apply selects_latest_event.
  - apply selects_latest_event.
  - intros Hlookup summary. unfold result. rewrite static_node_event_run, Hlookup.
    destruct (latest_event get_event_timestamp events); simpl; intros [= <-]; auto.
  - intros Hlookup summary. unfold result. rewrite static_pod_event_run, Hlookup.
    destruct (latest_event last_timestamp events); simpl; intros [= <-]; auto.
Qed.

Lemma timestamp_resolution_witness :
  (~ In Samples.scheduled (valid_events last_timestamp [Samples.scheduled; Samples.pulled])
   <-> last_timestamp Samples.scheduled = None)
  /\ (forall summary,
        result (Static.get_latest_event_details_node Samples.with_events (PStr "node-1"))
               initial_world = inr summary ->
        dict_get "Event Reason" summary = Some (PStr "Scheduled")
        /\ dict_get "Event Message" summary = Some (PStr "Successfully assigned"))
  /\ (forall summary,
        result (Static.get_latest_pod_event Samples.with_events "checkout-7f" "otel-demo")
               initial_world = inr summary ->
        dict_get "Pod Event Reason" summary = Some (PStr "Pulled")
        /\ dict_get "Pod Event Message" summary
           = Some (PStr "Container image already present")).
Proof.
  pose proof (timestamp_resolution Samples.with_events "checkout-7f" "otel-demo"
                (PStr "node-1") initial_world [Samples.scheduled; Samples.pulled])
    as (_ & _ & Hpod & _ & _ & Hnode_run & Hpod_run).
  split; [| split].
  - apply Hpod. left. reflexivity.
  - exact (Hnode_run eq_refl).
  - exact (Hpod_run eq_refl).
Defined.

(** C2 as stated fails for the pod-level correlator: an event whose event
    time is set and whose last-observed timestamp is absent has a resolved
    timestamp, and the correlator discards it and reports no event. *)
Lemma pod_correlator_discards_event_time :
  get_event_timestamp Samples.scheduled = Some 1700000000000000
  /\ events_response Samples.only_scheduled (calls initial_world) "otel-demo"
       ("involvedObject.name=" ++ "checkout-7f") = inr [Samples.scheduled]
  /\ valid_events last_timestamp [Samples.scheduled] = []
  /\ result (Static.get_latest_pod_event Samples.only_scheduled "checkout-7f" "otel-demo")
            initial_world
     = inr [("Pod Event Type", PStr "No recent events"); ("Pod Event Reason", PStr "N/A");
            ("Pod Event Age", PStr "N/A"); ("Pod Event Source", PStr "N/A");
            ("Pod Event Message", PStr "N/A")]
  /\ result (Azure.get_latest_pod_event Samples.only_scheduled "checkout-7f" "otel-demo")
            initial_world
     = inr (Azure.all_keys Azure.pod_event_keys "N/A").
Proof. repeat split. Qed.

(** ** The workload state reader *)

Lemma static_get_pod_status_run (B : backend) (pod_name namespace : string) (w : world) :
  Static.get_pod_status B pod_name namespace w =
  (inr match pod_response B (calls w) pod_name namespace with
       | inr pod => Static.pod_status_of pod
       | inl (ApiException status msg) =>
           if status =? 404
           then Static.failed_status "NotFound" ("Pod " ++ pod_name ++ " not found")
           else Static.failed_status "Error" msg
       | inl e => Static.failed_status "Unknown" (exn_str e)
       end,
   called (ReadNamespacedPod pod_name namespace) w).
Proof.
  unfold Static.get_pod_status. run.
  destruct (pod_response B (calls w) pod_name namespace) as [[status msg | | |] | pod];
    try reflexivity.
  destruct (status =? 404); reflexivity.
Qed.

Lemma azure_get_pod_status_run (B : backend) (pod_name namespace : string) (w : world) :
  Azure.get_pod_status B pod_name namespace w =
  (inr match pod_response B (calls w) pod_name namespace with
       | inr pod => Azure.pod_status_of pod
       | inl (ApiException status msg) =>
           Azure.failed_status (if status =? 404 then "NotFound" else "Error") msg
       | inl e => Azure.failed_status "Unknown" (exn_str e)
       end,
   called (ReadNamespacedPod pod_name namespace) w).
Proof.
  unfold Azure.get_pod_status. run.
  destruct (pod_response B (calls w) pod_name namespace) as [[status msg | | |] | pod];
    reflexivity.
Qed.

Lemma init_loop_restarts (statuses : list V1ContainerStatus) (restarts : Z) (reason : pyval) :
  fst (Static.init_loop statuses restarts reason)
  = restarts + sum_restarts (scanned_init statuses).
Proof.
  revert restarts. induction statuses as [| c rest IH]; intros restarts; simpl; [lia |].
  destruct (terminated (state c)) as [t |].
  - destruct (term_exit_code t =? 0); simpl; [rewrite IH |]; lia.
  - rewrite IH. simpl. lia.
Qed.

Lemma containers_loop_restarts (statuses : list V1ContainerStatus) (restarts : Z)
    (reason : pyval) :
  fst (Static.containers_loop statuses restarts reason) = restarts + sum_restarts statuses.
Proof.
  revert restarts reason.
  induction statuses as [| c rest IH]; intros restarts reason; simpl; [lia |].
  rewrite IH. lia.
Qed.

Lemma scanned_init_all (statuses : list V1ContainerStatus) :
  forallb terminated_ok statuses = true -> scanned_init statuses = statuses.
Proof.
  induction statuses as [| c rest IH]; simpl; [reflexivity |].
  unfold terminated_ok at 1. intros H. apply andb_prop in H. destruct H as [Hc Hrest].
  destruct (terminated (state c)) as [t |]; [| discriminate].
  rewrite Hc, IH by exact Hrest. reflexivity.
Qed.

Lemma static_restarts (pod : V1Pod) :
  ps_restarts (Static.pod_status_of pod)
  = sum_restarts (scanned_init (default [] (init_container_statuses pod)))
    + (if Static.init_containers_fine pod
       then sum_restarts (default [] (container_statuses pod))
       else 0).
Proof.
  unfold Static.pod_status_of.
  pose proof (init_loop_restarts (default [] (init_container_statuses pod)) 0
                (match status_reason pod with
                 | Some r => PStr r
                 | None => of_opt_str (phase pod)
                 end)) as Hinit.
  destruct (Static.init_loop _ _ _) as [r1 reason1]. simpl in Hinit.
  destruct (Static.init_containers_fine pod).
  - pose proof (containers_loop_restarts (default [] (container_statuses pod)) r1 reason1)
      as Hreg.
    destruct (Static.containers_loop _ _ _) as [r2 reason2]. simpl in *. lia.
  - simpl. lia.
Qed.

(** C5, as the code has it.  In the static script the restart count is the
    sum over the init containers up to the first one that terminated with a
    nonzero exit code, that one included, plus the sum over the regular
    containers when the init statuses are absent or every init container
    terminated with exit code 0; otherwise the regular containers are not
    counted.  So the count is the sum over all containers of both kinds when
    the init containers are fine.  In the other script the count is the sum
    over the regular containers alone. *)
Theorem restart_count_of_read (B : backend) (pod_name namespace : string) (w : world)
    (pod : V1Pod) :
  pod_response B (calls w) pod_name namespace = inr pod ->
  (exists st,
      result (Static.get_pod_status B pod_name namespace) w = inr st
      /\ ps_restarts st
         = sum_restarts (scanned_init (default [] (init_container_statuses pod)))
           + (if Static.init_containers_fine pod
              then sum_restarts (default [] (container_statuses pod))
              else 0)
      /\ (Static.init_containers_fine pod = true ->
          ps_restarts st
          = sum_restarts (default [] (init_container_statuses pod))
            + sum_restarts (default [] (container_statuses pod))))
  /\ (exists st,
      result (Azure.get_pod_status B pod_name namespace) w = inr st
      /\ ps_restarts st = sum_restarts (default [] (container_statuses pod))).
Proof.
  intros Hpod. split.
  - exists (Static.pod_status_of pod). unfold result.
    rewrite static_get_pod_status_run, Hpod. split; [reflexivity |].
    split; [apply static_restarts |].
    intros Hfine. rewrite static_restarts, Hfine.
    unfold Static.init_containers_fine in Hfine.
    destruct (init_container_statuses pod) as [statuses |]; simpl; [| reflexivity].
    rewrite scanned_init_all by exact Hfine. reflexivity.
  - exists (Azure.pod_status_of pod). unfold result.
    rewrite azure_get_pod_status_run, Hpod. split; reflexivity.
Qed.

Lemma restart_count_of_read_witness :
  (exists st,
      result (Static.get_pod_status (Samples.serving Samples.failed_init_pod)
                "checkout-7f" "otel-demo") initial_world = inr st
      /\ ps_restarts st = 2 + 0
      /\ (false = true -> ps_restarts st = 2 + 7))
  /\ (exists st,
      result (Azure.get_pod_status (Samples.serving Samples.failed_init_pod)
                "checkout-7f" "otel-demo") initial_world = inr st
      /\ ps_restarts st = 7).
Proof.
  exact (restart_count_of_read (Samples.serving Samples.failed_init_pod)
           "checkout-7f" "otel-demo" initial_world Samples.failed_init_pod eq_refl).
Defined.

(** C5 as stated fails: an init container that is still running has not
    terminated, so the four restarts of the application container are not
    counted by the static script; and the other script leaves out the two
    restarts of an init container. *)
Lemma restarts_not_the_full_sum :
  pod_response (Samples.serving Samples.sidecar_pod) (calls initial_world)
    "checkout-7f" "otel-demo" = inr Samples.sidecar_pod
  /\ ~ (forall st,
          result (Static.get_pod_status (Samples.serving Samples.sidecar_pod)
                    "checkout-7f" "otel-demo") initial_world = inr st ->
          ps_restarts st
          = sum_restarts (default [] (init_container_statuses Samples.sidecar_pod))
            + sum_restarts (default [] (container_statuses Samples.sidecar_pod)))
  /\ ~ (forall st,
          result (Azure.get_pod_status (Samples.serving Samples.failed_init_pod)
                    "checkout-7f" "otel-demo") initial_world = inr st ->
          ps_restarts st
          = sum_restarts (default [] (init_container_statuses Samples.failed_init_pod))
            + sum_restarts (default [] (container_statuses Samples.failed_init_pod))).
Proof.
  split; [reflexivity |].
  split; intros H; specialize (H _ eq_refl); vm_compute in H; discriminate.
Qed.

Lemma init_loop_reason (pre post : list V1ContainerStatus) (c : V1ContainerStatus)
    (t : V1ContainerStateTerminated) (restarts : Z) (reason : pyval) :
  Forall (fun c' => ~ terminated_nonzero c') pre ->
  terminated (state c) = Some t ->
  term_exit_code t <> 0 ->
  snd (Static.init_loop (pre ++ c :: post)%list restarts reason)
  = PStr ("Init: " ++ py_str (reason_or_exit_code t)).
Proof.
  intros Hpre Ht Hcode. revert restarts.
  induction pre as [| c' pre IH]; intros restarts; simpl.
  - rewrite Ht. destruct (Z.eqb_spec (term_exit_code t) 0); [contradiction | reflexivity].
  - apply Forall_cons in Hpre. destruct Hpre as [Hc' Hpre].
    destruct (terminated (state c')) as [t' |] eqn:Ht'; [| apply IH; exact Hpre].
    destruct (Z.eqb_spec (term_exit_code t') 0) as [E | E]; simpl; [apply IH; exact Hpre |].
    exfalso. apply Hc'. exists t'. split; [exact Ht' | exact E].
Qed.

Lemma failed_init_not_fine (pod : V1Pod) (pre post : list V1ContainerStatus)
    (c : V1ContainerStatus) (t : V1ContainerStateTerminated) :
  init_container_statuses pod = Some (pre ++ c :: post)%list ->
  terminated (state c) = Some t ->
  term_exit_code t <> 0 ->
  Static.init_containers_fine pod = false.
Proof.
  intros Hinit Ht Hcode. unfold Static.init_containers_fine. rewrite Hinit.
  rewrite forallb_app. simpl. unfold terminated_ok at 2. rewrite Ht.
  destruct (Z.eqb_spec (term_exit_code t) 0); [contradiction |].
  simpl. apply andb_false_r.
Qed.

Lemma static_reason_of_failed_init (pod : V1Pod) (pre post : list V1ContainerStatus)
    (c : V1ContainerStatus) (t : V1ContainerStateTerminated) :
  init_container_statuses pod = Some (pre ++ c :: post)%list ->
  Forall (fun c' => ~ terminated_nonzero c') pre ->
  terminated (state c) = Some t ->
  term_exit_code t <> 0 ->
  ps_reason (Static.pod_status_of pod) = PStr ("Init: " ++ py_str (reason_or_exit_code t)).
Proof.
  intros Hinit Hpre Ht Hcode. unfold Static.pod_status_of.
  rewrite (failed_init_not_fine pod pre post c t Hinit Ht Hcode).
  rewrite Hinit. simpl.
  pose proof (init_loop_reason pre post c t 0
                (match status_reason pod with
                 | Some r => PStr r
                 | None => of_opt_str (phase pod)
                 end) Hpre Ht Hcode) as H.
  destruct (Static.init_loop _ _ _) as [r1 reason1]. simpl in *. exact H.
Qed.

Lemma terminated_nonzero_dec (c : V1ContainerStatus) :
  {terminated_nonzero c} + {~ terminated_nonzero c}.
Proof.
  unfold terminated_nonzero. destruct (terminated (state c)) as [t |].
  - destruct (Z.eq_dec (term_exit_code t) 0) as [E | E].
    + right. intros (t' & [= <-] & H). contradiction.
    + left. eauto.
  - right. intros (t' & H & _). discriminate.
Qed.

(** Among statuses of which one terminated with a nonzero exit code there is
    a first such one. *)
Lemma first_failed_split (statuses : list V1ContainerStatus) (c0 : V1ContainerStatus) :
  In c0 statuses ->
  terminated_nonzero c0 ->
  exists pre c post,
    statuses = (pre ++ c :: post)%list
    /\ Forall (fun c' => ~ terminated_nonzero c') pre
    /\ terminated_nonzero c.
Proof.
  induction statuses as [| x rest IH]; intros Hin Hc0; [destruct Hin |].
  destruct (terminated_nonzero_dec x) as [Hx | Hx].
  - exists [], x, rest. repeat split; auto.
  - destruct Hin as [-> | Hin]; [contradiction |].
    destruct (IH Hin Hc0) as (pre & c & post & -> & Hpre & Hc).
    exists (x :: pre), c, post. repeat split; auto.
Qed.

(** C8: when an init container terminated with a nonzero exit code, the
    first such container in the order of the statuses decides the reason:
    it is ["Init: "] followed by the terminated reason of that container, or
    by its exit code when it has no reason; and the reason is the same
    whatever the statuses of the regular containers are.  When only one init
    container terminated with a nonzero exit code, it is that one. *)
Theorem init_failure_decides_reason (B : backend) (pod_name namespace : string)
    (w : world) (pod : V1Pod) (statuses : list V1ContainerStatus)
    (c0 : V1ContainerStatus) :
  pod_response B (calls w) pod_name namespace = inr pod ->
  init_container_statuses pod = Some statuses ->
  In c0 statuses ->
  terminated_nonzero c0 ->
  exists st pre c post t,
    result (Static.get_pod_status B pod_name namespace) w = inr st
    /\ statuses = (pre ++ c :: post)%list
    /\ Forall (fun c' => ~ terminated_nonzero c') pre
    /\ terminated (state c) = Some t
    /\ term_exit_code t <> 0
    /\ (forall r, term_reason t = Some r -> r <> "" -> ps_reason st = PStr ("Init: " ++ r))
    /\ (term_reason t = None ->
        ps_reason st = PStr ("Init: " ++ str_of_int (term_exit_code t)))
    /\ (forall regular,
          ps_reason (Static.pod_status_of (with_container_statuses pod regular))
          = ps_reason st)
    /\ ((forall c', In c' statuses -> terminated_nonzero c' -> c' = c0) -> c = c0).
Proof.
  intros Hpod Hinit Hin Hc0.
  destruct (first_failed_split statuses c0 Hin Hc0)
    as (pre & c & post & -> & Hpre & (t & Ht & Hcode)).
  exists (Static.pod_status_of pod), pre, c, post, t. unfold result.
  rewrite static_get_pod_status_run, Hpod. split; [reflexivity |].
  rewrite (static_reason_of_failed_init pod pre post c t Hinit Hpre Ht Hcode).
  repeat split; auto.
  - intros r Hr Hne. unfold reason_or_exit_code. rewrite Hr.
    destruct r; [contradiction | reflexivity].
  - intros Hr. unfold reason_or_exit_code. rewrite Hr. reflexivity.
  - intros regular.
    apply (static_reason_of_failed_init (with_container_statuses pod regular) pre post c t);
      auto.
  - intros Honly. apply Honly; [apply in_or_app; right; left; reflexivity |].
    exists t. split; [exact Ht | exact Hcode].
Qed.

Lemma init_failure_decides_reason_witness :
  exists st pre c post t,
    result (Static.get_pod_status (Samples.serving Samples.failed_init_pod)
              "checkout-7f" "otel-demo") initial_world = inr st
    /\ [Samples.status 0 (Samples.exited 0 (Some "Completed"));
        Samples.status 2 (Samples.exited 1 (Some "Error"));
        Samples.status 0 (Samples.exited 3 None)] = (pre ++ c :: post)%list
    /\ Forall (fun c' => ~ terminated_nonzero c') pre
    /\ terminated (state c) = Some t
    /\ term_exit_code t <> 0
    /\ (forall r, term_reason t = Some r -> r <> "" -> ps_reason st = PStr ("Init: " ++ r))
    /\ (term_reason t = None ->
        ps_reason st = PStr ("Init: " ++ str_of_int (term_exit_code t)))
    /\ (forall regular,
          ps_reason (Static.pod_status_of
                       (with_container_statuses Samples.failed_init_pod regular))
          = ps_reason st)
    /\ ((forall c',
           In c' [Samples.status 0 (Samples.exited 0 (Some "Completed"));
                  Samples.status 2 (Samples.exited 1 (Some "Error"));
                  Samples.status 0 (Samples.exited 3 None)] ->
           terminated_nonzero c' -> c' = Samples.status 0 (Samples.exited 3 None)) ->
        c = Samples.status 0 (Samples.exited 3 None)).
Proof.
  apply (init_failure_decides_reason (Samples.serving Samples.failed_init_pod)
           "checkout-7f" "otel-demo" initial_world Samples.failed_init_pod).
  - reflexivity.
  - reflexivity.
  - simpl. auto.
  - exists {| term_exit_code := 3; term_reason := None |}. split; [reflexivity |].
    simpl. lia.
Defined.

Example failed_init_pod_reason :
  ps_reason (Static.pod_status_of Samples.failed_init_pod) = PStr "Init: Error".
Proof. reflexivity. Qed.

Example exit_code_when_no_reason :
  ps_reason (Static.pod_status_of
               (Samples.checkout_pod (Some [Samples.status 0 (Samples.exited 137 None)])
                                     (Some [Samples.status 7 Samples.backing_off])))
  = PStr "Init: 137".
Proof. reflexivity. Qed.

(** ** Exclusion *)

Lemma prefix_occurs (sub s : string) :
  String.prefix sub s = true <-> exists rest, s = sub ++ rest.
Proof.
  revert s. induction sub as [| a sub IH]; intros s.
  - split; [intros _; exists s; reflexivity | intros _; destruct s; reflexivity].
  - destruct s as [| b s]; simpl.
    + split; [discriminate | intros [rest H]; discriminate].
    + destruct (ascii_dec a b) as [-> | Hne].
      * rewrite IH. split; intros [rest H]; exists rest; [rewrite H; reflexivity |].
        injection H as H. exact H.
      * split; [discriminate | intros [rest H]]. injection H as H _. congruence.
Qed.

Lemma str_contains_step (sub s : string) :
  str_contains sub s =
  if String.prefix sub s then true
  else match s with
       | EmptyString => false
       | String _ s' => str_contains sub s'
       end.
Proof. destruct s; reflexivity. Qed.

Lemma str_contains_occurs (sub s : string) : str_contains sub s = true <-> occurs_in sub s.
Proof.
  unfold occurs_in. induction s as [| c s IH]; rewrite str_contains_step.
  - destruct (String.prefix sub "") eqn:E.
    + apply prefix_occurs in E. destruct E as [rest E].
      split; [intros _; exists "", rest; exact E | reflexivity].
    + split; [discriminate |]. intros (before & after_ & H).
      destruct before; [| discriminate]. simpl in H.
      assert (String.prefix sub "" = true) by (apply prefix_occurs; eauto). congruence.
  - destruct (String.prefix sub (String c s)) eqn:E.
    + apply prefix_occurs in E. destruct E as [rest E].
      split; [intros _; exists "", rest; exact E | reflexivity].
    + rewrite IH. split.
      * intros (before & after_ & ->). exists (String c before), after_. reflexivity.
      * intros (before & after_ & H). destruct before as [| c' before].
        -- simpl in H.
           assert (String.prefix sub (String c s) = true) by (apply prefix_occurs; eauto).
           congruence.
        -- injection H as _ H. eauto.
Qed.

Lemma should_exclude_pod_spec (name : string) :
  should_exclude_pod name = true <-> excluded_entity name.
Proof.
  unfold should_exclude_pod, excluded_entity. rewrite existsb_exists.
  split; intros (sub & Hin & H); exists sub; (split; [exact Hin |]);
    apply str_contains_occurs; exact H.
Qed.

(** ** The usage percentage *)

Lemma calculate_percentage_cases (usage limit : float) :
  Static.calculate_percentage usage limit =
  if gt_zero limit
  then inr (PFloat (PrimFloat.mul (PrimFloat.div usage limit) 100%float))
  else inr (PStr "N/A").
Proof.
  unfold Static.calculate_percentage, py_truediv.
  destruct (gt_zero limit) eqn:G; [| reflexivity].
  rewrite (gt_zero_not_zero limit G). reflexivity.
Qed.

Lemma azure_percentage_is_static (usage limit : gmap string float) (pod : string) :
  Azure.memory_usage_percentage usage limit pod
  = Static.calculate_percentage (get_or_zero usage pod) (get_or_zero limit pod).
Proof. reflexivity. Qed.

(** ** The lookups of a row never raise *)

Lemma static_event_reason_returns (B : backend) (pod_name namespace : string) (w : world) :
  exists v w', Static.get_latest_event_reason B pod_name namespace w = (inr v, w').
Proof.
  unfold Static.get_latest_event_reason. run.
  destruct (events_response B (calls w) namespace _) as [e | events]; [eauto |].
  destruct (valid_events last_timestamp events) as [| x l]; [eauto |].
  unfold Static.first_sorted.
  destruct (sorted_desc_cons (key_of last_timestamp) x l) as (e & rest & ->). eauto.
Qed.

Lemma static_node_name_returns (B : backend) (pod_name namespace : string) (w : world) :
  exists v w', Static.get_pod_node_name B pod_name namespace w = (inr v, w').
Proof.
  unfold Static.get_pod_node_name. run.
  destruct (pod_response B (calls w) pod_name namespace); eauto.
Qed.

Lemma azure_node_name_returns (B : backend) (pod_name namespace : string) (w : world) :
  exists v w', Azure.get_pod_node_name B pod_name namespace w = (inr v, w').
Proof.
  unfold Azure.get_pod_node_name. run.
  destruct (pod_response B (calls w) pod_name namespace); eauto.
Qed.

Lemma static_log_returns (B : backend) (pod_name namespace : string) (w : world) :
  exists v w', Static.get_last_log_entry B pod_name namespace w = (inr v, w').
Proof.
  unfold Static.get_last_log_entry. run.
  destruct (log_response B (calls w) pod_name namespace); eauto.
Qed.

Lemma static_pod_event_returns (B : backend) (pod_name namespace : string) (w : world) :
  exists d w',
    Static.get_latest_pod_event B pod_name namespace w = (inr d, w')
    /\ keys d = Azure.pod_event_keys.
Proof.
  rewrite static_pod_event_run.
  destruct (events_response B (calls w) namespace _) as [e | events]; [eauto |].
  destruct (latest_event last_timestamp events); eauto.
Qed.

Lemma static_node_event_returns (B : backend) (node : pyval) (w : world) :
  exists d w',
    Static.get_latest_event_details_node B node w = (inr d, w')
    /\ keys d = Azure.node_event_keys.
Proof.
  rewrite static_node_event_run.
  destruct (all_events_response B (calls w) _) as [e | events]; [eauto |].
  destruct (latest_event get_event_timestamp events); eauto.
Qed.

Lemma azure_pod_event_returns (B : backend) (pod_name namespace : string) (w : world) :
  exists d w',
    Azure.get_latest_pod_event B pod_name namespace w = (inr d, w')
    /\ keys d = Azure.pod_event_keys.
Proof.
  rewrite azure_pod_event_run.
  destruct (events_response B (calls w) namespace _) as [e | events]; [eauto |].
  destruct (latest_event last_timestamp events); eauto.
Qed.

Lemma azure_node_event_returns (B : backend) (node : pyval) (w : world) :
  exists d w',
    Azure.get_latest_event_details_node B node w = (inr d, w')
    /\ keys d = Azure.node_event_keys.
Proof.
  rewrite azure_node_event_run.
  destruct (all_events_response B (calls w) _) as [e | events]; [eauto |].
  destruct (latest_event get_event_timestamp events); eauto.
Qed.

(** ** Rows *)

Lemma bind_returns {A C} (m : M A) (k : A -> M C) (w : world) (a : A) (w' : world) :
  m w = (inr a, w') -> (m ≫= k) w = k a w'.
Proof. intros H. unfold mbind, M_bind, bind. rewrite H. reflexivity. Qed.

Lemma bind_raises {A C} (m : M A) (k : A -> M C) (w : world) (e : exn) (w' : world) :
  m w = (inl e, w') -> (m ≫= k) w = (inl e, w').
Proof. intros H. unfold mbind, M_bind, bind. rewrite H. reflexivity. Qed.

Lemma percentage_returns (usage limit : float) :
  exists percentage, Static.calculate_percentage usage limit = inr percentage.
Proof. rewrite calculate_percentage_cases. destruct (gt_zero limit); eauto. Qed.

Lemma static_make_row_returns (B : backend) (ms : Static.metrics) (timestamp pod : string)
    (w : world) :
  exists row w',
    Static.make_row B ms timestamp pod w = (inr row, w')
    /\ row_of (Static.memory_usage_data ms) (Static.memory_limit_data ms) pod row.
Proof.
  unfold Static.make_row.
  destruct (percentage_returns (get_or_zero (Static.memory_usage_data ms) pod)
              (get_or_zero (Static.memory_limit_data ms) pod)) as [pct Hpct].
  erewrite bind_returns by (unfold lift; rewrite Hpct; reflexivity).
  destruct (static_event_reason_returns B pod Static.NAMESPACE w) as (v1 & w1 & H1).
  erewrite bind_returns by exact H1.
  destruct (static_node_name_returns B pod Static.NAMESPACE w1) as (v2 & w2 & H2).
  erewrite bind_returns by exact H2.
  destruct (static_log_returns B pod Static.NAMESPACE w2) as (v3 & w3 & H3).
  erewrite bind_returns by exact H3.
  erewrite bind_returns by apply static_get_pod_status_run.
  destruct (static_pod_event_returns B pod Static.NAMESPACE
              (called (ReadNamespacedPod pod Static.NAMESPACE) w3)) as (d5 & w5 & H5 & K5).
  erewrite bind_returns by exact H5.
  destruct (static_node_event_returns B v2 w5) as (d6 & w6 & H6 & K6).
  erewrite bind_returns by exact H6.
  eexists _, _. split; [reflexivity |].
  unfold row_of. split; [| exists pct; split; [exact Hpct |]].
  - rewrite !dict_get_update_other; [reflexivity | |];
      [fold (keys d5); rewrite K5 | fold (keys d6); rewrite K6]; simpl; intuition discriminate.
  - rewrite !dict_get_update_other; [reflexivity | |];
      [fold (keys d5); rewrite K5 | fold (keys d6); rewrite K6]; simpl; intuition discriminate.
Qed.

Lemma azure_make_row_returns (B : backend) (namespace : string)
    (cpu usage limit : gmap string float) (timestamp pod : string) (w : world) :
  exists row w',
    Azure.make_row B namespace cpu usage limit timestamp pod w = (inr row, w')
    /\ row_of usage limit pod row.
Proof.
  unfold Azure.make_row.
  destruct (percentage_returns (get_or_zero usage pod) (get_or_zero limit pod))
    as [pct Hpct].
  erewrite bind_returns
    by (unfold lift; rewrite azure_percentage_is_static, Hpct; reflexivity).
  erewrite bind_returns by apply azure_get_pod_status_run.
  destruct (azure_pod_event_returns B pod namespace
              (called (ReadNamespacedPod pod namespace) w)) as (d2 & w2 & H2 & K2).
  erewrite bind_returns by exact H2.
  destruct (azure_node_name_returns B pod namespace w2) as (v3 & w3 & H3).
  erewrite bind_returns by exact H3.
  destruct (azure_node_event_returns B v3 w3) as (d4 & w4 & H4 & K4).
  erewrite bind_returns by exact H4.
  eexists _, _. split; [reflexivity |].
  unfold row_of. split; [| exists pct; split; [exact Hpct |]].
  - rewrite !dict_get_update_other; [reflexivity | |];
      [fold (keys d2); rewrite K2 | fold (keys d4); rewrite K4]; simpl; intuition discriminate.
  - rewrite !dict_get_update_other; [reflexivity | |];
      [fold (keys d2); rewrite K2 | fold (keys d4); rewrite K4]; simpl; intuition discriminate.
Qed.

Lemma bind_result_inv {A C} (m : M A) (k : A -> M C) (w : world) (c : C) :
  result (m ≫= k) w = inr c ->
  exists a w1, m w = (inr a, w1) /\ result (k a) w1 = inr c.
Proof.
  unfold result, mbind, M_bind, bind.
  destruct (m w) as [[e | a] w1]; simpl; [discriminate | eauto].
Qed.

Section RowLoop.

Variables (usage limit : gmap string float).
Variable emit : list string -> list dict -> M (list dict).
Variable make : string -> M dict.

Hypothesis emit_nil : forall data, emit [] data = mret data.
Hypothesis emit_cons : forall pod rest data,
  emit (pod :: rest) data =
  if should_exclude_pod pod then emit rest data
  else make pod ≫= fun row => emit rest (data ++ [row])%list.
Hypothesis make_returns : forall pod w,
  exists row w', make pod w = (inr row, w') /\ row_of usage limit pod row.

(** The loop returns; its rows are the rows it started with, followed by
    one row for each candidate that is not excluded. *)
Lemma row_loop_returns (pods : list string) (data : list dict) (w : world) :
  exists out w',
    emit pods data w = (inr out, w')
    /\ (forall row, In row out ->
          In row data
          \/ exists pod, In pod pods /\ should_exclude_pod pod = false
                         /\ row_of usage limit pod row)
    /\ (forall row, In row data -> In row out)
    /\ (forall pod, In pod pods -> should_exclude_pod pod = false ->
          exists row, In row out /\ row_of usage limit pod row).
Proof using emit_nil emit_cons make_returns.
  revert data w. induction pods as [| pod rest IH]; intros data w.
  - rewrite emit_nil. exists data, w. repeat split; auto. intros pod [].
  - rewrite emit_cons. destruct (should_exclude_pod pod) eqn:Hex.
    + destruct (IH data w) as (out & w' & Hrun & Hfrom & Hkeep & Hall).
      exists out, w'. split; [exact Hrun |]. split; [| split; [exact Hkeep |]].
      * intros row Hin. destruct (Hfrom row Hin) as [H | (p & Hp & Hnot & Hrow)];
          [left; exact H | right; exists p; simpl; auto].
      * intros p [<- | Hp] Hnot; [congruence | apply Hall; assumption].
    + destruct (make_returns pod w) as (row & w1 & Hmake & Hrow).
      erewrite bind_returns by exact Hmake.
      destruct (IH (data ++ [row])%list w1) as (out & w' & Hrun & Hfrom & Hkeep & Hall).
      exists out, w'. split; [exact Hrun |]. split; [| split].
      * intros r Hin. destruct (Hfrom r Hin) as [H | (p & Hp & Hnot & Hr)].
        -- apply in_app_or in H. destruct H as [H | [<- | []]]; [left; exact H |].
           right. exists pod. simpl. auto.
        -- right. exists p. simpl. auto.
      * intros r Hin. apply Hkeep. apply in_or_app. left. exact Hin.
      * intros p [<- | Hp] Hnot; [| apply Hall; assumption].
        exists row. split; [| exact Hrow]. apply Hkeep. apply in_or_app. right. left.
        reflexivity.
Qed.

End RowLoop.

Lemma static_emit_rows_returns (B : backend) (ms : Static.metrics) (timestamp : string)
    (pods : list string) (w : world) :
  exists out w',
    Static.emit_rows B ms timestamp pods [] w = (inr out, w')
    /\ (forall row, In row out ->
          exists pod, In pod pods /\ should_exclude_pod pod = false
                      /\ row_of (Static.memory_usage_data ms) (Static.memory_limit_data ms)
                                pod row)
    /\ (forall pod, In pod pods -> should_exclude_pod pod = false ->
          exists row, In row out
                      /\ row_of (Static.memory_usage_data ms) (Static.memory_limit_data ms)
                                pod row).
Proof.
  destruct (row_loop_returns (Static.memory_usage_data ms) (Static.memory_limit_data ms)
              (Static.emit_rows B ms timestamp) (Static.make_row B ms timestamp)
              (fun _ => eq_refl) (fun _ _ _ => eq_refl)
              (fun pod w => static_make_row_returns B ms timestamp pod w) pods [] w)
    as (out & w' & Hrun & Hfrom & _ & Hall).
  exists out, w'. split; [exact Hrun |]. split; [| exact Hall].
  intros row Hin. destruct (Hfrom row Hin) as [[] | H]. exact H.
Qed.

Lemma azure_emit_rows_returns (B : backend) (namespace : string)
    (cpu usage limit : gmap string float) (timestamp : string)
    (pods : list string) (w : world) :
  exists out w',
    Azure.emit_rows B namespace cpu usage limit timestamp pods [] w = (inr out, w')
    /\ (forall row, In row out ->
          exists pod, In pod pods /\ should_exclude_pod pod = false
                      /\ row_of usage limit pod row)
    /\ (forall pod, In pod pods -> should_exclude_pod pod = false ->
          exists row, In row out /\ row_of usage limit pod row).
Proof.
  destruct (row_loop_returns usage limit
              (Azure.emit_rows B namespace cpu usage limit timestamp)
              (Azure.make_row B namespace cpu usage limit timestamp)
              (fun _ => eq_refl) (fun _ _ _ => eq_refl)
              (fun pod w => azure_make_row_returns B namespace cpu usage limit timestamp pod w)
              pods [] w)
    as (out & w' & Hrun & Hfrom & _ & Hall).
  exists out, w'. split; [exact Hrun |]. split; [| exact Hall].
  intros row Hin. destruct (Hfrom row Hin) as [[] | H]. exact H.
Qed.

Ltac invert_binds H :=
  repeat (apply bind_result_inv in H; destruct H as (? & ? & _ & H)).

(** The rows of a cycle of the static script: each is the row of a candidate
    pod that is not excluded. *)
Lemma static_collect_rows (B : backend) (w : world) (data : list dict) :
  result (Static.collect B) w = inr data ->
  exists usage limit,
    (forall row, In row data ->
       exists pod, In pod (candidate_pods usage limit) /\ should_exclude_pod pod = false
                   /\ row_of usage limit pod row)
    /\ (forall pod, In pod (candidate_pods usage limit) -> should_exclude_pod pod = false ->
          exists row, In row data /\ row_of usage limit pod row).
Proof.
  intros H. unfold Static.collect in H. invert_binds H.
  match type of H with
  | result (Static.emit_rows _ ?ms ?ts ?pods []) ?w1 = _ =>
      destruct (static_emit_rows_returns B ms ts pods w1) as (out & w' & Hrun & Hfrom & Hall)
  end.
  unfold result in H. rewrite Hrun in H. simpl in H. injection H as <-.
  eexists _, _. split; [exact Hfrom | exact Hall].
Qed.

Lemma azure_collect_rows (B : backend) (namespace : string) (w : world) (data : list dict) :
  result (Azure.collect_pod_metrics B namespace) w = inr data ->
  exists usage limit,
    (forall row, In row data ->
       exists pod, In pod (candidate_pods usage limit) /\ should_exclude_pod pod = false
                   /\ row_of usage limit pod row)
    /\ (forall pod, In pod (candidate_pods usage limit) -> should_exclude_pod pod = false ->
          exists row, In row data /\ row_of usage limit pod row).
Proof.
  intros H. unfold Azure.collect_pod_metrics in H. invert_binds H.
  match type of H with
  | result (Azure.emit_rows _ _ ?cpu ?usage ?limit ?ts ?pods []) ?w1 = _ =>
      destruct (azure_emit_rows_returns B namespace cpu usage limit ts pods w1)
        as (out & w' & Hrun & Hfrom & Hall)
  end.
  unfold result in H. rewrite Hrun in H. simpl in H. injection H as <-.
  eexists _, _. split; [exact Hfrom | exact Hall].
Qed.

(** C6: an entity whose name contains a member of the exclusion list has no
    row among the rows of a cycle, in either script and whatever the metric
    mappings hold; every row of a cycle names a pod that is not excluded. *)
Theorem excluded_entities_have_no_row (B : backend) (namespace : string) (w : world)
    (name : string) :
  excluded_entity name ->
  (forall data, result (Static.collect B) w = inr data ->
     forall row, In row data ->
       dict_get "Pod Name" row <> Some (PStr name)
       /\ exists pod, dict_get "Pod Name" row = Some (PStr pod) /\ ~ excluded_entity pod)
  /\ (forall data, result (Azure.collect_pod_metrics B namespace) w = inr data ->
        forall row, In row data ->
          dict_get "Pod Name" row <> Some (PStr name)
          /\ exists pod, dict_get "Pod Name" row = Some (PStr pod) /\ ~ excluded_entity pod).
Proof.
  intros Hex. apply should_exclude_pod_spec in Hex.
  assert (Hrows : forall usage limit (row : dict),
             (exists pod, In pod (candidate_pods usage limit)
                          /\ should_exclude_pod pod = false /\ row_of usage limit pod row) ->
             dict_get "Pod Name" row <> Some (PStr name)
             /\ exists pod, dict_get "Pod Name" row = Some (PStr pod) /\ ~ excluded_entity pod).
  { intros usage limit row (pod & _ & Hnot & Hname & _). split.
    - rewrite Hname. intros [= ->]. congruence.
    - exists pod. split; [exact Hname |]. rewrite <- should_exclude_pod_spec. congruence. }
  split; intros data Hdata row Hin.
  - destruct (static_collect_rows B w data Hdata) as (usage & limit & Hfrom & _).
    apply (Hrows usage limit). apply Hfrom. exact Hin.
  - destruct (azure_collect_rows B namespace w data Hdata) as (usage & limit & Hfrom & _).
    apply (Hrows usage limit). apply Hfrom. exact Hin.
Qed.

Lemma excluded_entities_have_no_row_witness :
  (forall data, result (Static.collect Samples.no_events) initial_world = inr data ->
     forall row, In row data ->
       dict_get "Pod Name" row <> Some (PStr "prometheus-0")
       /\ exists pod, dict_get "Pod Name" row = Some (PStr pod) /\ ~ excluded_entity pod)
  /\ (forall data,
        result (Azure.collect_pod_metrics Samples.no_events "otel-demo") initial_world
        = inr data ->
        forall row, In row data ->
          dict_get "Pod Name" row <> Some (PStr "prometheus-0")
          /\ exists pod, dict_get "Pod Name" row = Some (PStr pod) /\ ~ excluded_entity pod).
Proof.
  apply (excluded_entities_have_no_row Samples.no_events "otel-demo" initial_world
           "prometheus-0").
  exists "prometheus". split; [simpl; auto |]. exists "", "-0". reflexivity.
Defined.

Example prometheus_has_samples_and_no_row :
  Static.memory_usage_data Samples.sample_metrics !! "prometheus-0" = Some 50%float
  /\ result (Static.emit_rows Samples.no_events Samples.sample_metrics "now"
               (candidate_pods (Static.memory_usage_data Samples.sample_metrics)
                               (Static.memory_limit_data Samples.sample_metrics)) [])
            initial_world
     = result (Static.emit_rows Samples.no_events Samples.sample_metrics "now"
                 ["cart-5d"; "checkout-7f"] []) initial_world.
Proof. split; vm_compute; reflexivity. Qed.

(** A row names one pod, and holds the usage percentage of that pod. *)
Lemma row_of_named (usage limit : gmap string float) (pod pod' : string) (row : dict) :
  row_of usage limit pod' row ->
  dict_get "Pod Name" row = Some (PStr pod) ->
  exists v,
    Static.calculate_percentage (get_or_zero usage pod) (get_or_zero limit pod) = inr v
    /\ dict_get "Memory Usage (%)" row = Some v.
Proof. intros [Hname Hpct] H. rewrite Hname in H. injection H as ->. exact Hpct. Qed.

Lemma static_emitted_row (B : backend) (ms : Static.metrics) (timestamp : string)
    (pods : list string) (w : world) (out : list dict) (row : dict) (pod : string) :
  result (Static.emit_rows B ms timestamp pods []) w = inr out ->
  In row out ->
  dict_get "Pod Name" row = Some (PStr pod) ->
  exists v,
    Static.calculate_percentage (get_or_zero (Static.memory_usage_data ms) pod)
                                (get_or_zero (Static.memory_limit_data ms) pod) = inr v
    /\ dict_get "Memory Usage (%)" row = Some v.
Proof.
  intros Hrun Hin Hname.
  destruct (static_emit_rows_returns B ms timestamp pods w) as (out' & w' & Hrun' & Hfrom & _).
  unfold result in Hrun. rewrite Hrun' in Hrun. simpl in Hrun. injection Hrun as ->.
  destruct (Hfrom row Hin) as (pod' & _ & _ & Hrow).
  eapply row_of_named; eassumption.
Qed.

Lemma azure_emitted_row (B : backend) (namespace : string)
    (cpu usage limit : gmap string float) (timestamp : string)
    (pods : list string) (w : world) (out : list dict) (row : dict) (pod : string) :
  result (Azure.emit_rows B namespace cpu usage limit timestamp pods []) w = inr out ->
  In row out ->
  dict_get "Pod Name" row = Some (PStr pod) ->
  exists v,
    Static.calculate_percentage (get_or_zero usage pod) (get_or_zero limit pod) = inr v
    /\ dict_get "Memory Usage (%)" row = Some v.
Proof.
  intros Hrun Hin Hname.
  destruct (azure_emit_rows_returns B namespace cpu usage limit timestamp pods w)
    as (out' & w' & Hrun' & Hfrom & _).
  unfold result in Hrun. rewrite Hrun' in Hrun. simpl in Hrun. injection Hrun as ->.
  destruct (Hfrom row Hin) as (pod' & _ & _ & Hrow).
  eapply row_of_named; eassumption.
Qed.

(** C7: for a pod whose memory limit is absent from the limit mapping or is
    zero, the usage percentage is ['N/A']; the computation never raises, so
    never divides by zero; and for a limit greater than zero the percentage
    is 100 times the quotient of usage by limit, in binary64 arithmetic.
    This holds of the function of the static script, of the inline
    expression of the other script, and of the ['Memory Usage (%)'] field of
    every row that either loop emits for the pod. *)
Theorem usage_percentage_guarded (B : backend) (namespace : string)
    (ms : Static.metrics) (cpu : gmap string float) (timestamp : string)
    (pods : list string) (w : world) (pod : string) :
  let usage := Static.memory_usage_data ms in
  let limit := Static.memory_limit_data ms in
  let percentage :=
    Static.calculate_percentage (get_or_zero usage pod) (get_or_zero limit pod) in
  Azure.memory_usage_percentage usage limit pod = percentage
  /\ (forall e, percentage <> inl e)
  /\ (forall u l e, Static.calculate_percentage u l <> inl e)
  /\ (limit !! pod = None -> percentage = inr (PStr "N/A"))
  /\ (forall l, limit !! pod = Some l -> PrimFloat.eqb l 0%float = true ->
        percentage = inr (PStr "N/A"))
  /\ (forall l, limit !! pod = Some l -> gt_zero l = true ->
        percentage
        = inr (PFloat (PrimFloat.mul 100%float (PrimFloat.div (get_or_zero usage pod) l))))
  /\ (forall out row,
        result (Static.emit_rows B ms timestamp pods []) w = inr out ->
        In row out -> dict_get "Pod Name" row = Some (PStr pod) ->
        exists v, percentage = inr v /\ dict_get "Memory Usage (%)" row = Some v)
  /\ (forall out row,
        result (Azure.emit_rows B namespace cpu usage limit timestamp pods []) w = inr out ->
        In row out -> dict_get "Pod Name" row = Some (PStr pod) ->
        exists v, percentage = inr v /\ dict_get "Memory Usage (%)" row = Some v).
Proof.
  intros usage limit percentage.
  assert (Hnever : forall u l e, Static.calculate_percentage u l <> inl e).
  { intros u l e. rewrite calculate_percentage_cases. destruct (gt_zero l); discriminate. }
  split; [reflexivity |]. split; [intros e; apply Hnever |]. split; [exact Hnever |].
  split; [| split; [| split; [| split]]].
  - intros Hnone. unfold percentage, get_or_zero at 2. rewrite Hnone. reflexivity.
  - intros l Hl Hzero. unfold percentage. rewrite calculate_percentage_cases.
    unfold get_or_zero at 1. rewrite Hl. simpl.
    rewrite (zero_is_not_positive l Hzero). reflexivity.
  - intros l Hl Hpos. unfold percentage. rewrite calculate_percentage_cases.
    unfold get_or_zero at 1 3. rewrite Hl. simpl. rewrite Hpos, mul_comm. reflexivity.
  - intros out row Hrun Hin Hname.
    exact (static_emitted_row B ms timestamp pods w out row pod Hrun Hin Hname).
  - intros out row Hrun Hin Hname.
    exact (azure_emitted_row B namespace cpu usage limit timestamp pods w out row pod
             Hrun Hin Hname).
Qed.

Lemma usage_percentage_guarded_witness :
  Static.calculate_percentage 50%float 100%float = inr (PFloat 50%float)
  /\ Static.calculate_percentage 50%float 0%float = inr (PStr "N/A")
  /\ Static.calculate_percentage 50%float 0%float <> inl ZeroDivisionError.
Proof.
  pose proof (usage_percentage_guarded Samples.no_events "otel-demo" Samples.sample_metrics
                ∅ "now" [] initial_world "checkout-7f")
    as (_ & _ & Hnever & _ & _ & Hpos & _).
  split; [| split].
  - exact (Hpos 100%float eq_refl eq_refl).
  - reflexivity.
  - apply Hnever.
Defined.

Example usage_percentage_samples :
  Static.calculate_percentage 50%float (get_or_zero ∅ "checkout-7f") = inr (PStr "N/A")
  /\ Static.calculate_percentage 50%float (-0)%float = inr (PStr "N/A")
  /\ Static.calculate_percentage 50%float nan = inr (PStr "N/A")
  /\ Static.calculate_percentage 1%float 3%float
     = inr (PFloat 0x1.0aaaaaaaaaaaap+5%float).
Proof. repeat split. Qed.

(** C9: a pod with a limit greater than zero and no usage sample gets the
    number 0.0 as its usage percentage, as the function computes it, as the
    inline expression computes it, and in the row either loop emits.  Such a
    pod is a candidate of the cycle, and unless it is excluded by its name
    the loop of either script does emit a row for it: the rows returned hold
    a row that names the pod and has 0.0 as its ['Memory Usage (%)'], and
    every row that names the pod has it. *)
Theorem absent_usage_counts_as_zero (B : backend) (namespace : string)
    (ms : Static.metrics) (cpu : gmap string float) (timestamp : string)
    (pods : list string) (w : world) (pod : string) (l : float) :
  let usage := Static.memory_usage_data ms in
  let limit := Static.memory_limit_data ms in
  limit !! pod = Some l ->
  gt_zero l = true ->
  usage !! pod = None ->
  Static.calculate_percentage (get_or_zero usage pod) (get_or_zero limit pod)
  = inr (PFloat 0%float)
  /\ Azure.memory_usage_percentage usage limit pod = inr (PFloat 0%float)
  /\ (forall out row,
        result (Static.emit_rows B ms timestamp pods []) w = inr out ->
        In row out -> dict_get "Pod Name" row = Some (PStr pod) ->
        dict_get "Memory Usage (%)" row = Some (PFloat 0%float))
  /\ (forall out row,
        result (Azure.emit_rows B namespace cpu usage limit timestamp pods []) w = inr out ->
        In row out -> dict_get "Pod Name" row = Some (PStr pod) ->
        dict_get "Memory Usage (%)" row = Some (PFloat 0%float))
  /\ In pod (candidate_pods usage limit)
  /\ (should_exclude_pod pod = false ->
      (exists out row,
          result (Static.emit_rows B ms timestamp (candidate_pods usage limit) []) w
          = inr out
          /\ In row out
          /\ dict_get "Pod Name" row = Some (PStr pod)
          /\ dict_get "Memory Usage (%)" row = Some (PFloat 0%float))
      /\ (exists out row,
            result (Azure.emit_rows B namespace cpu usage limit timestamp
                      (candidate_pods usage limit) []) w = inr out
            /\ In row out
            /\ dict_get "Pod Name" row = Some (PStr pod)
            /\ dict_get "Memory Usage (%)" row = Some (PFloat 0%float)))
  /\ (should_exclude_pod pod = false -> In pod pods ->
      (exists out row,
          result (Static.emit_rows B ms timestamp pods []) w = inr out
          /\ In row out
          /\ dict_get "Pod Name" row = Some (PStr pod)
          /\ dict_get "Memory Usage (%)" row = Some (PFloat 0%float))
      /\ (exists out row,
            result (Azure.emit_rows B namespace cpu usage limit timestamp pods []) w
            = inr out
            /\ In row out
            /\ dict_get "Pod Name" row = Some (PStr pod)
            /\ dict_get "Memory Usage (%)" row = Some (PFloat 0%float))).
Proof.
  intros usage limit Hl Hpos Hnone.
  assert (Hzero : Static.calculate_percentage (get_or_zero usage pod) (get_or_zero limit pod)
                  = inr (PFloat 0%float)).
  { rewrite calculate_percentage_cases. unfold get_or_zero. rewrite Hl, Hnone. simpl.
    rewrite Hpos, (zero_div_pos l Hpos). reflexivity. }
  assert (Hcand : In pod (candidate_pods usage limit)).
  { unfold candidate_pods. apply list_elem_of_In, elem_of_elements, elem_of_union.
    right. apply elem_of_dom. rewrite Hl. eauto. }
  assert (Hemits : forall pods', should_exclude_pod pod = false -> In pod pods' ->
            (exists out row,
                result (Static.emit_rows B ms timestamp pods' []) w = inr out
                /\ In row out
                /\ dict_get "Pod Name" row = Some (PStr pod)
                /\ dict_get "Memory Usage (%)" row = Some (PFloat 0%float))
            /\ (exists out row,
                  result (Azure.emit_rows B namespace cpu usage limit timestamp pods' []) w
                  = inr out
                  /\ In row out
                  /\ dict_get "Pod Name" row = Some (PStr pod)
                  /\ dict_get "Memory Usage (%)" row = Some (PFloat 0%float))).
  { intros pods' Hnot Hin. split.
    - destruct (static_emit_rows_returns B ms timestamp pods' w)
        as (out & w' & Hrun & _ & Hall).
      destruct (Hall pod Hin Hnot) as (row & Hrow & Hname & v & Hv & Hget).
      fold usage limit in Hv. rewrite Hzero in Hv. injection Hv as <-.
      exists out, row. unfold result. rewrite Hrun. auto.
    - destruct (azure_emit_rows_returns B namespace cpu usage limit timestamp pods' w)
        as (out & w' & Hrun & _ & Hall).
      destruct (Hall pod Hin Hnot) as (row & Hrow & Hname & v & Hv & Hget).
      rewrite Hzero in Hv. injection Hv as <-.
      exists out, row. unfold result. rewrite Hrun. auto. }
  split; [exact Hzero |]. split; [exact Hzero |].
  split; [| split; [| split; [exact Hcand | split]]].
  - intros out row Hrun Hin Hname.
    destruct (static_emitted_row B ms timestamp pods w out row pod Hrun Hin Hname)
      as (v & Hv & Hget).
    fold usage limit in Hv. rewrite Hzero in Hv. injection Hv as <-. exact Hget.
  - intros out row Hrun Hin Hname.
    destruct (azure_emitted_row B namespace cpu usage limit timestamp pods w out row pod
                Hrun Hin Hname) as (v & Hv & Hget).
    rewrite Hzero in Hv. injection Hv as <-. exact Hget.
  - intros Hnot. apply Hemits; [exact Hnot | exact Hcand].
  - intros Hnot Hin. apply Hemits; assumption.
Qed.

Lemma absent_usage_counts_as_zero_witness :
  Static.calculate_percentage
    (get_or_zero (Static.memory_usage_data Samples.sample_metrics) "cart-5d")
    (get_or_zero (Static.memory_limit_data Samples.sample_metrics) "cart-5d")
  = inr (PFloat 0%float)
  /\ (forall out row,
        result (Static.emit_rows Samples.no_events Samples.sample_metrics "now"
                  ["cart-5d"; "checkout-7f"] []) initial_world = inr out ->
        In row out -> dict_get "Pod Name" row = Some (PStr "cart-5d") ->
        dict_get "Memory Usage (%)" row = Some (PFloat 0%float))
  /\ In "cart-5d" (candidate_pods (Static.memory_usage_data Samples.sample_metrics)
                                  (Static.memory_limit_data Samples.sample_metrics))
  /\ (exists out row,
        result (Static.emit_rows Samples.no_events Samples.sample_metrics "now"
                  (candidate_pods (Static.memory_usage_data Samples.sample_metrics)
                                  (Static.memory_limit_data Samples.sample_metrics)) [])
               initial_world = inr out
        /\ In row out
        /\ dict_get "Pod Name" row = Some (PStr "cart-5d")
        /\ dict_get "Memory Usage (%)" row = Some (PFloat 0%float))
  /\ (exists out row,
        result (Azure.emit_rows Samples.no_events "otel-demo" ∅
                  (Static.memory_usage_data Samples.sample_metrics)
                  (Static.memory_limit_data Samples.sample_metrics) "now"
                  (candidate_pods (Static.memory_usage_data Samples.sample_metrics)
                                  (Static.memory_limit_data Samples.sample_metrics)) [])
               initial_world = inr out
        /\ In row out
        /\ dict_get "Pod Name" row = Some (PStr "cart-5d")
        /\ dict_get "Memory Usage (%)" row = Some (PFloat 0%float)).
Proof.
  pose proof (absent_usage_counts_as_zero Samples.no_events "otel-demo"
                Samples.sample_metrics ∅ "now" ["cart-5d"; "checkout-7f"] initial_world
                "cart-5d" 100%float eq_refl eq_refl eq_refl)
    as (H1 & _ & H3 & _ & Hcand & Hemits & _).
  destruct (Hemits eq_refl) as [Hstatic Hazure].
  split; [exact H1 |]. split; [exact H3 |]. split; [exact Hcand |].
  split; [exact Hstatic | exact Hazure].
Defined.

(** The row of the sample cluster for the pod with a limit and no usage. *)
Example limit_only_pod_has_its_row :
  exists row rest,
    result (Static.emit_rows Samples.no_events Samples.sample_metrics "now"
              (candidate_pods (Static.memory_usage_data Samples.sample_metrics)
                              (Static.memory_limit_data Samples.sample_metrics)) [])
           initial_world = inr (row :: rest)
    /\ dict_get "Pod Name" row = Some (PStr "cart-5d")
    /\ dict_get "Memory Usage (%)" row = Some (PFloat 0%float).
Proof. eexists _, _. split; [vm_compute; reflexivity |]. split; reflexivity. Qed.

(** ** The append sink *)

(** C3, as the code has it.  Neither sink raises, and neither removes or
    alters a line that the file holds: the file after a call is the file
    before it followed by the lines the call adds.  With zero rows a call
    leaves an existing file as it is.  When the file does not exist, a call
    with zero rows creates it, holding the header of an empty frame. *)
Theorem append_extends_file (data : list dict) (w : world) :
  result (Static.append_rows data) w = inr tt
  /\ result (Azure.write_to_csv data) w = inr tt
  /\ (forall old, output_file w = Some old ->
        output_file (after (Static.append_rows data) w)
        = Some (old ++ to_csv_lines false data)%list
        /\ output_file (after (Azure.write_to_csv data) w)
           = Some (old ++ to_csv_lines false data)%list)
  /\ (forall old, output_file w = Some old ->
        output_file (after (Static.append_rows []) w) = Some old
        /\ output_file (after (Azure.write_to_csv []) w) = Some old)
  /\ (output_file w = None ->
        output_file (after (Static.append_rows data) w) = Some (to_csv_lines true data)
        /\ output_file (after (Azure.write_to_csv data) w) = Some (to_csv_lines true data)
        /\ output_file (after (Static.append_rows []) w) = Some [HeaderLine []]
        /\ output_file (after (Azure.write_to_csv []) w) = Some [HeaderLine []]).
Proof.
  unfold result, after, Static.append_rows, Azure.write_to_csv, isfile, write_file.
  run. destruct (output_file w) as [old |] eqn:Hfile; simpl.
  - repeat split; try discriminate;
      match goal with H : Some _ = Some _ |- _ => injection H as <- end;
      rewrite ?Hfile; simpl; rewrite ?app_nil_r; reflexivity.
  - repeat split; try discriminate; rewrite ?Hfile; reflexivity.
Qed.

Lemma append_extends_file_witness :
  output_file (after (Static.append_rows [[("Pod Name", PStr "cart-5d")]])
                     (after (Static.append_rows []) (after (Static.append_rows []) initial_world)))
  = Some ([HeaderLine []] ++ to_csv_lines false [[("Pod Name", PStr "cart-5d")]])%list
  /\ output_file (after (Azure.write_to_csv [])
                        (after (Azure.write_to_csv []) initial_world))
     = Some [HeaderLine []].
Proof.
  pose proof (append_extends_file [[("Pod Name", PStr "cart-5d")]]
                (after (Static.append_rows []) (after (Static.append_rows []) initial_world)))
    as (_ & _ & Hadd & _).
  pose proof (append_extends_file [] (after (Azure.write_to_csv []) initial_world))
    as (_ & _ & _ & Hzero & _).
  split.
  - exact (proj1 (Hadd [HeaderLine []] eq_refl)).
  - exact (proj2 (Hzero [HeaderLine []] eq_refl)).
Defined.

(** C3 as stated fails where the file does not exist yet: a call with zero
    rows changes the destination, which now exists and holds a header line
    without columns; the rows of a later call follow it with no header of
    their own. *)
Lemma append_of_zero_rows_creates_file :
  output_file initial_world = None
  /\ output_file (after (Azure.write_to_csv []) initial_world) <> output_file initial_world
  /\ output_file (after (Static.append_rows []) initial_world) <> output_file initial_world
  /\ output_file (after (Azure.write_to_csv []) initial_world) = Some [HeaderLine []]
  /\ output_file (after (Azure.write_to_csv [[("Pod Name", PStr "cart-5d")]])
                        (after (Azure.write_to_csv []) initial_world))
     = Some [HeaderLine []; RecordLine [Some (PStr "cart-5d")]]
  /\ output_file (after (Azure.write_to_csv [[("Pod Name", PStr "cart-5d")]]) initial_world)
     = Some [HeaderLine ["Pod Name"]; RecordLine [Some (PStr "cart-5d")]].
Proof. repeat split; discriminate. Qed.

(** ** Credential failure *)

Lemma azure_query_on_token_failure (B : backend) (query : string) (w : world) (e : exn) :
  token_response B (calls w) = inl e ->
  Azure.query_prometheus B query w = (inl e, called GetAccessToken w).
Proof.
  intros H. unfold Azure.query_prometheus, Azure.get_access_token. run.
  rewrite H. reflexivity.
Qed.

Lemma azure_query_keeps_file (B : backend) (query : string) (w w' : world)
    (r : exn + gmap string float) :
  Azure.query_prometheus B query w = (r, w') -> output_file w' = output_file w.
Proof.
  unfold Azure.query_prometheus, Azure.get_access_token. run.
  destruct (token_response B (calls w)) as [e | token]; [intros [= _ <-]; reflexivity |].
  destruct (query_response B _ _ _) as [[] | results]; intros [= _ <-]; reflexivity.
Qed.

Lemma azure_turn_after_raise (B : backend) (namespace : string) (interval : Z)
    (w w' : world) (e : exn) :
  Azure.collect_pod_metrics B namespace w = (inl e, w') ->
  Azure.loop_turn B namespace interval w = (inr tt, w').
Proof.
  intros H. unfold Azure.loop_turn, Azure.cycle, try_except.
  erewrite bind_raises by exact H. reflexivity.
Qed.

(** C4, as the code has it.  A failed token request is a hard error of the
    query that made it: the query raises the error of the request, without
    the fallback to an empty mapping and without contacting the metrics
    backend.  Nothing in the collection catches it: whichever of the three
    queries of a cycle it is, the collection raises the same error at that
    point, so no later query, state read or event lookup is made and no row
    is assembled; the turn of the main loop ends there, nothing is written
    and the loop goes on with the next turn. *)
Theorem credential_failure_aborts_cycle (B : backend) (namespace : string)
    (interval : Z) (w : world) (e : exn) (pods : list V1Pod) :
  pods_response B (calls w) namespace = inr pods ->
  let w0 := called (ListNamespacedPod namespace) w in
  let stops_at (wk : world) :=
    Azure.collect_pod_metrics B namespace w = (inl e, called GetAccessToken wk)
    /\ Azure.loop_turn B namespace interval w = (inr tt, called GetAccessToken wk)
    /\ output_file (called GetAccessToken wk) = output_file w in
  (forall query w1, token_response B (calls w1) = inl e ->
     Azure.query_prometheus B query w1 = (inl e, called GetAccessToken w1))
  /\ (token_response B (calls w0) = inl e -> stops_at w0)
  /\ (forall cpu w1,
        Azure.query_prometheus B (Azure.cpu_usage_query namespace) w0 = (inr cpu, w1) ->
        token_response B (calls w1) = inl e -> stops_at w1)
  /\ (forall cpu w1 usage w2,
        Azure.query_prometheus B (Azure.cpu_usage_query namespace) w0 = (inr cpu, w1) ->
        Azure.query_prometheus B (Azure.memory_usage_query namespace) w1 = (inr usage, w2) ->
        token_response B (calls w2) = inl e -> stops_at w2).
Proof.
  intros Hpods w0 stops_at.
  assert (Hlist : invoke (ListNamespacedPod namespace)
                    (fun tr => pods_response B tr namespace) w = (inr pods, w0)).
  { unfold invoke. rewrite Hpods. reflexivity. }
  assert (Hstop : forall wk,
             Azure.collect_pod_metrics B namespace w = (inl e, called GetAccessToken wk) ->
             output_file wk = output_file w -> stops_at wk).
  { intros wk Hrun Hfile. split; [exact Hrun |]. split; [| exact Hfile].
    apply azure_turn_after_raise with (e := e). exact Hrun. }
  split; [intros query w1; apply azure_query_on_token_failure |].
  split; [| split].
  - intros Htok. apply Hstop; [| reflexivity].
    unfold Azure.collect_pod_metrics.
    erewrite bind_returns by exact Hlist.
    erewrite bind_raises by (apply azure_query_on_token_failure; exact Htok).
    reflexivity.
  - intros cpu w1 H1 Htok. apply Hstop.
    + unfold Azure.collect_pod_metrics.
      erewrite bind_returns by exact Hlist.
      erewrite bind_returns by exact H1.
      erewrite bind_raises by (apply azure_query_on_token_failure; exact Htok).
      reflexivity.
    + apply (azure_query_keeps_file _ _ _ _ _ H1).
  - intros cpu w1 usage w2 H1 H2 Htok. apply Hstop.
    + unfold Azure.collect_pod_metrics.
      erewrite bind_returns by exact Hlist.
      erewrite bind_returns by exact H1.
      erewrite bind_returns by exact H2.
      erewrite bind_raises by (apply azure_query_on_token_failure; exact Htok).
      reflexivity.
    + rewrite (azure_query_keeps_file _ _ _ _ _ H2).
      apply (azure_query_keeps_file _ _ _ _ _ H1).
Qed.

Lemma credential_failure_aborts_cycle_witness :
  Azure.collect_pod_metrics Samples.no_token "otel-demo" initial_world
  = (inl (RequestException "401 Client Error"),
     called GetAccessToken (called (ListNamespacedPod "otel-demo") initial_world))
  /\ Azure.loop_turn Samples.no_token "otel-demo" 5 initial_world
     = (inr tt, called GetAccessToken (called (ListNamespacedPod "otel-demo") initial_world))
  /\ output_file (called GetAccessToken (called (ListNamespacedPod "otel-demo") initial_world))
     = output_file initial_world.
Proof.
  pose proof (credential_failure_aborts_cycle Samples.no_token "otel-demo" 5 initial_world
                (RequestException "401 Client Error") [] eq_refl) as (_ & Hfirst & _).
  exact (Hfirst eq_refl).
Defined.

(** C4 as stated fails: the token request of the first query fails, and the
    cycle makes no other call, assembles no row and writes nothing, where
    the same cluster with a working credential provider yields two rows. *)
Lemma credential_failure_stops_sample_cycle :
  token_response Samples.no_token [ListNamespacedPod "otel-demo"]
    = inl (RequestException "401 Client Error")
  /\ result (Azure.collect_pod_metrics Samples.no_token "otel-demo") initial_world
     = inl (RequestException "401 Client Error")
  /\ calls (after (Azure.loop_turn Samples.no_token "otel-demo" 5) initial_world)
     = [ListNamespacedPod "otel-demo"; GetAccessToken]
  /\ output_file (after (Azure.loop_turn Samples.no_token "otel-demo" 5) initial_world) = None
  /\ (exists row1 row2,
        result (Azure.collect_pod_metrics Samples.no_events "otel-demo") initial_world
        = inr [row1; row2]).
Proof.
  split; [reflexivity |]. split; [reflexivity |]. split; [reflexivity |].
  split; [reflexivity |]. eexists _, _. vm_compute. reflexivity.
Qed.

(** * Further properties *)

(** ** Metric mappings *)

Lemma to_mapping_snoc (results : list (string * float)) (item : string * float) :
  to_mapping (results ++ [item]) = <[fst item := snd item]> (to_mapping results).
Proof. unfold to_mapping. rewrite fold_left_app. reflexivity. Qed.

(** X1: the mapping built from the samples of a query gives each pod its
    last sample in the order of the response, and has an entry exactly for
    the pods that have a sample. *)
Theorem mapping_keeps_last_sample (results : list (string * float)) (pod : string) :
  to_mapping results !! pod
  = snd <$> last (filter (fun item => fst item = pod) results)
  /\ (is_Some (to_mapping results !! pod) <-> In pod (map fst results)).
Proof.
  assert (Hlast : to_mapping results !! pod
                  = snd <$> last (filter (fun item => fst item = pod) results)).
  { induction results as [| item results IH] using rev_ind; [reflexivity |].
    rewrite to_mapping_snoc, filter_app, lookup_insert.
    destruct (decide (fst item = pod)) as [E | E].
    - rewrite filter_cons_True by exact E. rewrite filter_nil, last_snoc. reflexivity.
    - rewrite filter_cons_False by exact E. rewrite filter_nil, app_nil_r. exact IH. }
  split; [exact Hlast |]. rewrite Hlast. rewrite in_map_iff. split.
  - intros [v Hv]. destruct (last _) as [item |] eqn:E; [| discriminate].
    apply last_Some_elem_of in E. apply list_elem_of_filter in E. destruct E as [E Hin].
    exists item. split; [exact E | apply list_elem_of_In; exact Hin].
  - intros (item & E & Hin).
    destruct (last (filter (fun item => fst item = pod) results)) as [x |] eqn:El; [eauto |].
    apply last_None in El.
    assert (Hf : item ∈ filter (fun item => fst item = pod) results).
    { apply list_elem_of_filter. split; [exact E | apply list_elem_of_In; exact Hin]. }
    rewrite El in Hf. inversion Hf.
Qed.

(** ** One row for each candidate *)

Section RowOrder.

Variables (usage limit : gmap string float).
Variable emit : list string -> list dict -> M (list dict).
Variable make : string -> M dict.

Hypothesis emit_nil : forall data, emit [] data = mret data.
Hypothesis emit_cons : forall pod rest data,
  emit (pod :: rest) data =
  if should_exclude_pod pod then emit rest data
  else make pod ≫= fun row => emit rest (data ++ [row])%list.
Hypothesis make_returns : forall pod w,
  exists row w', make pod w = (inr row, w') /\ row_of usage limit pod row.

Lemma row_loop_in_order (pods : list string) (data : list dict) (w : world) :
  exists rows w',
    emit pods data w = (inr (data ++ rows)%list, w')
    /\ Forall2 (row_of usage limit)
               (List.filter (fun pod => negb (should_exclude_pod pod)) pods) rows.
Proof using emit_nil emit_cons make_returns.
  revert data w. induction pods as [| pod rest IH]; intros data w.
  - exists [], w. rewrite emit_nil, app_nil_r. split; [reflexivity | constructor].
  - rewrite emit_cons. simpl. destruct (should_exclude_pod pod) eqn:Hex; simpl.
    + apply IH.
    + destruct (make_returns pod w) as (row & w1 & Hmake & Hrow).
      erewrite bind_returns by exact Hmake.
      destruct (IH (data ++ [row])%list w1) as (rows & w' & Hrun & Hall).
      exists (row :: rows), w'. rewrite <- app_assoc in Hrun.
      split; [exact Hrun | constructor; assumption].
Qed.

End RowOrder.

Lemma names_of_rows (usage limit : gmap string float) (pods : list string)
    (rows : list dict) :
  Forall2 (row_of usage limit) pods rows ->
  map (dict_get "Pod Name") rows = map (fun pod => Some (PStr pod)) pods.
Proof.
  induction 1 as [| pod row pods rows [Hname _] _ IH]; [reflexivity |].
  simpl. rewrite Hname, IH. reflexivity.
Qed.

Lemma one_row_per_candidate_static_aux (B : backend) (ms : Static.metrics)
    (timestamp : string) (pods : list string) (w : world) :
  exists rows w',
    Static.emit_rows B ms timestamp pods [] w = (inr rows, w')
    /\ map (dict_get "Pod Name") rows
       = map (fun pod => Some (PStr pod))
             (List.filter (fun pod => negb (should_exclude_pod pod)) pods).
Proof.
  destruct (row_loop_in_order (Static.memory_usage_data ms) (Static.memory_limit_data ms)
              (Static.emit_rows B ms timestamp) (Static.make_row B ms timestamp)
              (fun _ => eq_refl) (fun _ _ _ => eq_refl)
              (fun pod w => static_make_row_returns B ms timestamp pod w) pods [] w)
    as (rows & w' & Hrun & Hall).
  exists rows, w'. split; [exact Hrun |]. eapply names_of_rows. exact Hall.
Qed.

(** X2: the row-emission loop of either script never raises, whatever the
    cluster answers, and emits exactly one row for each candidate pod that
    is not excluded, in the order of the candidates: the pod names of the
    rows are the candidates without the excluded ones. *)
Theorem one_row_per_candidate (B : backend) (namespace : string) (ms : Static.metrics)
    (cpu : gmap string float) (timestamp : string) (pods : list string) (w : world) :
  let kept := List.filter (fun pod => negb (should_exclude_pod pod)) pods in
  (exists rows w',
      Static.emit_rows B ms timestamp pods [] w = (inr rows, w')
      /\ map (dict_get "Pod Name") rows = map (fun pod => Some (PStr pod)) kept
      /\ length rows = length kept)
  /\ (exists rows w',
        Azure.emit_rows B namespace cpu (Static.memory_usage_data ms)
          (Static.memory_limit_data ms) timestamp pods [] w = (inr rows, w')
        /\ map (dict_get "Pod Name") rows = map (fun pod => Some (PStr pod)) kept
        /\ length rows = length kept).
Proof.
  intros kept. split.
  - destruct (row_loop_in_order (Static.memory_usage_data ms) (Static.memory_limit_data ms)
                (Static.emit_rows B ms timestamp) (Static.make_row B ms timestamp)
                (fun _ => eq_refl) (fun _ _ _ => eq_refl)
                (fun pod w => static_make_row_returns B ms timestamp pod w) pods [] w)
      as (rows & w' & Hrun & Hall).
    exists rows, w'. split; [exact Hrun |]. split.
    + eapply names_of_rows. exact Hall.
    + symmetry. eapply Forall2_length. exact Hall.
  - destruct (row_loop_in_order (Static.memory_usage_data ms) (Static.memory_limit_data ms)
                (Azure.emit_rows B namespace cpu (Static.memory_usage_data ms)
                   (Static.memory_limit_data ms) timestamp)
                (Azure.make_row B namespace cpu (Static.memory_usage_data ms)
                   (Static.memory_limit_data ms) timestamp)
                (fun _ => eq_refl) (fun _ _ _ => eq_refl)
                (fun pod w => azure_make_row_returns B namespace cpu _ _ timestamp pod w)
                pods [] w)
      as (rows & w' & Hrun & Hall).
    exists rows, w'. split; [exact Hrun |]. split.
    + eapply names_of_rows. exact Hall.
    + symmetry. eapply Forall2_length. exact Hall.
Qed.

Lemma candidate_pods_spec (usage limit : gmap string float) (pod : string) :
  In pod (candidate_pods usage limit)
  <-> is_Some (usage !! pod) \/ is_Some (limit !! pod).
Proof.
  unfold candidate_pods. rewrite <- list_elem_of_In, elem_of_elements, elem_of_union.
  rewrite !elem_of_dom. reflexivity.
Qed.

(** X3: over the candidates of a cycle, a pod has a row exactly when it has a
    memory usage sample or a memory limit sample and is not excluded; samples
    of other metrics alone give no row; and no two rows name the same pod. *)
Theorem rows_follow_memory_samples (B : backend) (ms : Static.metrics)
    (timestamp : string) (w : world) (rows : list dict) :
  let usage := Static.memory_usage_data ms in
  let limit := Static.memory_limit_data ms in
  result (Static.emit_rows B ms timestamp (candidate_pods usage limit) []) w = inr rows ->
  NoDup (map (dict_get "Pod Name") rows)
  /\ forall pod,
       In (Some (PStr pod)) (map (dict_get "Pod Name") rows)
       <-> (is_Some (usage !! pod) \/ is_Some (limit !! pod))
           /\ should_exclude_pod pod = false.
Proof.
  intros usage limit Hrun.
  destruct (one_row_per_candidate_static_aux B ms timestamp (candidate_pods usage limit) w)
    as (rows' & w' & Hrun' & Hnames).
  unfold result in Hrun. rewrite Hrun' in Hrun. simpl in Hrun. injection Hrun as <-.
  rewrite Hnames. split.
  - apply NoDup_ListNoDup.
    apply Finite.Injective_map_NoDup; [intros a b [= ->]; reflexivity |].
    apply List.NoDup_filter. apply NoDup_ListNoDup. apply NoDup_elements.
  - intros pod. rewrite in_map_iff. split.
    + intros (p & [= ->] & Hin). apply filter_In in Hin. destruct Hin as [Hin Hnot].
      split; [apply candidate_pods_spec; exact Hin |].
      destruct (should_exclude_pod pod); [discriminate | reflexivity].
    + intros [Hin Hnot]. exists pod. split; [reflexivity |]. apply filter_In.
      split; [apply candidate_pods_spec; exact Hin | rewrite Hnot; reflexivity].
Qed.

(** ** More on the workload state reader *)

Lemma static_fixed_fields (pod : V1Pod) :
  ps_status (Static.pod_status_of pod) = of_opt_str (phase pod)
  /\ ps_ready_containers (Static.pod_status_of pod)
     = count_ready (default [] (container_statuses pod))
  /\ ps_total_containers (Static.pod_status_of pod) = Z.of_nat (length (spec_containers pod))
  /\ ps_error_message (Static.pod_status_of pod) = PNone.
Proof.
  unfold Static.pod_status_of.
  destruct (Static.init_loop _ _ _) as [r1 reason1].
  destruct (if Static.init_containers_fine pod then _ else _) as [r2 reason2]. simpl.
  repeat split. destruct (container_statuses pod) as [[| c cs] |]; reflexivity.
Qed.

(** X4: reading the status of a pod never raises.  When the read fails the
    status is ['NotFound'] for an API error with status 404, ['Error'] for
    another API error and ['Unknown'] for anything else, the reason is
    [None], the three counts are zero and the error message is set: to the
    text of the exception, except that the static script names the pod for a
    404.  When the read succeeds the status is the phase of the pod and the
    error message is [None]. *)
Theorem pod_status_of_failed_read (B : backend) (pod_name namespace : string) (w : world) :
  exists st_static st_azure,
    result (Static.get_pod_status B pod_name namespace) w = inr st_static
    /\ result (Azure.get_pod_status B pod_name namespace) w = inr st_azure
    /\ (forall e, pod_response B (calls w) pod_name namespace = inl e ->
          ps_status st_static = PStr (failure_status e)
          /\ ps_status st_azure = PStr (failure_status e)
          /\ ps_reason st_static = PNone /\ ps_reason st_azure = PNone
          /\ ps_restarts st_static = 0 /\ ps_restarts st_azure = 0
          /\ ps_ready_containers st_static = 0 /\ ps_ready_containers st_azure = 0
          /\ ps_total_containers st_static = 0 /\ ps_total_containers st_azure = 0
          /\ ps_error_message st_azure = PStr (exn_str e)
          /\ ps_error_message st_static
             = PStr (if failure_status e =? "NotFound"
                     then "Pod " ++ pod_name ++ " not found"
                     else exn_str e)%string)
    /\ (forall pod, pod_response B (calls w) pod_name namespace = inr pod ->
          ps_status st_static = of_opt_str (phase pod)
          /\ ps_status st_azure = of_opt_str (phase pod)
          /\ ps_error_message st_static = PNone
          /\ ps_error_message st_azure = PNone).
Proof.
  unfold result. rewrite static_get_pod_status_run, azure_get_pod_status_run.
  eexists _, _. split; [reflexivity |]. split; [reflexivity |].
  destruct (pod_response B (calls w) pod_name namespace) as [e | pod]; split.
  - intros e' [= <-]. destruct e as [status msg | msg | | msg]; simpl;
      try (repeat split; reflexivity).
    destruct (status =? 404); repeat split; reflexivity.
  - intros pod [=].
  - intros e [=].
  - intros pod' [= <-]. destruct (static_fixed_fields pod) as (Hst & _ & _ & Herr).
    repeat split; assumption || reflexivity.
Qed.

Lemma containers_loop_app (l1 l2 : list V1ContainerStatus) (restarts : Z) (reason : pyval) :
  Static.containers_loop (l1 ++ l2) restarts reason
  = Static.containers_loop l2 (fst (Static.containers_loop l1 restarts reason))
                              (snd (Static.containers_loop l1 restarts reason)).
Proof.
  revert restarts reason. induction l1 as [| c l1 IH]; intros restarts reason; simpl;
    [reflexivity | apply IH].
Qed.

Lemma containers_loop_untroubled (l : list V1ContainerStatus) (restarts : Z) (reason : pyval) :
  Forall untroubled l -> snd (Static.containers_loop l restarts reason) = reason.
Proof.
  intros H. revert restarts. induction H as [| c l [Hw Ht] _ IH]; intros restarts; simpl;
    [reflexivity |].
  rewrite Hw, Ht. apply IH.
Qed.

Lemma init_loop_fine (l : list V1ContainerStatus) (restarts : Z) (reason : pyval) :
  forallb terminated_ok l = true -> snd (Static.init_loop l restarts reason) = reason.
Proof.
  revert restarts. induction l as [| c l IH]; intros restarts; simpl; [reflexivity |].
  unfold terminated_ok at 1. intros H. apply andb_prop in H. destruct H as [Hc Hl].
  destruct (terminated (state c)) as [t |]; [| discriminate].
  rewrite Hc. simpl. apply IH. exact Hl.
Qed.

Lemma static_reason_when_fine (pod : V1Pod) :
  Static.init_containers_fine pod = true ->
  ps_reason (Static.pod_status_of pod)
  = snd (Static.containers_loop (default [] (container_statuses pod))
           (fst (Static.init_loop (default [] (init_container_statuses pod)) 0
                   (top_level_reason pod)))
           (top_level_reason pod)).
Proof.
  intros Hfine. unfold Static.pod_status_of. rewrite Hfine.
  fold (top_level_reason pod).
  assert (Hinit : snd (Static.init_loop (default [] (init_container_statuses pod)) 0
                         (top_level_reason pod)) = top_level_reason pod).
  { unfold Static.init_containers_fine in Hfine.
    destruct (init_container_statuses pod) as [l |]; [| reflexivity].
    apply init_loop_fine. exact Hfine. }
  destruct (Static.init_loop _ _ _) as [r1 reason1]. simpl in *. subst reason1.
  destruct (Static.containers_loop _ _ _) as [r2 reason2]. reflexivity.
Qed.

(** X5: among the regular containers the last one that is waiting or
    terminated decides the reason, a waiting state before a terminated one:
    when the init containers are fine and every container after [c] is
    neither waiting nor terminated, the reason is the waiting reason of [c]
    if [c] is waiting, and else the terminated reason of [c], or its exit
    code when that reason is absent or empty, if [c] is terminated. *)
Theorem last_troubled_container_decides_reason (pod : V1Pod)
    (pre post : list V1ContainerStatus) (c : V1ContainerStatus) :
  Static.init_containers_fine pod = true ->
  container_statuses pod = Some (pre ++ c :: post)%list ->
  Forall untroubled post ->
  (forall wt, waiting (state c) = Some wt ->
     ps_reason (Static.pod_status_of pod) = of_opt_str (wait_reason wt))
  /\ (forall t, waiting (state c) = None -> terminated (state c) = Some t ->
        ps_reason (Static.pod_status_of pod) = reason_or_exit_code t).
Proof.
  intros Hfine Hcs Hpost. rewrite (static_reason_when_fine pod Hfine), Hcs. simpl.
  rewrite containers_loop_app. simpl.
  split.
  - intros wt Hw. rewrite Hw. apply containers_loop_untroubled. exact Hpost.
  - intros t Hw Ht. rewrite Hw, Ht. apply containers_loop_untroubled. exact Hpost.
Qed.

Lemma last_troubled_container_decides_reason_witness :
  (forall wt, Some {| wait_reason := Some "CrashLoopBackOff" |} = Some wt ->
     ps_reason (Static.pod_status_of
                  (Samples.checkout_pod None
                     (Some [Samples.status 1 (Samples.exited 1 (Some "Error"));
                            Samples.status 7 Samples.backing_off;
                            Samples.status 0 Samples.running])))
     = of_opt_str (wait_reason wt))
  /\ (forall t, Some {| wait_reason := Some "CrashLoopBackOff" |} = None ->
        None = Some t ->
        ps_reason (Static.pod_status_of
                     (Samples.checkout_pod None
                        (Some [Samples.status 1 (Samples.exited 1 (Some "Error"));
                               Samples.status 7 Samples.backing_off;
                               Samples.status 0 Samples.running])))
        = reason_or_exit_code t).
Proof.
  apply (last_troubled_container_decides_reason
           (Samples.checkout_pod None
              (Some [Samples.status 1 (Samples.exited 1 (Some "Error"));
                     Samples.status 7 Samples.backing_off;
                     Samples.status 0 Samples.running]))
           [Samples.status 1 (Samples.exited 1 (Some "Error"))]
           [Samples.status 0 Samples.running]
           (Samples.status 7 Samples.backing_off)).
  - reflexivity.
  - reflexivity.
  - constructor; [split; reflexivity | constructor].
Defined.

(** X6: when the init containers are fine and no regular container is
    waiting or terminated, the reason of the static script is the reason of
    the pod, or its phase when it has none; the other script reports this
    top-level reason for every pod, whatever its containers are doing. *)
Theorem reason_defaults_to_phase (pod : V1Pod) :
  ps_reason (Azure.pod_status_of pod) = top_level_reason pod
  /\ (Static.init_containers_fine pod = true ->
      Forall untroubled (default [] (container_statuses pod)) ->
      ps_reason (Static.pod_status_of pod) = top_level_reason pod).
Proof.
  split; [reflexivity |]. intros Hfine Hquiet.
  rewrite (static_reason_when_fine pod Hfine).
  apply containers_loop_untroubled. exact Hquiet.
Qed.

(** X7: as long as the init containers are not fine, that is one of them
    has not terminated or terminated with a nonzero exit code, the regular
    containers have no part in the reason nor in the restart count of the
    static script: both are the same whatever the statuses of the regular
    containers are. *)
Theorem regular_containers_wait_for_init (pod : V1Pod)
    (regular : option (list V1ContainerStatus)) :
  Static.init_containers_fine pod = false ->
  ps_reason (Static.pod_status_of (with_container_statuses pod regular))
  = ps_reason (Static.pod_status_of pod)
  /\ ps_restarts (Static.pod_status_of (with_container_statuses pod regular))
     = ps_restarts (Static.pod_status_of pod)
  /\ ps_restarts (Static.pod_status_of pod)
     = sum_restarts (scanned_init (default [] (init_container_statuses pod))).
Proof.
  intros Hfine.
  assert (Hfine' : Static.init_containers_fine (with_container_statuses pod regular) = false)
    by exact Hfine.
  split; [| split].
  - unfold Static.pod_status_of. rewrite Hfine, Hfine'. simpl.
    destruct (Static.init_loop _ _ _) as [r1 reason1]. reflexivity.
  - rewrite !static_restarts, Hfine, Hfine'. reflexivity.
  - rewrite static_restarts, Hfine. lia.
Qed.

Lemma regular_containers_wait_for_init_witness :
  ps_reason (Static.pod_status_of
               (with_container_statuses Samples.sidecar_pod
                  (Some [Samples.status 9 Samples.backing_off])))
  = ps_reason (Static.pod_status_of Samples.sidecar_pod)
  /\ ps_restarts (Static.pod_status_of
                    (with_container_statuses Samples.sidecar_pod
                       (Some [Samples.status 9 Samples.backing_off])))
     = ps_restarts (Static.pod_status_of Samples.sidecar_pod)
  /\ ps_restarts (Static.pod_status_of Samples.sidecar_pod)
     = sum_restarts (scanned_init (default [] (init_container_statuses Samples.sidecar_pod))).
Proof.
  apply (regular_containers_wait_for_init Samples.sidecar_pod
           (Some [Samples.status 9 Samples.backing_off])).
  reflexivity.
Defined.

Lemma count_ready_nonneg (l : list V1ContainerStatus) :
  0 <= count_ready l <= Z.of_nat (length l).
Proof.
  unfold count_ready. split; [lia |]. apply inj_le. apply List.filter_length_le.
Qed.

(** X8: the two scripts agree on the status, the number of ready containers,
    the number of containers and the error message of every pod; the ready
    count lies between zero and the number of container statuses; the
    restart counts agree when the pod has no init container status, and the
    reasons agree when moreover no regular container is waiting or
    terminated. *)
Theorem scripts_agree_on_status (pod : V1Pod) :
  ps_status (Static.pod_status_of pod) = ps_status (Azure.pod_status_of pod)
  /\ ps_ready_containers (Static.pod_status_of pod)
     = ps_ready_containers (Azure.pod_status_of pod)
  /\ 0 <= ps_ready_containers (Static.pod_status_of pod)
        <= Z.of_nat (length (default [] (container_statuses pod)))
  /\ ps_total_containers (Static.pod_status_of pod)
     = ps_total_containers (Azure.pod_status_of pod)
  /\ ps_error_message (Static.pod_status_of pod) = ps_error_message (Azure.pod_status_of pod)
  /\ (default [] (init_container_statuses pod) = [] ->
      ps_restarts (Static.pod_status_of pod) = ps_restarts (Azure.pod_status_of pod)
      /\ (Forall untroubled (default [] (container_statuses pod)) ->
          ps_reason (Static.pod_status_of pod) = ps_reason (Azure.pod_status_of pod))).
Proof.
  destruct (static_fixed_fields pod) as (Hst & Hready & Htot & Herr).
  split; [exact Hst |]. split; [exact Hready |].
  split; [rewrite Hready; apply count_ready_nonneg |].
  split; [exact Htot |]. split; [exact Herr |].
  intros Hinit.
  assert (Hfine : Static.init_containers_fine pod = true).
  { unfold Static.init_containers_fine.
    destruct (init_container_statuses pod) as [l |]; [| reflexivity].
    simpl in Hinit. subst l. reflexivity. }
  split.
  - rewrite static_restarts, Hfine, Hinit. reflexivity.
  - intros Hquiet. rewrite (static_reason_when_fine pod Hfine).
    rewrite containers_loop_untroubled by exact Hquiet. reflexivity.
Qed.

(** ** Ages in whole seconds *)

Lemma append_cons (c : ascii) (s rest : string) :
  String c s ++ rest = String c (s ++ rest).
Proof. reflexivity. Qed.

Lemma append_assoc (a b c : string) : (a ++ b) ++ c = a ++ (b ++ c).
Proof.
  induction a as [| x a IH]; [reflexivity |]. rewrite !append_cons, IH. reflexivity.
Qed.













(** ** More on the selection of the latest event *)

Lemma filter_split {A} (f : A -> bool) (l pre post : list A) (x : A) :
  List.filter f l = (pre ++ x :: post)%list ->
  exists pre' post',
    l = (pre' ++ x :: post')%list /\ List.filter f pre' = pre.
Proof.
  revert pre. induction l as [| y l IH]; intros pre H; simpl in H.
  - destruct pre; discriminate.
  - destruct (f y) eqn:Hy.
    + destruct pre as [| p pre]; simpl in H.
      * injection H as -> _. exists [], l. split; reflexivity.
      * injection H as -> H. destruct (IH pre H) as (pre' & post' & -> & Hpre).
        exists (p :: pre'), post'. split; [reflexivity |]. simpl. rewrite Hy, Hpre.
        reflexivity.
    + destruct (IH pre H) as (pre' & post' & -> & Hpre).
      exists (y :: pre'), post'. split; [reflexivity |]. simpl. rewrite Hy. exact Hpre.
Qed.

(** X10: among the events with the latest timestamp the correlators take the
    first one listed: every event listed before the selected one has no
    timestamp or a strictly earlier one. *)
Theorem first_listed_wins_ties (ts : V1Event -> option Z) (events : list V1Event)
    (latest : V1Event) :
  latest_event ts events = Some latest ->
  exists before after_ t,
    events = (before ++ latest :: after_)%list
    /\ ts latest = Some t
    /\ (forall e t', In e before -> ts e = Some t' -> t' < t)
    /\ (forall e t', In e after_ -> ts e = Some t' -> t' <= t).
Proof.
  intros H.
  destruct (latest_event_Some ts events latest H) as (_ & t & Ht & Hmax).
  destruct (latest_event_first_seen ts events latest H) as (pre & post & Hvalid & Hpre).
  destruct (filter_split _ _ _ _ _ Hvalid) as (before & after_ & -> & Hbefore).
  exists before, after_, t. split; [reflexivity |]. split; [exact Ht |]. split.
  - intros e t' Hin Ht'.
    assert (Hv : In e pre).
    { rewrite <- Hbefore. apply filter_In. split; [exact Hin |].
      apply bool_decide_eq_true. rewrite Ht'. eauto. }
    rewrite Forall_forall in Hpre. apply list_elem_of_In in Hv. specialize (Hpre e Hv).
    unfold key_of in Hpre. rewrite Ht, Ht' in Hpre. exact Hpre.
  - intros e t' Hin Ht'. apply (Hmax e t'); [| exact Ht'].
    apply in_or_app. right. right. exact Hin.
Qed.

Lemma first_listed_wins_ties_witness :
  exists before after_ t,
    [Samples.scheduled; Samples.pulled] = (before ++ Samples.scheduled :: after_)%list
    /\ get_event_timestamp Samples.scheduled = Some t
    /\ (forall e t', In e before -> get_event_timestamp e = Some t' -> t' < t)
    /\ (forall e t', In e after_ -> get_event_timestamp e = Some t' -> t' <= t).
Proof.
  apply (first_listed_wins_ties get_event_timestamp [Samples.scheduled; Samples.pulled]
           Samples.scheduled).
  reflexivity.
Defined.

Lemma sorted_desc_ext {A} (key key' : A -> Z) (l : list A) :
  (forall x, In x l -> key x = key' x) -> sorted_desc key l = sorted_desc key' l.
Proof.
  induction l as [| x l IH]; intros H; [reflexivity |]. simpl.
  rewrite <- IH by (intros y Hy; apply H; right; exact Hy).
  assert (Hl : forall y, In y (sorted_desc key l) -> key y = key' y).
  { intros y Hy. apply H. right. clear - Hy. revert y Hy.
    induction l as [| z l IHl]; intros y Hy; [destruct Hy |]. simpl in Hy.
    assert (Hins : forall (a : A) (m : list A) y, In y (insert_desc key a m) -> y = a \/ In y m).
    { intros a m. induction m as [| b m IHm]; intros y0 H0; simpl in H0.
      - destruct H0 as [<- | []]. left. reflexivity.
      - destruct (key a <? key b).
        + destruct H0 as [<- | H0]; [right; left; reflexivity |].
          destruct (IHm y0 H0) as [-> | Hm]; [left; reflexivity | right; right; exact Hm].
        + destruct H0 as [<- | H0]; [left; reflexivity | right; exact H0]. }
    destruct (Hins z _ y Hy) as [-> | Hin]; [left; reflexivity | right; apply IHl; exact Hin]. }
  assert (Hx : key x = key' x) by (apply H; left; reflexivity).
  revert Hl. generalize (sorted_desc key l). intros m Hm.
  induction m as [| b m IHm]; [reflexivity |]. simpl.
  rewrite Hx, (Hm b) by (left; reflexivity).
  destruct (key' x <? key' b); [| reflexivity].
  rewrite IHm by (intros y Hy; apply Hm; right; exact Hy). reflexivity.
Qed.

(** X11: when every listed event carries a last-observed timestamp, the
    resolved timestamp of each event is that one, and the selection of the
    node-level correlator and that of the pod-level correlator pick the same
    event. *)
Theorem selections_agree_on_last_observed (events : list V1Event) :
  (forall e, In e events -> is_Some (last_timestamp e)) ->
  (forall e, In e events -> get_event_timestamp e = last_timestamp e)
  /\ latest_event get_event_timestamp events = latest_event last_timestamp events.
Proof.
  intros Hall.
  assert (Hts : forall e, In e events -> get_event_timestamp e = last_timestamp e).
  { intros e Hin. destruct (Hall e Hin) as [t Ht]. unfold get_event_timestamp.
    rewrite Ht. reflexivity. }
  split; [exact Hts |]. unfold latest_event.
  assert (Hvalid : valid_events get_event_timestamp events = valid_events last_timestamp events).
  { unfold valid_events. apply filter_ext_in. intros e Hin. rewrite (Hts e Hin). reflexivity. }
  rewrite Hvalid. f_equal. apply sorted_desc_ext.
  intros e Hin. apply valid_events_In in Hin. destruct Hin as [Hin _].
  unfold key_of. rewrite (Hts e Hin). reflexivity.
Qed.

Lemma selections_agree_on_last_observed_witness :
  (forall e, In e [Samples.pulled] -> get_event_timestamp e = last_timestamp e)
  /\ latest_event get_event_timestamp [Samples.pulled]
     = latest_event last_timestamp [Samples.pulled].
Proof.
  apply (selections_agree_on_last_observed [Samples.pulled]).
  intros e [<- | []]. simpl. eauto.
Defined.

(** X12: the lookup of the latest event reason never raises, and it goes by
    the same event as the pod-level correlator: when the listing gives both
    the same answer, the reason is the ['Pod Event Reason'] of the summary if
    an event is found, ['No recent events'] if none has a last-observed
    timestamp, which is what the summary has as its type, and ['Unknown']
    if the listing raised. *)
Theorem event_reason_follows_pod_summary (B : backend) (pod_name namespace : string)
    (w1 w2 : world) :
  let selector := "involvedObject.name=" ++ pod_name in
  events_response B (calls w1) namespace selector
  = events_response B (calls w2) namespace selector ->
  exists reason summary,
    result (Static.get_latest_event_reason B pod_name namespace) w1 = inr reason
    /\ result (Static.get_latest_pod_event B pod_name namespace) w2 = inr summary
    /\ match events_response B (calls w1) namespace selector with
       | inl _ => reason = PStr "Unknown"
       | inr events =>
           match valid_events last_timestamp events with
           | [] => reason = PStr "No recent events"
                   /\ dict_get "Pod Event Type" summary = Some reason
           | _ :: _ => dict_get "Pod Event Reason" summary = Some reason
           end
       end.
Proof.
  intros selector Hsame. unfold result.
  rewrite static_pod_event_run. fold selector. rewrite <- Hsame.
  unfold Static.get_latest_event_reason. fold selector. run.
  destruct (events_response B (calls w1) namespace selector) as [e | events];
    [eexists _, _; repeat split |].
  unfold latest_event.
  destruct (valid_events last_timestamp events) as [| x l] eqn:Hv;
    [eexists _, _; repeat split |].
  unfold Static.first_sorted.
  destruct (sorted_desc_cons (key_of last_timestamp) x l) as (e & rest & ->).
  eexists _, _. repeat split.
Qed.

Lemma event_reason_follows_pod_summary_witness :
  exists reason summary,
    result (Static.get_latest_event_reason Samples.with_events "checkout-7f" "otel-demo")
           initial_world = inr reason
    /\ result (Static.get_latest_pod_event Samples.with_events "checkout-7f" "otel-demo")
              (called UtcNow initial_world) = inr summary
    /\ dict_get "Pod Event Reason" summary = Some reason.
Proof.
  exact (event_reason_follows_pod_summary Samples.with_events "checkout-7f" "otel-demo"
           initial_world (called UtcNow initial_world) eq_refl).
Defined.

(** X13: reading the last log line never raises and never gives an empty
    text: it gives the line read, ['No logs'] when the log is empty and
    ['Log retrieval error'] when the read raised. *)
Theorem last_log_entry_is_never_empty (B : backend) (pod_name namespace : string)
    (w : world) :
  exists text,
    result (Static.get_last_log_entry B pod_name namespace) w = inr (PStr text)
    /\ text <> ""
    /\ match log_response B (calls w) pod_name namespace with
       | inl _ => text = "Log retrieval error"
       | inr logs => if String.eqb logs "" then text = "No logs" else text = logs
       end.
Proof.
  unfold result, Static.get_last_log_entry. run.
  destruct (log_response B (calls w) pod_name namespace) as [e | logs]; simpl.
  - eexists. repeat split. discriminate.
  - destruct logs as [| c logs]; simpl; eexists; repeat split; discriminate.
Qed.

(** ** More on the append sink *)

Lemma sink_run (data : list dict) (w : world) :
  Static.append_rows data w
  = (inr tt,
     {| calls := calls w;
        output_file :=
          Some (match output_file w with
                | Some old => (old ++ to_csv_lines false data)%list
                | None => to_csv_lines true data
                end);
        last_known_pod_states := last_known_pod_states w |})
  /\ Azure.write_to_csv data w = Static.append_rows data w.
Proof.
  unfold Static.append_rows, Azure.write_to_csv, isfile, write_file. run.
  destruct (output_file w) as [old |] eqn:Hfile; simpl; rewrite ?Hfile; split; reflexivity.
Qed.

(** X14: the append block of the static script and [write_to_csv] of the
    other script are the same sink: on every file, absent or present, and
    for every batch of rows they leave the same file and neither raises. *)
Theorem sinks_agree (data : list dict) (w : world) :
  Azure.write_to_csv data w = Static.append_rows data w
  /\ result (Static.append_rows data) w = inr tt.
Proof.
  destruct (sink_run data w) as [Hs Ha]. split; [exact Ha |].
  unfold result. rewrite Hs. reflexivity.
Qed.

Lemma record_lines_are_records (data : list dict) :
  Forall (fun line => exists cells, line = RecordLine cells) (record_lines data).
Proof.
  unfold record_lines, to_csv_lines. simpl. apply Forall_forall. intros line Hin.
  apply list_elem_of_In, in_map_iff in Hin. destruct Hin as (row & <- & _). eauto.
Qed.

Lemma append_all_existing (batches : list (list dict)) (w : world) (old : list csv_line) :
  output_file w = Some old ->
  output_file (append_all Static.append_rows batches w)
  = Some (old ++ concat (map record_lines batches))%list.
Proof.
  revert w old. induction batches as [| data rest IH]; intros w old Hfile; simpl.
  - rewrite app_nil_r. exact Hfile.
  - erewrite IH.
    + rewrite <- app_assoc. reflexivity.
    + unfold after. rewrite (proj1 (sink_run data w)). simpl. rewrite Hfile. reflexivity.
Qed.

(** X15: the header is written once.  Starting without a file, after any
    number of calls of the sink the file begins with the header of the first
    batch, and every line after it is a record: the records of the first
    batch, then those of the later batches in the order of the calls.
    Starting with a file, the calls add records only. *)
Theorem header_is_written_once (first : list dict) (later : list (list dict)) (w : world) :
  (output_file w = None ->
   output_file (append_all Static.append_rows (first :: later) w)
   = Some (HeaderLine (frame_columns first)
           :: record_lines first ++ concat (map record_lines later))%list)
  /\ (forall old, output_file w = Some old ->
        output_file (append_all Static.append_rows (first :: later) w)
        = Some (old ++ record_lines first ++ concat (map record_lines later))%list)
  /\ Forall (fun line => exists cells, line = RecordLine cells)
            (record_lines first ++ concat (map record_lines later))%list
  /\ append_all Azure.write_to_csv (first :: later) w
     = append_all Static.append_rows (first :: later) w.
Proof.
  split; [| split; [| split]].
  - intros Hfile. simpl.
    rewrite (append_all_existing later _ (to_csv_lines true first)); [reflexivity |].
    unfold after. rewrite (proj1 (sink_run first w)). simpl. rewrite Hfile. reflexivity.
  - intros old Hfile. apply (append_all_existing (first :: later) w old Hfile).
  - apply Forall_app. split; [apply record_lines_are_records |].
    apply Forall_concat. apply Forall_forall. intros lines Hin.
    apply list_elem_of_In, in_map_iff in Hin. destruct Hin as (data & <- & _).
    apply record_lines_are_records.
  - generalize (first :: later). intros batches. revert w.
    induction batches as [| data rest IH]; intros w; [reflexivity |]. simpl.
    unfold after. rewrite (proj2 (sink_run data w)). apply IH.
Qed.

(** ** The columns of a row *)

Lemma keys_dict_set (k : string) (v : pyval) (d : dict) :
  keys (dict_set k v d) = add_column (keys d) k.
Proof.
  unfold add_column, keys. induction d as [| [k' v'] d IH]; simpl.
  - reflexivity.
  - destruct (String.eqb_spec k' k) as [-> | Hne]; simpl.
    + rewrite bool_decide_eq_true_2 by (left). reflexivity.
    + rewrite IH. destruct (bool_decide (k ∈ map fst d)) eqn:E.
      * apply bool_decide_eq_true in E.
        rewrite bool_decide_eq_true_2 by (right; exact E). reflexivity.
      * apply bool_decide_eq_false in E.
        rewrite bool_decide_eq_false_2; [reflexivity |].
        intros H. apply elem_of_cons in H. destruct H as [-> | H]; [congruence | tauto].
Qed.

Lemma keys_dict_update (d : dict) (items : list (string * pyval)) :
  keys (dict_update d items) = fold_left add_column (map fst items) (keys d).
Proof.
  unfold dict_update. revert d. induction items as [| [k v] items IH]; intros d; simpl;
    [reflexivity |].
  rewrite IH, keys_dict_set. reflexivity.
Qed.

Lemma static_make_row_columns (B : backend) (ms : Static.metrics) (timestamp pod : string)
    (w : world) (row : dict) (w' : world) :
  Static.make_row B ms timestamp pod w = (inr row, w') -> keys row = static_columns.
Proof.
  unfold Static.make_row.
  destruct (percentage_returns (get_or_zero (Static.memory_usage_data ms) pod)
              (get_or_zero (Static.memory_limit_data ms) pod)) as [pct Hpct].
  erewrite bind_returns by (unfold lift; rewrite Hpct; reflexivity).
  destruct (static_event_reason_returns B pod Static.NAMESPACE w) as (v1 & w1 & H1).
  erewrite bind_returns by exact H1.
  destruct (static_node_name_returns B pod Static.NAMESPACE w1) as (v2 & w2 & H2).
  erewrite bind_returns by exact H2.
  destruct (static_log_returns B pod Static.NAMESPACE w2) as (v3 & w3 & H3).
  erewrite bind_returns by exact H3.
  erewrite bind_returns by apply static_get_pod_status_run.
  destruct (static_pod_event_returns B pod Static.NAMESPACE
              (called (ReadNamespacedPod pod Static.NAMESPACE) w3)) as (d5 & w5 & H5 & K5).
  erewrite bind_returns by exact H5.
  destruct (static_node_event_returns B v2 w5) as (d6 & w6 & H6 & K6).
  erewrite bind_returns by exact H6.
  intros [= <- _]. rewrite !keys_dict_update.
  fold (keys d5) (keys d6). rewrite K5, K6. reflexivity.
Qed.

Lemma azure_make_row_columns (B : backend) (namespace : string)
    (cpu usage limit : gmap string float) (timestamp pod : string)
    (w : world) (row : dict) (w' : world) :
  Azure.make_row B namespace cpu usage limit timestamp pod w = (inr row, w') ->
  keys row = azure_columns.
Proof.
  unfold Azure.make_row.
  destruct (percentage_returns (get_or_zero usage pod) (get_or_zero limit pod))
    as [pct Hpct].
  erewrite bind_returns
    by (unfold lift; rewrite azure_percentage_is_static, Hpct; reflexivity).
  erewrite bind_returns by apply azure_get_pod_status_run.
  destruct (azure_pod_event_returns B pod namespace
              (called (ReadNamespacedPod pod namespace) w)) as (d2 & w2 & H2 & K2).
  erewrite bind_returns by exact H2.
  destruct (azure_node_name_returns B pod namespace w2) as (v3 & w3 & H3).
  erewrite bind_returns by exact H3.
  destruct (azure_node_event_returns B v3 w3) as (d4 & w4 & H4 & K4).
  erewrite bind_returns by exact H4.
  intros [= <- _]. rewrite !keys_dict_update.
  fold (keys d2) (keys d4). rewrite K2, K4. reflexivity.
Qed.

Section ColumnLoop.

Variable columns : list string.
Variable emit : list string -> list dict -> M (list dict).
Variable make : string -> M dict.

Hypothesis emit_nil : forall data, emit [] data = mret data.
Hypothesis emit_cons : forall pod rest data,
  emit (pod :: rest) data =
  if should_exclude_pod pod then emit rest data
  else make pod ≫= fun row => emit rest (data ++ [row])%list.
Hypothesis make_columns : forall pod w row w',
  make pod w = (inr row, w') -> keys row = columns.

Lemma row_loop_columns (pods : list string) (data : list dict) (w : world)
    (out : list dict) (w' : world) :
  emit pods data w = (inr out, w') ->
  Forall (fun row => keys row = columns) data ->
  Forall (fun row => keys row = columns) out.
Proof using emit_nil emit_cons make_columns.
  revert data w. induction pods as [| pod rest IH]; intros data w Hrun Hdata.
  - rewrite emit_nil in Hrun. injection Hrun as <- _. exact Hdata.
  - rewrite emit_cons in Hrun. destruct (should_exclude_pod pod); [eapply IH; eassumption |].
    unfold mbind, M_bind, bind in Hrun.
    destruct (make pod w) as [[e | row] w1] eqn:Hmake; [discriminate |].
    apply (IH _ _ Hrun). apply Forall_app. split; [exact Hdata |].
    constructor; [| constructor]. eapply make_columns. exact Hmake.
Qed.

End ColumnLoop.

(** X16: every row has the same columns in the same order, whatever the
    cluster and the metrics backend answer: the twenty-seven columns of the
    static script, the twenty columns of the other script.  No lookup that
    fails or finds nothing drops or adds a column. *)
Theorem rows_have_fixed_columns (B : backend) (namespace : string) (ms : Static.metrics)
    (cpu usage limit : gmap string float) (timestamp : string) (pods : list string)
    (w : world) :
  (forall rows, result (Static.emit_rows B ms timestamp pods []) w = inr rows ->
     Forall (fun row => keys row = static_columns) rows)
  /\ (forall rows,
        result (Azure.emit_rows B namespace cpu usage limit timestamp pods []) w = inr rows ->
        Forall (fun row => keys row = azure_columns) rows)
  /\ length static_columns = 27%nat /\ length azure_columns = 20%nat
  /\ NoDup static_columns /\ NoDup azure_columns.
Proof.
  split; [| split; [| split; [reflexivity | split; [reflexivity |]]]].
  - intros rows Hrun. unfold result in Hrun.
    destruct (Static.emit_rows B ms timestamp pods [] w) as [r w'] eqn:E.
    simpl in Hrun. subst r.
    apply (row_loop_columns static_columns (Static.emit_rows B ms timestamp)
             (Static.make_row B ms timestamp) (fun _ => eq_refl) (fun _ _ _ => eq_refl)
             (static_make_row_columns B ms timestamp) pods [] w rows w' E).
    constructor.
  - intros rows Hrun. unfold result in Hrun.
    destruct (Azure.emit_rows B namespace cpu usage limit timestamp pods [] w)
      as [r w'] eqn:E.
    simpl in Hrun. subst r.
    apply (row_loop_columns azure_columns
             (Azure.emit_rows B namespace cpu usage limit timestamp)
             (Azure.make_row B namespace cpu usage limit timestamp)
             (fun _ => eq_refl) (fun _ _ _ => eq_refl)
             (azure_make_row_columns B namespace cpu usage limit timestamp) pods [] w rows w' E).
    constructor.
  - split; apply (bool_decide_unpack _); vm_compute; exact I.
Qed.

(** ** The frame of a cycle *)

Lemma add_columns_fresh (ks acc : list string) :
  NoDup (acc ++ ks)%list -> fold_left add_column ks acc = (acc ++ ks)%list.
Proof.
  revert acc. induction ks as [| k ks IH]; intros acc Hnd; simpl.
  - rewrite app_nil_r. reflexivity.
  - assert (Hk : k ∉ acc).
    { apply NoDup_app in Hnd. destruct Hnd as (_ & Hdisj & _).
      intros Hin. apply (Hdisj k Hin). left. }
    unfold add_column at 2. rewrite bool_decide_eq_false_2 by exact Hk.
    rewrite IH; rewrite <- app_assoc; [reflexivity | exact Hnd].
Qed.

Lemma add_columns_known (ks cols : list string) :
  (forall k, k ∈ ks -> k ∈ cols) -> fold_left add_column ks cols = cols.
Proof.
  induction ks as [| k ks IH]; intros Hsub; simpl; [reflexivity |].
  unfold add_column at 2. rewrite bool_decide_eq_true_2 by (apply Hsub; left).
  apply IH. intros k' Hk'. apply Hsub. right. exact Hk'.
Qed.

Lemma frame_columns_uniform (columns : list string) (row : dict) (rows : list dict) :
  NoDup columns ->
  Forall (fun r => keys r = columns) (row :: rows) ->
  frame_columns (row :: rows) = columns.
Proof.
  intros Hnd Hall. apply Forall_cons in Hall. destruct Hall as [Hrow Hrows].
  unfold frame_columns. simpl. fold add_column.
  rewrite Hrow, (add_columns_fresh columns []) by exact Hnd. simpl.
  induction Hrows as [| r rs Hr _ IH]; simpl; [reflexivity |].
  fold add_column. rewrite Hr, add_columns_known by auto. exact IH.
Qed.

Lemma dict_get_of_key (k : string) (d : dict) : k ∈ keys d -> is_Some (dict_get k d).
Proof.
  unfold keys. induction d as [| [k' v'] d IH]; simpl; intros Hin; [inversion Hin |].
  destruct (String.eqb_spec k' k) as [-> | Hne]; [eauto |].
  apply IH. apply elem_of_cons in Hin. destruct Hin as [-> | Hin]; [congruence | exact Hin].
Qed.

(** X17: the frame built from the rows of a cycle that has at least one row
    has the fixed columns of the script as its header, and every record has
    a value in every column, as many cells as there are columns; the frame
    built from no row has a header without columns and no record. *)
Theorem frame_of_a_cycle (B : backend) (ms : Static.metrics) (timestamp : string)
    (pods : list string) (w : world) (rows : list dict) :
  result (Static.emit_rows B ms timestamp pods []) w = inr rows ->
  to_csv_lines true [] = [HeaderLine []]
  /\ (rows <> [] ->
      exists records,
        to_csv_lines true rows = HeaderLine static_columns :: records
        /\ length records = length rows
        /\ Forall (fun line =>
                     exists cells, line = RecordLine cells
                                   /\ length cells = 27%nat
                                   /\ Forall is_Some cells) records).
Proof.
  intros Hrun. split; [reflexivity |]. intros Hne.
  assert (Hcols : Forall (fun row => keys row = static_columns) rows).
  { unfold result in Hrun.
    destruct (Static.emit_rows B ms timestamp pods [] w) as [r w'] eqn:E.
    simpl in Hrun. subst r.
    apply (row_loop_columns static_columns (Static.emit_rows B ms timestamp)
             (Static.make_row B ms timestamp) (fun _ => eq_refl) (fun _ _ _ => eq_refl)
             (static_make_row_columns B ms timestamp) pods [] w rows w' E).
    constructor. }
  assert (Hnd : NoDup static_columns)
    by (apply (bool_decide_unpack _); vm_compute; exact I).
  destruct rows as [| row rest]; [contradiction |].
  unfold to_csv_lines. rewrite (frame_columns_uniform static_columns row rest Hnd Hcols).
  eexists. split; [reflexivity |]. split; [apply length_map |].
  apply Forall_forall. intros line Hin.
  apply list_elem_of_In, in_map_iff in Hin. destruct Hin as (r & <- & Hr).
  eexists. split; [reflexivity |]. split; [rewrite length_map; reflexivity |].
  apply Forall_forall. intros cell Hcell.
  apply list_elem_of_In, in_map_iff in Hcell. destruct Hcell as (c & <- & Hc).
  apply dict_get_of_key. rewrite Forall_forall in Hcols.
  rewrite (Hcols r) by (apply list_elem_of_In; exact Hr). apply list_elem_of_In. exact Hc.
Qed.

(** ** What a cycle leaves of the world *)

Section Keeping.

Context {S : Type} (part : world -> S).
Hypothesis part_called : forall c w, part (called c w) = part w.

Lemma keeps_ret {A} (a : A) : keeps part (mret a : M A).
Proof. intros w. reflexivity. Qed.

Lemma keeps_raise {A} (e : exn) : keeps part (raise e : M A).
Proof. intros w. reflexivity. Qed.

Lemma keeps_lift {A} (r : exn + A) : keeps part (lift r).
Proof. intros w. reflexivity. Qed.

Lemma keeps_invoke {A} (c : call) (answer : list call -> exn + A) :
  keeps part (invoke c answer).
Proof using part_called. intros w. apply part_called. Qed.

Lemma keeps_bind {A C} (m : M A) (k : A -> M C) :
  keeps part m -> (forall a, keeps part (k a)) -> keeps part (m ≫= k).
Proof.
  intros Hm Hk w. specialize (Hm w). unfold after, mbind, M_bind, bind in *.
  destruct (m w) as [[e | a] w1]; simpl in *; [exact Hm |].
  rewrite <- Hm. apply Hk.
Qed.

Lemma keeps_try {A} (body : M A) (handler : exn -> M A) :
  keeps part body -> (forall e, keeps part (handler e)) -> keeps part (try_except body handler).
Proof.
  intros Hm Hk w. specialize (Hm w). unfold after, try_except in *.
  destruct (body w) as [[e | a] w1]; simpl in *; [| exact Hm].
  rewrite <- Hm. apply Hk.
Qed.

Ltac keeping :=
  repeat first
    [ apply keeps_ret | apply keeps_raise | apply keeps_lift | apply keeps_invoke
    | apply keeps_try | apply keeps_bind
    | match goal with
      | |- forall _, _ => intro
      | |- keeps _ (let _ := _ in _) => cbv zeta
      | |- keeps _ (match ?x with _ => _ end) => destruct x
      end ].

Lemma keeps_static_lookups (B : backend) (pod : string) (node : pyval) :
  keeps part (Static.get_latest_event_reason B pod Static.NAMESPACE)
  /\ keeps part (Static.get_pod_node_name B pod Static.NAMESPACE)
  /\ keeps part (Static.get_last_log_entry B pod Static.NAMESPACE)
  /\ keeps part (Static.get_pod_status B pod Static.NAMESPACE)
  /\ keeps part (Static.get_latest_pod_event B pod Static.NAMESPACE)
  /\ keeps part (Static.get_latest_event_details_node B node).
Proof using part_called.
  unfold Static.get_latest_event_reason, Static.get_pod_node_name,
    Static.get_last_log_entry, Static.get_pod_status, Static.get_latest_pod_event,
    Static.get_latest_event_details_node, Static.first_sorted.
  repeat split; keeping.
Qed.

Lemma keeps_static_make_row (B : backend) (ms : Static.metrics) (timestamp pod : string) :
  keeps part (Static.make_row B ms timestamp pod).
Proof using part_called.
  unfold Static.make_row.
  apply keeps_bind; [apply keeps_lift | intros pct].
  apply keeps_bind; [apply (keeps_static_lookups B pod PNone) | intros v1].
  apply keeps_bind; [apply (keeps_static_lookups B pod PNone) | intros v2].
  apply keeps_bind; [apply (keeps_static_lookups B pod PNone) | intros v3].
  apply keeps_bind; [apply (keeps_static_lookups B pod PNone) | intros v4].
  apply keeps_bind; [apply (keeps_static_lookups B pod PNone) | intros v5].
  apply keeps_bind; [apply (keeps_static_lookups B pod v2) | intros v6].
  apply keeps_ret.
Qed.

Lemma keeps_static_emit_rows (B : backend) (ms : Static.metrics) (timestamp : string)
    (pods : list string) (data : list dict) :
  keeps part (Static.emit_rows B ms timestamp pods data).
Proof using part_called.
  revert data. induction pods as [| pod rest IH]; intros data; simpl.
  - apply keeps_ret.
  - destruct (should_exclude_pod pod); [apply IH |].
    apply keeps_bind; [apply keeps_static_make_row | intros row; apply IH].
Qed.

Lemma keeps_static_query (B : backend) (query : string) :
  keeps part (Static.query_prometheus B query).
Proof using part_called. unfold Static.query_prometheus. keeping. Qed.

Lemma keeps_azure_query (B : backend) (query : string) :
  keeps part (Azure.query_prometheus B query).
Proof using part_called. unfold Azure.query_prometheus, Azure.get_access_token. keeping. Qed.

Lemma keeps_azure_make_row (B : backend) (namespace : string)
    (cpu usage limit : gmap string float) (timestamp pod : string) :
  keeps part (Azure.make_row B namespace cpu usage limit timestamp pod).
Proof using part_called.
  unfold Azure.make_row, Azure.get_pod_status, Azure.get_latest_pod_event,
    Azure.get_pod_node_name, Azure.get_latest_event_details_node, Azure.first_sorted.
  keeping.
Qed.

Lemma keeps_azure_collect (B : backend) (namespace : string) :
  keeps part (Azure.collect_pod_metrics B namespace).
Proof using part_called.
  unfold Azure.collect_pod_metrics.
  apply keeps_bind; [apply keeps_invoke | intros pods].
  apply keeps_bind; [apply keeps_azure_query | intros cpu].
  apply keeps_bind; [apply keeps_azure_query | intros usage].
  apply keeps_bind; [apply keeps_azure_query | intros limit].
  apply keeps_bind; [apply keeps_invoke | intros timestamp].
  generalize (candidate_pods usage limit) ([] : list dict). intros pods' data.
  revert data. induction pods' as [| pod rest IH]; intros data; simpl.
  - apply keeps_ret.
  - destruct (should_exclude_pod pod); [apply IH |].
    apply keeps_bind; [apply keeps_azure_make_row | intros row; apply IH].
Qed.

End Keeping.

Lemma keeps_file_static_collect (B : backend) : keeps output_file (Static.collect B).
Proof.
  unfold Static.collect.
  apply keeps_bind; [apply keeps_invoke; reflexivity | intros pods].
  do 8 (apply keeps_bind; [apply keeps_static_query; reflexivity | intro]).
  apply keeps_bind; [intros w; reflexivity | intros last].
  apply keeps_bind; [intros w; reflexivity | intros ?].
  apply keeps_bind; [apply keeps_invoke; reflexivity | intros timestamp].
  apply keeps_static_emit_rows. reflexivity.
Qed.

Lemma update_last_known_is_current (current last : gmap string (option string)) :
  update_last_known current last = current.
Proof.
  unfold update_last_known. apply map_eq. intros name.
  destruct (current !! name) as [ph |] eqn:E.
  - apply map_lookup_filter_Some. split.
    + apply lookup_union_Some_l. exact E.
    + simpl. apply elem_of_dom. eauto.
  - apply map_lookup_filter_None. right. intros x _ Hin. simpl in Hin.
    apply elem_of_dom in Hin. destruct Hin as [y Hy]. congruence.
Qed.

Lemma after_bind {A C} (m : M A) (k : A -> M C) (w : world) (a : A) (w1 : world) :
  m w = (inr a, w1) -> after (m ≫= k) w = after (k a) w1.
Proof. intros H. unfold after. rewrite (bind_returns m k w a w1 H). reflexivity. Qed.

(** X18: after a cycle of the static script that returns its rows, the
    last-known map holds exactly the phases of the pods of the listing that
    are not excluded: pods that are gone are dropped, whatever the map held
    before; and collecting never touches the output file, whether it
    returns or raises. *)
Theorem last_known_follows_listing (B : backend) (w : world) (pods : list V1Pod)
    (data : list dict) :
  pods_response B (calls w) Static.NAMESPACE = inr pods ->
  result (Static.collect B) w = inr data ->
  last_known_pod_states (after (Static.collect B) w) = pod_states pods
  /\ output_file (after (Static.collect B) w) = output_file w
  /\ (forall current last, update_last_known current last = current).
Proof.
  intros Hpods Hrun.
  split; [| split; [apply keeps_file_static_collect | apply update_last_known_is_current]].
  unfold Static.collect in *.
  rewrite (after_bind _ _ w pods (called (ListNamespacedPod Static.NAMESPACE) w))
    by (unfold invoke; rewrite Hpods; reflexivity).
  apply bind_result_inv in Hrun. destruct Hrun as (pods' & w0 & Hlist & Hrun).
  unfold invoke in Hlist. rewrite Hpods in Hlist. injection Hlist as <- <-.
  set (w0 := called (ListNamespacedPod Static.NAMESPACE) w) in *.
  assert (K0 : last_known_pod_states w0 = last_known_pod_states w) by reflexivity.
  repeat match type of Hrun with
         | result (Static.query_prometheus B ?q ≫= _) ?wi = _ =>
             let m := fresh "m" in let wj := fresh "wq" in let Hq := fresh "Hq" in
             let K := fresh "K" in
             apply bind_result_inv in Hrun; destruct Hrun as (m & wj & Hq & Hrun);
             rewrite (after_bind _ _ wi m wj Hq);
             pose proof (keeps_static_query last_known_pod_states
                           (fun _ _ => eq_refl) B q wi) as K;
             unfold after in K; rewrite Hq in K; simpl in K
         end.
  unfold get_last_known, set_last_known, mbind, M_bind, bind, after. simpl.
  match goal with
  | |- last_known_pod_states (snd (Static.emit_rows B ?ms ?ts ?ps ?d ?wi)) = _ =>
      pose proof (keeps_static_emit_rows last_known_pod_states (fun _ _ => eq_refl)
                    B ms ts ps d wi) as Kemit
  end.
  unfold after in Kemit. rewrite Kemit. simpl.
  apply update_last_known_is_current.
Qed.

(** ** The states of the listed pods *)

Lemma pod_states_snoc (items : list V1Pod) (pod : V1Pod) :
  pod_states (items ++ [pod])
  = if should_exclude_pod (metadata_name pod) then pod_states items
    else <[metadata_name pod := phase pod]> (pod_states items).
Proof. unfold pod_states. rewrite fold_left_app. reflexivity. Qed.

(** X19: the map of current pod states never holds an excluded pod, and
    holds for every other pod the phase of its last entry in the listing;
    a pod that is not listed is not in the map. *)
Theorem pod_states_of_listing (items : list V1Pod) (name : string) :
  pod_states items !! name
  = if should_exclude_pod name then None
    else phase <$> last (filter (fun pod => metadata_name pod = name) items).
Proof.
  induction items as [| pod items IH] using rev_ind.
  - simpl. destruct (should_exclude_pod name); reflexivity.
  - rewrite pod_states_snoc, filter_app.
    destruct (decide (metadata_name pod = name)) as [E | E].
    + rewrite filter_cons_True by exact E. rewrite filter_nil, last_snoc. simpl.
      rewrite E. destruct (should_exclude_pod name) eqn:Hex.
      * rewrite IH. reflexivity.
      * rewrite lookup_insert_eq. reflexivity.
    + rewrite filter_cons_False by exact E. rewrite filter_nil, app_nil_r.
      destruct (should_exclude_pod (metadata_name pod)); [exact IH |].
      rewrite lookup_insert_ne by exact E. exact IH.
Qed.

(** ** Failing metric queries *)

Lemma static_query_returns (B : backend) (query : string) (w : world) :
  fails_with_requests_only B ->
  exists mapping,
    Static.query_prometheus B query w = (inr mapping, called (PrometheusQuery None query) w)
    /\ (forall e, query_response B (calls w) None query = inl e -> mapping = ∅).
Proof.
  intros Honly. unfold Static.query_prometheus. run.
  destruct (query_response B (calls w) None query) as [e | results] eqn:E.
  - destruct (Honly _ _ _ _ E) as [msg ->]. exists ∅. split; [reflexivity | auto].
  - eexists. split; [reflexivity |]. intros e [=].
Qed.

(** X20: metric queries that fail with an exception of the HTTP library do
    not stop a cycle of the static script: once the pods are listed, the
    cycle returns its rows whatever the other lookups answer; and when every
    metric query fails so, the cycle returns no row at all. *)
Theorem failing_queries_leave_cycle_running (B : backend) (w : world) (pods : list V1Pod) :
  fails_with_requests_only B ->
  pods_response B (calls w) Static.NAMESPACE = inr pods ->
  (exists data, result (Static.collect B) w = inr data)
  /\ ((forall tr token query, exists e, query_response B tr token query = inl e) ->
      result (Static.collect B) w = inr []).
Proof.
  intros Honly Hpods.
  assert (Hrun : exists cpu usage limit ms timestamp w1,
             Static.collect B w
             = Static.emit_rows B ms timestamp (candidate_pods usage limit) [] w1
             /\ Static.memory_usage_data ms = usage /\ Static.memory_limit_data ms = limit
             /\ Static.cpu_usage_data ms = cpu
             /\ ((forall tr token query, exists e, query_response B tr token query = inl e) ->
                 usage = ∅ /\ limit = ∅)).
  { unfold Static.collect.
    erewrite bind_returns by (unfold invoke; rewrite Hpods; reflexivity).
    destruct (static_query_returns B Static.cpu_usage_query
                (called (ListNamespacedPod Static.NAMESPACE) w) Honly) as (m1 & H1 & _).
    erewrite bind_returns by exact H1.
    destruct (static_query_returns B Static.memory_usage_query
                (called (PrometheusQuery None Static.cpu_usage_query)
                   (called (ListNamespacedPod Static.NAMESPACE) w)) Honly) as (m2 & H2 & E2).
    erewrite bind_returns by exact H2.
    match type of H2 with _ = (_, ?w2) =>
      destruct (static_query_returns B Static.memory_limit_query w2 Honly) as (m3 & H3 & E3)
    end.
    erewrite bind_returns by exact H3.
    do 5 (match goal with
          | |- context [(Static.query_prometheus B ?q ≫= ?k) ?wi] =>
              let m := fresh "m" in let H := fresh "H" in
              destruct (static_query_returns B q wi Honly) as (m & H & _);
              erewrite (bind_returns (Static.query_prometheus B q) k wi) by exact H
          end).
    unfold get_last_known, set_last_known, invoke.
    unfold mbind at 1 2 3, M_bind, bind. simpl.
    eexists m1, m2, m3, _, _, _. split; [reflexivity |].
    split; [reflexivity |]. split; [reflexivity |]. split; [reflexivity |].
    intros Hall. split.
    - destruct (Hall (calls (called (PrometheusQuery None Static.cpu_usage_query)
                               (called (ListNamespacedPod Static.NAMESPACE) w)))
                  None Static.memory_usage_query) as [e He].
      exact (E2 e He).
    - match type of H3 with Static.query_prometheus _ _ ?w2 = _ =>
        destruct (Hall (calls w2) None Static.memory_limit_query) as [e He]
      end.
      exact (E3 e He). }
  destruct Hrun as (cpu & usage & limit & ms & timestamp & w1 & Hrun & Hu & Hl & _ & Hempty).
  unfold result. rewrite Hrun. split.
  - destruct (static_emit_rows_returns B ms timestamp (candidate_pods usage limit) w1)
      as (out & w' & Hout & _).
    exists out. rewrite Hout. reflexivity.
  - intros Hall. destruct (Hempty Hall) as [-> ->]. reflexivity.
Qed.

(** ** A turn of the main loop *)

Lemma static_turn_run (B : backend) (w : world) :
  Static.loop_turn B w
  = match Static.collect B w with
    | (inl _, w1) => (inr tt, w1)
    | (inr data, w1) =>
        (inr tt, called (Sleep Static.SLEEP_INTERVAL) (after (Static.append_rows data) w1))
    end.
Proof.
  unfold Static.loop_turn, Static.cycle, try_except, mbind, M_bind, bind.
  destruct (Static.collect B w) as [[e | data] w1]; [reflexivity |].
  unfold after. rewrite (proj1 (sink_run data w1)). reflexivity.
Qed.

Lemma azure_turn_run (B : backend) (namespace : string) (interval : Z) (w : world) :
  Azure.loop_turn B namespace interval w
  = match Azure.collect_pod_metrics B namespace w with
    | (inl _, w1) => (inr tt, w1)
    | (inr data, w1) =>
        (inr tt, called (Sleep interval) (after (Static.append_rows data) w1))
    end.
Proof.
  unfold Azure.loop_turn, Azure.cycle, try_except, mbind, M_bind, bind.
  destruct (Azure.collect_pod_metrics B namespace w) as [[e | data] w1]; [reflexivity |].
  unfold after. rewrite (proj2 (sink_run data w1)), (proj1 (sink_run data w1)). reflexivity.
Qed.

(** X21: a turn of the main loop never raises, whatever fails inside the
    cycle, and the output file only grows: when the collection raises the
    file is as it was before the turn, and when it returns its rows the file
    is the file before the turn followed by the records of these rows, or
    the header and the records when there was no file. *)
Theorem loop_turn_only_grows_file (B : backend) (namespace : string) (interval : Z)
    (w : world) :
  result (Static.loop_turn B) w = inr tt
  /\ result (Azure.loop_turn B namespace interval) w = inr tt
  /\ output_file (after (Static.loop_turn B) w)
     = match result (Static.collect B) w, output_file w with
       | inl _, file => file
       | inr data, Some old => Some (old ++ record_lines data)%list
       | inr data, None => Some (HeaderLine (frame_columns data) :: record_lines data)
       end
  /\ output_file (after (Azure.loop_turn B namespace interval) w)
     = match result (Azure.collect_pod_metrics B namespace) w, output_file w with
       | inl _, file => file
       | inr data, Some old => Some (old ++ record_lines data)%list
       | inr data, None => Some (HeaderLine (frame_columns data) :: record_lines data)
       end.
Proof.
  unfold result, after. rewrite static_turn_run, azure_turn_run.
  pose proof (keeps_file_static_collect B w) as Ks.
  pose proof (keeps_azure_collect output_file (fun _ _ => eq_refl) B namespace w) as Ka.
  unfold after in Ks, Ka.
  destruct (Static.collect B w) as [[e | data] w1];
    destruct (Azure.collect_pod_metrics B namespace w) as [[e' | data'] w1'];
    unfold after; simpl in *; rewrite ?(proj1 (sink_run _ _)); simpl; rewrite ?Ks, ?Ka;
    repeat split; try reflexivity; destruct (output_file w); reflexivity.
Qed.

(** ** Exclusion by substring *)

Lemma occurs_in_longer (sub name before after_ : string) :
  occurs_in sub name -> occurs_in sub (before ++ name ++ after_).
Proof.
  intros (b & a & ->). exists (before ++ b), (a ++ after_).
  rewrite !append_assoc. reflexivity.
Qed.

(** X22: a pod is excluded exactly when one of the seven listed names occurs
    in its name, at any place and with the same letter case; so a name that
    contains the name of an excluded pod is excluded as well, and the empty
    name is not excluded. *)
Theorem exclusion_is_by_substring (name : string) :
  (should_exclude_pod name = true <-> excluded_entity name)
  /\ (forall before after_,
        should_exclude_pod name = true ->
        should_exclude_pod (before ++ name ++ after_) = true)
  /\ should_exclude_pod "" = false
  /\ length EXCLUDE_POD_NAMES = 7%nat.
Proof.
  split; [apply should_exclude_pod_spec |]. split; [| split; reflexivity].
  intros before after_ H. apply should_exclude_pod_spec in H.
  apply should_exclude_pod_spec. destruct H as (sub & Hin & Hocc).
  exists sub. split; [exact Hin | apply occurs_in_longer; exact Hocc].
Qed.

(** ** The calls of a row *)

Lemma cluster_calls_called (c : call) (w : world) :
  cluster_calls (calls (called c w))
  = (cluster_calls (calls w)
     ++ match c with UtcNow | LocalNow => [] | _ => [c] end)%list.
Proof.
  unfold cluster_calls, called. simpl. rewrite List.filter_app. simpl.
  destruct c; reflexivity.
Qed.

Lemma static_event_reason_calls (B : backend) (pod_name namespace : string) (w : world) :
  exists v,
    Static.get_latest_event_reason B pod_name namespace w
    = (inr v, called (ListNamespacedEvent namespace ("involvedObject.name=" ++ pod_name)) w).
Proof.
  unfold Static.get_latest_event_reason. run.
  destruct (events_response B (calls w) namespace _) as [e | events]; [eauto |].
  destruct (valid_events last_timestamp events) as [| x l]; [eauto |].
  unfold Static.first_sorted.
  destruct (sorted_desc_cons (key_of last_timestamp) x l) as (e & rest & ->). eauto.
Qed.

Lemma node_name_run (B : backend) (pod_name namespace : string) (w : world) :
  Static.get_pod_node_name B pod_name namespace w
  = (inr match pod_response B (calls w) pod_name namespace with
         | inr pod => of_opt_str (node_name pod)
         | inl _ => PStr "Unknown"
         end, called (ReadNamespacedPod pod_name namespace) w)
  /\ Azure.get_pod_node_name B pod_name namespace w
     = Static.get_pod_node_name B pod_name namespace w.
Proof.
  unfold Static.get_pod_node_name, Azure.get_pod_node_name. run.
  destruct (pod_response B (calls w) pod_name namespace); split; reflexivity.
Qed.

Lemma static_log_calls (B : backend) (pod_name namespace : string) (w : world) :
  exists v,
    Static.get_last_log_entry B pod_name namespace w
    = (inr v, called (ReadNamespacedPodLog pod_name namespace) w).
Proof.
  unfold Static.get_last_log_entry. run.
  destruct (log_response B (calls w) pod_name namespace); eauto.
Qed.

Lemma pod_event_calls (B : backend) (pod_name namespace : string) (w : world) :
  (exists d w',
      Static.get_latest_pod_event B pod_name namespace w = (inr d, w')
      /\ keys d = Azure.pod_event_keys
      /\ cluster_calls (calls w')
         = (cluster_calls (calls w)
            ++ [ListNamespacedEvent namespace ("involvedObject.name=" ++ pod_name)])%list)
  /\ (exists d w',
        Azure.get_latest_pod_event B pod_name namespace w = (inr d, w')
        /\ keys d = Azure.pod_event_keys
        /\ cluster_calls (calls w')
           = (cluster_calls (calls w)
              ++ [ListNamespacedEvent namespace ("involvedObject.name=" ++ pod_name)])%list).
Proof.
  rewrite static_pod_event_run, azure_pod_event_run.
  destruct (events_response B (calls w) namespace _) as [e | events].
  - split; eexists _, _; (split; [reflexivity |]); (split; [reflexivity |]);
      rewrite cluster_calls_called; reflexivity.
  - destruct (latest_event last_timestamp events);
      split; eexists _, _; (split; [reflexivity |]); (split; [reflexivity |]);
      rewrite !cluster_calls_called, ?app_nil_r; reflexivity.
Qed.

Lemma node_event_calls (B : backend) (node : pyval) (w : world) :
  (exists d w',
      Static.get_latest_event_details_node B node w = (inr d, w')
      /\ keys d = Azure.node_event_keys
      /\ dict_get "Node Name" d = Some node
      /\ cluster_calls (calls w')
         = (cluster_calls (calls w)
            ++ [ListEventForAllNamespaces (Static.node_selector node)])%list)
  /\ (exists d w',
        Azure.get_latest_event_details_node B node w = (inr d, w')
        /\ keys d = Azure.node_event_keys
        /\ cluster_calls (calls w')
           = (cluster_calls (calls w)
              ++ [ListEventForAllNamespaces (Static.node_selector node)])%list).
Proof.
  rewrite static_node_event_run, azure_node_event_run.
  change (Azure.node_selector node) with (Static.node_selector node).
  destruct (all_events_response B (calls w) _) as [e | events].
  - split; eexists _, _; (split; [reflexivity |]); repeat (split; [reflexivity |]);
      rewrite cluster_calls_called; reflexivity.
  - destruct (latest_event get_event_timestamp events);
      split; eexists _, _; (split; [reflexivity |]); repeat (split; [reflexivity |]);
      rewrite !cluster_calls_called, ?app_nil_r; reflexivity.
Qed.

Lemma dict_get_set_eq (k : string) (v : pyval) (d : dict) :
  dict_get k (dict_set k v d) = Some v.
Proof.
  induction d as [| [k' v'] d IH]; simpl.
  - rewrite String.eqb_refl. reflexivity.
  - destruct (String.eqb_spec k' k) as [-> | Hne]; simpl.
    + rewrite String.eqb_refl. reflexivity.
    + destruct (String.eqb_spec k' k); [contradiction | exact IH].
Qed.

Lemma dict_get_In (k : string) (v : pyval) (d : dict) :
  dict_get k d = Some v -> In (k, v) d.
Proof.
  induction d as [| [k' v'] d IH]; simpl; [discriminate |].
  destruct (String.eqb_spec k' k) as [-> | Hne].
  - intros [= ->]. left. reflexivity.
  - intros H. right. apply IH. exact H.
Qed.

(** A key of the items that occurs once among them gets its value. *)
Lemma dict_get_update_in (k : string) (v : pyval) (items : list (string * pyval))
    (d : dict) :
  NoDup (map fst items) -> In (k, v) items -> dict_get k (dict_update d items) = Some v.
Proof.
  unfold dict_update. revert d.
  induction items as [| [k1 v1] items IH]; intros d Hnd Hin; [destruct Hin |].
  simpl in *. apply NoDup_cons in Hnd. destruct Hnd as [Hk1 Hnd].
  destruct Hin as [[= -> ->] | Hin].
  - fold (dict_update (dict_set k v d) items). rewrite dict_get_update_other.
    + apply dict_get_set_eq.
    + intros H. apply Hk1. apply list_elem_of_In. exact H.
  - apply IH; assumption.
Qed.

(** X23: what a row costs.  For each pod the static script lists the events
    of the pod, reads the pod, reads its log, reads the pod a second time,
    lists the events of the pod a second time and lists the events of the
    node, in this order and whatever the answers are; the other script reads
    the pod, lists its events, reads the pod a second time and lists the
    events of the node.  The node asked about is the node of the pod as the
    read just before reports it: [None] for a pod without a node,
    ['Unknown'] when that read raised. *)
Theorem calls_of_a_row (B : backend) (namespace : string) (ms : Static.metrics)
    (cpu usage limit : gmap string float) (timestamp pod : string) (w : world) :
  let events_of_pod ns := ListNamespacedEvent ns ("involvedObject.name=" ++ pod) in
  let node_of (w1 : world) (ns : string) :=
    match pod_response B (calls w1) pod ns with
    | inr p => of_opt_str (node_name p)
    | inl _ => PStr "Unknown"
    end in
  (exists row w' w1,
      Static.make_row B ms timestamp pod w = (inr row, w')
      /\ w1 = called (events_of_pod Static.NAMESPACE) w
      /\ cluster_calls (calls w')
         = (cluster_calls (calls w)
            ++ [events_of_pod Static.NAMESPACE;
                ReadNamespacedPod pod Static.NAMESPACE;
                ReadNamespacedPodLog pod Static.NAMESPACE;
                ReadNamespacedPod pod Static.NAMESPACE;
                events_of_pod Static.NAMESPACE;
                ListEventForAllNamespaces
                  (Static.node_selector (node_of w1 Static.NAMESPACE))])%list
      /\ dict_get "Node Name" row = Some (node_of w1 Static.NAMESPACE))
  /\ (exists row w' w1,
        Azure.make_row B namespace cpu usage limit timestamp pod w = (inr row, w')
        /\ cluster_calls (calls w1)
           = (cluster_calls (calls w)
              ++ [ReadNamespacedPod pod namespace; events_of_pod namespace])%list
        /\ cluster_calls (calls w')
           = (cluster_calls (calls w)
              ++ [ReadNamespacedPod pod namespace;
                  events_of_pod namespace;
                  ReadNamespacedPod pod namespace;
                  ListEventForAllNamespaces
                    (Static.node_selector (node_of w1 namespace))])%list).
Proof.
  intros events_of_pod node_of. split.
  - unfold Static.make_row.
    destruct (percentage_returns (get_or_zero (Static.memory_usage_data ms) pod)
                (get_or_zero (Static.memory_limit_data ms) pod)) as [pct Hpct].
    erewrite bind_returns by (unfold lift; rewrite Hpct; reflexivity).
    destruct (static_event_reason_calls B pod Static.NAMESPACE w) as (v1 & H1).
    erewrite bind_returns by exact H1.
    erewrite bind_returns by apply (proj1 (node_name_run B pod Static.NAMESPACE _)).
    match goal with |- context [called (ReadNamespacedPod _ _) ?wa] => set (w1 := wa) end.
    destruct (static_log_calls B pod Static.NAMESPACE
                (called (ReadNamespacedPod pod Static.NAMESPACE) w1)) as (v3 & H3).
    erewrite bind_returns by exact H3.
    erewrite bind_returns by apply static_get_pod_status_run.
    match goal with
    | |- context [(Static.get_latest_pod_event B pod Static.NAMESPACE ≫= _) ?wa] =>
        destruct (proj1 (pod_event_calls B pod Static.NAMESPACE wa))
          as (d5 & w5 & H5 & K5 & C5)
    end.
    erewrite bind_returns by exact H5.
    destruct (proj1 (node_event_calls B (node_of w1 Static.NAMESPACE) w5))
      as (d6 & w6 & H6 & K6 & N6 & C6).
    erewrite bind_returns by exact H6.
    eexists _, w6, w1. split; [reflexivity |]. split; [reflexivity |]. split.
    + rewrite C6, C5. unfold w1. rewrite !cluster_calls_called, <- !app_assoc. reflexivity.
    + apply dict_get_update_in.
      * fold (keys d6). rewrite K6. apply (bool_decide_unpack _). vm_compute. exact I.
      * apply dict_get_In. exact N6.
  - unfold Azure.make_row.
    destruct (percentage_returns (get_or_zero usage pod) (get_or_zero limit pod))
      as [pct Hpct].
    erewrite bind_returns
      by (unfold lift; rewrite azure_percentage_is_static, Hpct; reflexivity).
    erewrite bind_returns by apply azure_get_pod_status_run.
    destruct (proj2 (pod_event_calls B pod namespace
                       (called (ReadNamespacedPod pod namespace) w)))
      as (d2 & w2 & H2 & K2 & C2).
    erewrite bind_returns by exact H2.
    erewrite bind_returns
      by (rewrite (proj2 (node_name_run B pod namespace w2));
          apply (proj1 (node_name_run B pod namespace w2))).
    destruct (proj2 (node_event_calls B (node_of w2 namespace)
                       (called (ReadNamespacedPod pod namespace) w2)))
      as (d4 & w4 & H4 & K4 & C4).
    erewrite bind_returns by exact H4.
    eexists _, w4, w2. split; [reflexivity |]. split.
    + rewrite C2, cluster_calls_called. rewrite <- app_assoc. reflexivity.
    + rewrite C4, cluster_calls_called, C2, cluster_calls_called, <- !app_assoc.
      reflexivity.
Qed.

(** ** Tokens *)

Section Adding.

Variable kind : call -> Prop.

Lemma adds_ret {A} (a : A) : adds_calls kind (mret a : M A).
Proof. intros w. exists []. rewrite app_nil_r. split; [reflexivity | constructor]. Qed.

Lemma adds_raise {A} (e : exn) : adds_calls kind (raise e : M A).
Proof. intros w. exists []. rewrite app_nil_r. split; [reflexivity | constructor]. Qed.

Lemma adds_lift {A} (r : exn + A) : adds_calls kind (lift r).
Proof. intros w. exists []. rewrite app_nil_r. split; [reflexivity | constructor]. Qed.

Lemma adds_invoke {A} (c : call) (answer : list call -> exn + A) :
  kind c -> adds_calls kind (invoke c answer).
Proof. intros Hc w. exists [c]. split; [reflexivity | constructor; [exact Hc | constructor]]. Qed.

Lemma adds_bind {A C} (m : M A) (k : A -> M C) :
  adds_calls kind m -> (forall a, adds_calls kind (k a)) -> adds_calls kind (m ≫= k).
Proof.
  intros Hm Hk w. destruct (Hm w) as (more & Hmore & Hall).
  unfold after, mbind, M_bind, bind in *.
  destruct (m w) as [[e | a] w1]; simpl in *; [eauto |].
  destruct (Hk a w1) as (more' & Hmore' & Hall'). unfold after in Hmore'.
  exists (more ++ more')%list. rewrite Hmore', Hmore, app_assoc.
  split; [reflexivity | apply Forall_app; auto].
Qed.

Lemma adds_try {A} (body : M A) (handler : exn -> M A) :
  adds_calls kind body -> (forall e, adds_calls kind (handler e)) ->
  adds_calls kind (try_except body handler).
Proof.
  intros Hm Hk w. destruct (Hm w) as (more & Hmore & Hall).
  unfold after, try_except in *.
  destruct (body w) as [[e | a] w1]; simpl in *; [| eauto].
  destruct (Hk e w1) as (more' & Hmore' & Hall'). unfold after in Hmore'.
  exists (more ++ more')%list. rewrite Hmore', Hmore, app_assoc.
  split; [reflexivity | apply Forall_app; auto].
Qed.

End Adding.

Ltac adding :=
  repeat first
    [ apply adds_ret | apply adds_raise | apply adds_lift
    | apply adds_invoke; exact I
    | apply adds_try | apply adds_bind
    | match goal with
      | |- forall _, _ => intro
      | |- adds_calls _ (let _ := _ in _) => cbv zeta
      | |- adds_calls _ (match ?x with _ => _ end) => destruct x
      end ].

Lemma azure_rows_add_no_metric_call (B : backend) (namespace : string)
    (cpu usage limit : gmap string float) (timestamp : string) (pods : list string)
    (data : list dict) :
  adds_calls no_metric_call (Azure.emit_rows B namespace cpu usage limit timestamp pods data).
Proof.
  revert data. induction pods as [| pod rest IH]; intros data; simpl.
  - apply adds_ret.
  - destruct (should_exclude_pod pod); [apply IH |].
    apply adds_bind; [| intros row; apply IH].
    unfold Azure.make_row, Azure.get_pod_status, Azure.get_latest_pod_event,
      Azure.get_pod_node_name, Azure.get_latest_event_details_node, Azure.first_sorted.
    adding.
Qed.

Lemma azure_query_trace (B : backend) (query : string) (w w' : world)
    (mapping : gmap string float) :
  Azure.query_prometheus B query w = (inr mapping, w') ->
  exists token,
    token_response B (calls w) = inr token
    /\ w' = called (PrometheusQuery (Some token) query) (called GetAccessToken w).
Proof.
  unfold Azure.query_prometheus, Azure.get_access_token. run.
  destruct (token_response B (calls w)) as [e | token]; [discriminate |].
  intros H. exists token. split; [reflexivity |].
  destruct (query_response B _ (Some token) query) as [[] | results];
    simpl in H; try discriminate; injection H as _ <-; reflexivity.
Qed.

(** X24: tokens are not kept.  A cycle of the script with bearer-token
    authentication that returns its rows has requested a token right before
    each of its three metric queries and sent each query with the token that
    this request answered; after the third query it makes no further token
    request and no further metric query. *)
Theorem tokens_are_requested_per_query (B : backend) (namespace : string) (w : world)
    (data : list dict) :
  result (Azure.collect_pod_metrics B namespace) w = inr data ->
  exists t1 t2 t3 more,
    let tr0 := (calls w ++ [ListNamespacedPod namespace])%list in
    let tr1 := (tr0 ++ [GetAccessToken;
                        PrometheusQuery (Some t1) (Azure.cpu_usage_query namespace)])%list in
    let tr2 := (tr1 ++ [GetAccessToken;
                        PrometheusQuery (Some t2) (Azure.memory_usage_query namespace)])%list in
    let tr3 := (tr2 ++ [GetAccessToken;
                        PrometheusQuery (Some t3) (Azure.memory_limit_query namespace)])%list in
    calls (after (Azure.collect_pod_metrics B namespace) w) = (tr3 ++ more)%list
    /\ token_response B tr0 = inr t1
    /\ token_response B tr1 = inr t2
    /\ token_response B tr2 = inr t3
    /\ Forall no_metric_call more.
Proof.
  intros Hrun. unfold Azure.collect_pod_metrics in *.
  apply bind_result_inv in Hrun. destruct Hrun as (pods & w0 & H0 & Hrun).
  rewrite (after_bind _ _ _ _ _ H0).
  assert (E0 : w0 = called (ListNamespacedPod namespace) w)
    by (unfold invoke in H0; injection H0 as _ <-; reflexivity).
  apply bind_result_inv in Hrun. destruct Hrun as (cpu & w1 & H1 & Hrun).
  rewrite (after_bind _ _ _ _ _ H1).
  destruct (azure_query_trace _ _ _ _ _ H1) as (t1 & T1 & E1).
  apply bind_result_inv in Hrun. destruct Hrun as (usage & w2 & H2 & Hrun).
  rewrite (after_bind _ _ _ _ _ H2).
  destruct (azure_query_trace _ _ _ _ _ H2) as (t2 & T2 & E2).
  apply bind_result_inv in Hrun. destruct Hrun as (limit & w3 & H3 & Hrun).
  rewrite (after_bind _ _ _ _ _ H3).
  destruct (azure_query_trace _ _ _ _ _ H3) as (t3 & T3 & E3).
  apply bind_result_inv in Hrun. destruct Hrun as (timestamp & w4 & H4 & Hrun).
  rewrite (after_bind _ _ _ _ _ H4).
  assert (E4 : w4 = called LocalNow w3)
    by (unfold invoke in H4; injection H4 as _ <-; reflexivity).
  destruct (azure_rows_add_no_metric_call B namespace cpu usage limit timestamp
              (candidate_pods usage limit) [] w4) as (more & Hmore & Hall).
  exists t1, t2, t3, (LocalNow :: more). cbv zeta.
  subst w0 w1 w2 w3 w4. simpl in *.
  split; [| split; [exact T1 | split; [| split]]].
  - rewrite Hmore. simpl. rewrite <- !app_assoc. reflexivity.
  - rewrite <- T2. f_equal. rewrite <- !app_assoc. reflexivity.
  - rewrite <- T3. f_equal. rewrite <- !app_assoc. reflexivity.
  - constructor; [exact I | exact Hall].
Qed.

Lemma tokens_are_requested_per_query_witness :
  exists data t1 t2 t3 more,
    result (Azure.collect_pod_metrics Samples.no_events "otel-demo") initial_world = inr data
    /\ calls (after (Azure.collect_pod_metrics Samples.no_events "otel-demo") initial_world)
       = ([ListNamespacedPod "otel-demo";
           GetAccessToken; PrometheusQuery (Some t1) (Azure.cpu_usage_query "otel-demo");
           GetAccessToken; PrometheusQuery (Some t2) (Azure.memory_usage_query "otel-demo");
           GetAccessToken; PrometheusQuery (Some t3) (Azure.memory_limit_query "otel-demo")]
          ++ more)%list
    /\ Forall no_metric_call more.
Proof.
  eexists.
  destruct (tokens_are_requested_per_query Samples.no_events "otel-demo" initial_world _
              ltac:(vm_compute; reflexivity)) as (t1 & t2 & t3 & more & Hcalls & _ & _ & _ & Hall).
  exists t1, t2, t3, more. split; [vm_compute; reflexivity |].
  split; [exact Hcalls | exact Hall].
Defined.

(** ** The properties at sample clusters *)

Lemma rows_follow_memory_samples_witness :
  exists rows,
    result (Static.emit_rows Samples.no_events Samples.sample_metrics "now"
              (candidate_pods (Static.memory_usage_data Samples.sample_metrics)
                              (Static.memory_limit_data Samples.sample_metrics)) [])
           initial_world = inr rows
    /\ NoDup (map (dict_get "Pod Name") rows)
    /\ forall pod,
         In (Some (PStr pod)) (map (dict_get "Pod Name") rows)
         <-> (is_Some (Static.memory_usage_data Samples.sample_metrics !! pod)
              \/ is_Some (Static.memory_limit_data Samples.sample_metrics !! pod))
             /\ should_exclude_pod pod = false.
Proof.
  eexists. split; [vm_compute; reflexivity |].
  apply (rows_follow_memory_samples Samples.no_events Samples.sample_metrics "now"
           initial_world).
  vm_compute. reflexivity.
Defined.

Lemma frame_of_a_cycle_witness :
  exists rows,
    result (Static.emit_rows Samples.no_events Samples.sample_metrics "now"
              ["cart-5d"; "checkout-7f"] []) initial_world = inr rows
    /\ to_csv_lines true [] = [HeaderLine []]
    /\ (rows <> [] ->
        exists records,
          to_csv_lines true rows = HeaderLine static_columns :: records
          /\ length records = length rows
          /\ Forall (fun line =>
                       exists cells, line = RecordLine cells
                                     /\ length cells = 27%nat
                                     /\ Forall is_Some cells) records).
Proof.
  eexists. split; [vm_compute; reflexivity |].
  apply (frame_of_a_cycle Samples.no_events Samples.sample_metrics "now"
           ["cart-5d"; "checkout-7f"] initial_world).
  vm_compute. reflexivity.
Defined.

Lemma last_known_follows_listing_witness :
  exists data,
    result (Static.collect MoreSamples.listed) initial_world = inr data
    /\ last_known_pod_states (after (Static.collect MoreSamples.listed) initial_world)
       = {["checkout-7f" := Some "Running"]}
    /\ output_file (after (Static.collect MoreSamples.listed) initial_world) = None.
Proof.
  eexists. split; [vm_compute; reflexivity |].
  destruct (last_known_follows_listing MoreSamples.listed initial_world
              [Samples.checkout_pod None None;
               {| metadata_name := "prometheus-0"; phase := Some "Running";
                  status_reason := None; container_statuses := None;
                  init_container_statuses := None; spec_containers := ["prometheus"];
                  node_name := Some "node-1" |}]
              _ eq_refl ltac:(vm_compute; reflexivity)) as (Hlast & Hfile & _).
  split; [rewrite Hlast; reflexivity | exact Hfile].
Defined.

Lemma failing_queries_leave_cycle_running_witness :
  (exists data, result (Static.collect MoreSamples.timing_out) initial_world = inr data)
  /\ ((forall tr token query,
         exists e, query_response MoreSamples.timing_out tr token query = inl e) ->
      result (Static.collect MoreSamples.timing_out) initial_world = inr []).
Proof.
  apply (failing_queries_leave_cycle_running MoreSamples.timing_out initial_world []).
  - intros tr token query e H. simpl in H. injection H as <-. eauto.
  - reflexivity.
Defined.
